(** * CryptoPulse: sentiment aggregation, price analysis and correlation

    A shallow embedding of parts of the CryptoPulse dashboard:

    - [services/sentiment_analyzer.py]: [SentimentAnalyzer.analyze_text],
      [_generate_sentiment_explanation] and [analyze_posts];
    - [utils/analysis.py]: [PriceAnalyzer];
    - [app.py]: the two loops of [get_price_correlation] that fill the
      correlation matrix (live data and demo data), the validation of the
      request and the choice between the two loops, [sanitize_for_json],
      [check_credentials] and [analyze_text_sentiment];
    - [services/stocks/sentiment_service.py]: [StockSentimentService];
    - [services/stocks/visualization_service.py]:
      [prepare_sentiment_distribution_data];
    - [services/stocks/data_service.py]: [get_stock_analysis] and the
      averages of [get_stock_price_history].

    Numbers.  Python floats are binary64.  The sentiment and price parts
    are about means, fractions and thresholds, and are modelled over exact
    rationals ([Q]); rounding and overflow are outside that model, and a
    value that is not a number (NaN) is written [None].  What is stated
    over [Q] is either the code's own sum, quotient or product, of which
    the binary64 value is the rounding, or an order between such values
    that rounding keeps; an equation that holds only without rounding is
    marked as such.  The correlation part turns on NaN and on what
    [numpy.corrcoef] returns for degenerate series, and the predicted price
    range on the last bit of its two bounds, so these are modelled over
    binary64 itself ([PrimFloat]).

    Strings.  A Python [str] is kept as the string of the bytes of its
    UTF-8 encoding and is read character by character; whitespace is what
    [str.isspace] accepts, no-break and other Unicode spaces included.

    Libraries.  VADER's [polarity_scores], pandas' [DataFrame] constructor,
    [numpy.sqrt], Python's string [hash] and float formatting are not code
    of this repository: they are section variables, and the theorems hold
    for every behaviour of theirs.  So are the services that read files or
    the network ([StocksDataService.get_stock_news] and
    [get_stock_price_history], [CoinGeckoService.get_price_history]). *)

From Stdlib Require Import QArith Qabs Lqa Floats DecimalString Ascii String.
From stdpp Require Import gmap strings list fin_maps.

#[local] Set Warnings "-clear-no-such-hyp".

(** * The embedding *)

(** ** Python strings *)

Module PyStr.

(** A Python [str] is a sequence of code points.  It is kept as the Rocq
    string of the bytes of its UTF-8 encoding (a lone surrogate as the
    three bytes of its code point), so that the literals of the program
    read as they are written and every [str] has one string.  What Python
    does character by character goes through [chars]. *)

Definition is_empty (s : string) : bool :=
  match s with EmptyString => true | String _ _ => false end.

(** A byte [10xxxxxx]: it continues the character of the bytes before it. *)
Definition is_continuation (c : ascii) : bool :=
  let n := nat_of_ascii c in (128 <=? n) && (n <? 192).

Definition continues (ch : string) : bool :=
  match ch with
  | EmptyString => false
  | String c _ => is_continuation c
  end.

(** The characters of a string, each as the bytes of its encoding. *)
Fixpoint chars (s : string) : list string :=
  match s with
  | EmptyString => []
  | String c s' =>
      match chars s' with
      | [] => [String c EmptyString]
      | ch :: rest =>
          if continues ch then String c ch :: rest
          else String c EmptyString :: ch :: rest
      end
  end.

(** [''.join(l)] *)
Definition join (l : list string) : string := foldr append EmptyString l.

(** The UTF-8 encoding of a code point. *)
Definition utf8 (n : N) : string :=
  let byte (b : N) (s : string) := String (ascii_of_N b) s in
  (if n <? 128 then byte n EmptyString
   else if n <? 2048 then
     byte (192 + n / 64) (byte (128 + n mod 64) EmptyString)
   else if n <? 65536 then
     byte (224 + n / 4096)
       (byte (128 + (n / 64) mod 64) (byte (128 + n mod 64) EmptyString))
   else
     byte (240 + n / 262144)
       (byte (128 + (n / 4096) mod 64)
          (byte (128 + (n / 64) mod 64) (byte (128 + n mod 64) EmptyString))))%N.

(** The code points that [str.isspace] accepts ([Py_UNICODE_ISSPACE]):
    U+0009 to U+000D, U+001C to U+0020, U+0085, U+00A0, U+1680, U+2000 to
    U+200A, U+2028, U+2029, U+202F, U+205F and U+3000.  [str.strip] and the
    class [\s] of a regular expression on a [str] use the same set. *)
Definition whitespace : list N :=
  [9; 10; 11; 12; 13; 28; 29; 30; 31; 32; 133; 160; 5760;
   8192; 8193; 8194; 8195; 8196; 8197; 8198; 8199; 8200; 8201; 8202;
   8232; 8233; 8239; 8287; 12288]%N.

(** [ch.isspace()] for a character. *)
Definition is_space (ch : string) : bool :=
  existsb (String.eqb ch) (utf8 <$> whitespace).
#[global] Arguments is_space : simpl never.

Fixpoint lstrip_chars (l : list string) : list string :=
  match l with
  | [] => []
  | ch :: l' => if is_space ch then lstrip_chars l' else l
  end.

Fixpoint rstrip_chars (l : list string) : list string :=
  match l with
  | [] => []
  | ch :: l' =>
      let r := rstrip_chars l' in
      if is_space ch && bool_decide (length r = 0%nat) then [] else ch :: r
  end.

(** [s.strip()] *)
Definition strip (s : string) : string :=
  join (rstrip_chars (lstrip_chars (chars s))).

Definition is_terminator (ch : string) : bool :=
  (String.eqb ch "." || String.eqb ch "!" || String.eqb ch "?")%bool.

(** [re.split(r'(?<=[.!?])\s+', s)] on the characters of [s]: a separator
    is a maximal run of whitespace that directly follows one of [.], [!],
    [?].  [cur] is the piece being read, [after_term] says whether the
    previous character was a terminator, [in_sep] whether a separator is
    being skipped. *)
Fixpoint split_go (cur : list string) (after_term in_sep : bool)
    (l : list string) : list (list string) :=
  match l with
  | [] => [cur]
  | ch :: l' =>
      if in_sep then
        if is_space ch then split_go cur false true l'
        else split_go [ch] (is_terminator ch) false l'
      else if is_space ch && after_term then
        cur :: split_go [] false true l'
      else
        split_go (cur ++ [ch]) (is_terminator ch) false l'
  end.

Definition split_sentences (s : string) : list string :=
  join <$> split_go [] false false (chars s).

(** [needle in hay] *)
Fixpoint contains (needle hay : string) : bool :=
  String.prefix needle hay ||
  match hay with
  | EmptyString => false
  | String _ hay' => contains needle hay'
  end.

(** [str(n)] for a count. *)
Definition str_of_nat (n : nat) : string :=
  NilZero.string_of_uint (Nat.to_uint n).

(** *** Predicates on characters for the statements *)

(** Every byte of [s] continues a character. *)
Fixpoint all_continuation (s : string) : bool :=
  match s with
  | EmptyString => true
  | String c s' => is_continuation c && all_continuation s'
  end.

(** [ch] is one character: a byte, then the bytes that continue it. *)
Definition one_char (ch : string) : bool :=
  match ch with
  | EmptyString => false
  | String _ rest => all_continuation rest
  end.

(** Some character of the list is not whitespace; so is the first one; so
    is the last one. *)
Definition has_ink (l : list string) : bool :=
  existsb (fun ch => negb (is_space ch)) l.

Definition starts_ink (l : list string) : bool :=
  match l with
  | [] => false
  | ch :: _ => negb (is_space ch)
  end.

Fixpoint ends_ink (l : list string) : bool :=
  match l with
  | [] => false
  | [ch] => negb (is_space ch)
  | _ :: l' => ends_ink l'
  end.

End PyStr.

(** ** Exact numbers *)

Module Num.

Local Open Scope Q_scope.

(** [x > y] *)
Definition Qgt_bool (x y : Q) : bool := negb (Qle_bool x y).

(** [float(n)] for a count. *)
Definition Q_of_nat (n : nat) : Q := inject_Z (Z.of_nat n).

Definition Qsum (l : list Q) : Q := foldr Qplus 0 l.

(** The arithmetic mean. *)
Definition Qmean (l : list Q) : Q := Qsum l / Q_of_nat (length l).

End Num.

(** ** services/sentiment_analyzer.py *)

Module Sentiment.

Import PyStr Num.

Local Open Scope Q_scope.

(** What [SentimentIntensityAnalyzer.polarity_scores] returns. *)
Record vader_scores := {
  v_compound : Q;
  v_pos : Q;
  v_neu : Q;
  v_neg : Q
}.

(** An entry of the ["sentences"] list. *)
Record sentence_entry := {
  s_text : string;
  s_compound : Q;
  s_sentiment : string
}.

(** The dictionary [analyze_text] returns. *)
Record text_result := {
  compound : Q;
  positive : Q;
  neutral : Q;
  negative : Q;
  sentiment : string;
  sentences : list sentence_entry;
  explanation : string
}.

(** The three-way rule, written out three times in the source:
    [if c >= 0.05: "positive" elif c <= -0.05: "negative" else: "neutral"]. *)
Definition classify (c : Q) : string :=
  if Qle_bool 0.05 c then "positive"
  else if Qle_bool c (-0.05) then "negative"
  else "neutral".

(** [sent.get("sentiment", "neutral")], replaced by ["neutral"] when it is
    not one of the three keys. *)
Definition sentiment_key (e : sentence_entry) : string :=
  let k := s_sentiment e in
  if (String.eqb k "positive" || String.eqb k "neutral" || String.eqb k "negative")%bool
  then k else "neutral".

Definition count_sentences (label : string) (l : list sentence_entry) : nat :=
  length (filter (fun e => sentiment_key e = label) l).

(** [_generate_sentiment_explanation(scores, sentiment, sentence_analysis)] *)
Definition generate_sentiment_explanation
    (scores : vader_scores) (sentiment : string)
    (sentence_analysis : list sentence_entry) : string :=
  let n_pos := str_of_nat (count_sentences "positive" sentence_analysis) in
  let n_neu := str_of_nat (count_sentences "neutral" sentence_analysis) in
  let n_neg := str_of_nat (count_sentences "negative" sentence_analysis) in
  let body :=
    if String.eqb sentiment "positive" then
      let intensity :=
        if Qgt_bool (v_pos scores) 0.6 then "very positive"
        else "somewhat positive" in
      let e := "This text is " +:+ intensity in
      if Qgt_bool (v_pos scores) 0.4 && (0 <? length sentence_analysis)%nat then
        let e := e +:+ ", with " +:+ n_pos +:+ " positive statement(s)" in
        if (0 <? count_sentences "negative" sentence_analysis)%nat
        then e +:+ " and " +:+ n_neg +:+ " negative statement(s)"
        else e
      else e
    else if String.eqb sentiment "negative" then
      let intensity :=
        if Qgt_bool (v_neg scores) 0.6 then "very negative"
        else "somewhat negative" in
      let e := "This text is " +:+ intensity in
      if Qgt_bool (v_neg scores) 0.4 && (0 <? length sentence_analysis)%nat then
        let e := e +:+ ", with " +:+ n_neg +:+ " negative statement(s)" in
        if (0 <? count_sentences "positive" sentence_analysis)%nat
        then e +:+ " and " +:+ n_pos +:+ " positive statement(s)"
        else e
      else e
    else
      let e := "This text is neutral" in
      if (1 <? length sentence_analysis)%nat then
        e +:+ ", with a mix of " +:+ n_pos +:+ " positive, " +:+ n_neg
          +:+ " negative, and " +:+ n_neu +:+ " neutral statements"
      else e
  in body +:+ ".".

(** The result for a text that is missing or blank. *)
Definition no_text_result : text_result :=
  {| compound := 0; positive := 0; neutral := 0; negative := 0;
     sentiment := "neutral"; sentences := [];
     explanation := "No text provided" |}.

(** [not text or text.strip() == ''], the guard of [analyze_text]; [None]
    is Python's [None]. *)
Definition is_blank (text : option string) : bool :=
  match text with
  | None => true
  | Some t => is_empty t || is_empty (strip t)
  end.

(** A post dictionary; [None] is a missing key. *)
Record post := {
  p_title : option string;
  p_selftext : option string;
  p_id : option string;
  p_score : option Z;
  p_num_comments : option Z
}.

(** The [basic_sentiment] dictionary of a post. *)
Record basic_sentiment := {
  b_compound : Q;
  b_positive : Q;
  b_neutral : Q;
  b_negative : Q;
  b_sentiment : string
}.

(** The four scores of [total_scores] and of [average_scores]. *)
Record scores := {
  t_compound : Q;
  t_positive : Q;
  t_neutral : Q;
  t_negative : Q
}.

Record post_detail := {
  d_id : string;
  d_title : string;
  d_score : Z;
  d_num_comments : Z;
  d_sentiment : basic_sentiment
}.

(** The dictionary [analyze_posts] returns. *)
Record posts_result := {
  overall_sentiment : string;
  average_scores : scores;
  sentiment_distribution : gmap string Q;
  posts_analyzed : nat;
  r_posts_details : list post_detail
}.

(** What the loop of [analyze_posts] updates. *)
Record posts_state := {
  total_scores : scores;
  sentiment_counts : gmap string nat;
  posts_details : list post_detail
}.

Definition zero_scores : scores :=
  {| t_compound := 0; t_positive := 0; t_neutral := 0; t_negative := 0 |}.

Definition initial_state : posts_state :=
  {| total_scores := zero_scores; sentiment_counts := ∅; posts_details := [] |}.

(** The result when there is no post, or no post was analyzed. *)
Definition zero_result : posts_result :=
  {| overall_sentiment := "neutral";
     average_scores := zero_scores;
     sentiment_distribution :=
       <["positive" := 0]> (<["neutral" := 0]> (<["negative" := 0]> ∅));
     posts_analyzed := 0;
     r_posts_details := [] |}.

(** [counter[key] += 1] on a [collections.Counter]. *)
Definition counter_incr (key : string) (c : gmap string nat) : gmap string nat :=
  <[key := S (default 0%nat (c !! key))]> c.

(** [if sentiment not in d: d[sentiment] = 0] *)
Definition ensure_key (d : gmap string Q) (key : string) : gmap string Q :=
  match d !! key with
  | Some _ => d
  | None => <[key := 0]> d
  end.

Section Analyzer.

(** VADER with the crypto terms added to its lexicon. *)
Variable polarity_scores : string -> vader_scores.

(** The body of the loop over the sentences. *)
Definition analyze_sentence (s : string) : list sentence_entry :=
  if is_empty (strip s) then []
  else
    let sent_scores := polarity_scores s in
    [{| s_text := s;
        s_compound := v_compound sent_scores;
        s_sentiment := classify (v_compound sent_scores) |}].

(** [analyze_text(self, text)] *)
Definition analyze_text (text : option string) : text_result :=
  if is_blank text then no_text_result
  else
    let t := default EmptyString text in
    let sentence_analysis :=
      flat_map analyze_sentence (split_sentences (strip t)) in
    let full_scores := polarity_scores t in
    let sentiment := classify (v_compound full_scores) in
    {| compound := v_compound full_scores;
       positive := v_pos full_scores;
       neutral := v_neu full_scores;
       negative := v_neg full_scores;
       sentiment := sentiment;
       sentences := sentence_analysis;
       explanation :=
         generate_sentiment_explanation full_scores sentiment
           sentence_analysis |}.

(** [analyze_posts]: one pass of the loop body.  The two subscripts
    [post['title']] and [post['id']] raise [KeyError] when the key is
    missing; the [except] clause then goes on to the next post with the
    state as it is at that point. *)
Definition analyze_post (st : posts_state) (p : post) : posts_state :=
  match p_title p with
  | None => st
  | Some title =>
      let full_text := title +:+ " " +:+ default EmptyString (p_selftext p) in
      let sentiment_result := analyze_text (Some full_text) in
      let basic :=
        {| b_compound := compound sentiment_result;
           b_positive := positive sentiment_result;
           b_neutral := neutral sentiment_result;
           b_negative := negative sentiment_result;
           b_sentiment := sentiment sentiment_result |} in
      let total_scores :=
        {| t_compound := t_compound (total_scores st) + b_compound basic;
           t_positive := t_positive (total_scores st) + b_positive basic;
           t_neutral := t_neutral (total_scores st) + b_neutral basic;
           t_negative := t_negative (total_scores st) + b_negative basic |} in
      let sentiment_counts :=
        counter_incr (b_sentiment basic) (sentiment_counts st) in
      match p_id p with
      | None =>
          {| total_scores := total_scores;
             sentiment_counts := sentiment_counts;
             posts_details := posts_details st |}
      | Some id =>
          let post_detail :=
            {| d_id := id;
               d_title := title;
               d_score := default 0%Z (p_score p);
               d_num_comments := default 0%Z (p_num_comments p);
               d_sentiment := basic |} in
          {| total_scores := total_scores;
             sentiment_counts := sentiment_counts;
             posts_details := posts_details st ++ [post_detail] |}
      end
  end.

(** [analyze_posts(self, posts)] *)
Definition analyze_posts (posts : list post) : posts_result :=
  match posts with
  | [] => zero_result
  | _ =>
      let st := foldl analyze_post initial_state posts in
      let post_count := length (posts_details st) in
      if (post_count =? 0)%nat then zero_result
      else
        let average_scores :=
          {| t_compound := t_compound (total_scores st) / Q_of_nat post_count;
             t_positive := t_positive (total_scores st) / Q_of_nat post_count;
             t_neutral := t_neutral (total_scores st) / Q_of_nat post_count;
             t_negative := t_negative (total_scores st) / Q_of_nat post_count |} in
        let overall_sentiment := classify (t_compound average_scores) in
        let sentiment_distribution :=
          (fun count => Q_of_nat count / Q_of_nat post_count)
            <$> sentiment_counts st in
        {| overall_sentiment := overall_sentiment;
           average_scores := average_scores;
           sentiment_distribution :=
             foldl ensure_key sentiment_distribution
               ["positive"; "neutral"; "negative"];
           posts_analyzed := post_count;
           r_posts_details := posts_details st |}
  end.

End Analyzer.

(** *** Predicates and sample posts for the statements *)

(** A label agrees with a compound score under the documented policy. *)
Definition follows_threshold (label : string) (c : Q) : Prop :=
  (label = "positive" <-> 0.05 <= c) /\
  (label = "negative" <-> c <= -0.05) /\
  (label = "neutral" <-> ~ 0.05 <= c /\ ~ c <= -0.05).

(** Every character of [s] is whitespace; true of the empty string. *)
Definition all_space (s : string) : bool := forallb is_space (chars s).

(** A blank text: a space, a tab, a no-break space (U+00A0), an em space
    (U+2003) and an ideographic space (U+3000). *)
Definition unicode_blank : string :=
  " " +:+ utf8 9 +:+ utf8 160 +:+ utf8 8195 +:+ utf8 12288.

(** A stand-in for VADER used to run the model on concrete posts. *)
Definition constant_scores (c : Q) : string -> vader_scores :=
  fun _ => {| v_compound := c; v_pos := 0; v_neu := 1; v_neg := 0 |}.

(** A post with every key, and the same post without its ['id']. *)
Definition full_post (title id : string) : post :=
  {| p_title := Some title; p_selftext := None; p_id := Some id;
     p_score := None; p_num_comments := None |}.

Definition post_without_id (title : string) : post :=
  {| p_title := Some title; p_selftext := None; p_id := None;
     p_score := None; p_num_comments := None |}.




(** *** Predicates on strings and posts for the further statements *)

(** The entry of the sentence list for a piece of text. *)
Definition sentence_entry_of ps (s : string) : sentence_entry :=
  {| s_text := s;
     s_compound := v_compound (ps s);
     s_sentiment := classify (v_compound (ps s)) |}.

(** The entry of [posts_details] for a post with a title and an id. *)
Definition detail_of ps (p : post) : option post_detail :=
  match p_title p, p_id p with
  | Some title, Some id =>
      let r :=
        analyze_text ps
          (Some (title +:+ " " +:+ default EmptyString (p_selftext p))) in
      Some {| d_id := id;
              d_title := title;
              d_score := default 0%Z (p_score p);
              d_num_comments := default 0%Z (p_num_comments p);
              d_sentiment :=
                {| b_compound := compound r; b_positive := positive r;
                   b_neutral := neutral r; b_negative := negative r;
                   b_sentiment := sentiment r |} |}
  | _, _ => None
  end.


End Sentiment.

(** ** utils/analysis.py *)

Module Price.

Import Num.

Local Open Scope Q_scope.

(** A float of a pandas column or of a report: a number, or [None] for
    NaN.  A quotient by zero, which binary64 renders as an infinity or as
    NaN, is written [None] as well. *)
Abbreviation cell := (option Q).

(** The values that travel in and out as dictionaries. *)
#[warnings="-register-all"]
Inductive pyval :=
  | PNone
  | PBool (b : bool)
  | PNum (x : cell)
  | PStr (s : string)
  | PList (l : list pyval)
  | PDict (d : list (string * pyval)).

(** A dictionary with string keys, in insertion order. *)
Abbreviation pydict := (list (string * pyval)).

Fixpoint dict_lookup (d : pydict) (key : string) : option pyval :=
  match d with
  | [] => None
  | (k, v) :: d' => if String.eqb k key then Some v else dict_lookup d' key
  end.

(** [d.get(key, default)] *)
Definition dict_get (d : pydict) (key : string) (default : pyval) : pyval :=
  match dict_lookup d key with Some v => v | None => default end.

(** [bool(v)], as [not v] uses it. *)
Definition truthy (v : pyval) : bool :=
  match v with
  | PNone => false
  | PBool b => b
  | PNum None => true
  | PNum (Some x) => negb (Qeq_bool x 0)
  | PStr s => negb (PyStr.is_empty s)
  | PList l => negb (bool_decide (length l = 0%nat))
  | PDict d => negb (bool_decide (length d = 0%nat))
  end.

(** A computation that returns or raises; the exception is kept as its
    [str(e)]. *)
Inductive result (A : Type) :=
  | Ok (a : A)
  | Raise (msg : string).
Arguments Ok {A} a.
Arguments Raise {A} msg.

#[export] Instance result_ret : MRet result := fun A a => Ok a.
#[export] Instance result_bind : MBind result := fun A B f m =>
  match m with Ok a => f a | Raise e => Raise e end.

(** *** Float arithmetic with NaN *)

Definition cadd (a b : cell) : cell :=
  match a, b with Some x, Some y => Some (x + y) | _, _ => None end.
Definition csub (a b : cell) : cell :=
  match a, b with Some x, Some y => Some (x - y) | _, _ => None end.
Definition cmul (a b : cell) : cell :=
  match a, b with Some x, Some y => Some (x * y) | _, _ => None end.
(** [a / b]; numpy gives an infinity for a quotient by zero, which these
    numbers do not have: it is written NaN, and what is proved of a
    quotient is stated for a divisor that is not zero. *)
Definition cdiv (a b : cell) : cell :=
  match a, b with
  | Some x, Some y => if Qeq_bool y 0 then None else Some (x / y)
  | _, _ => None
  end.
Definition cabs (a : cell) : cell := Qabs <$> a.

(** [a > b]; false when either side is NaN. *)
Definition cgt (a b : cell) : bool :=
  match a, b with Some x, Some y => Qgt_bool x y | _, _ => false end.

(** *** pandas series *)

(** The numbers of a series, NaN dropped. *)
Definition valid (xs : list cell) : list Q := omap id xs.

(** [xs.tail(k)] *)
Definition tail (k : nat) {A} (xs : list A) : list A :=
  drop (length xs - k) xs.

(** One value of [xs.rolling(window=w).mean()]: [pre] is the series up to
    and with the current index.  The value is NaN until [w] rows are there,
    and NaN when one of the last [w] rows is. *)
Definition window_mean (w : nat) (pre : list cell) : cell :=
  if (length pre <? w)%nat then None
  else
    let window := tail w pre in
    if bool_decide (length (valid window) = w) then Some (Qmean (valid window))
    else None.

(** [xs.rolling(window=w).mean()] *)
Definition rolling_mean (w : nat) (xs : list cell) : list cell :=
  (fun i => window_mean w (take (S i) xs)) <$> seq 0 (length xs).

(** [xs.pct_change(periods=k)]: [xs[i] / xs[i-k] - 1], NaN for the first
    [k] rows.  (pandas can fill NaN rows forward before it divides; series
    with NaN prices are outside what is proved here.) *)
Definition pct_change (k : nat) (xs : list cell) : list cell :=
  (fun i =>
     if (i <? k)%nat then None
     else csub (cdiv (xs !! i ≫= id) (xs !! (i - k)%nat ≫= id)) (Some 1))
    <$> seq 0 (length xs).

(** [xs.diff()] *)
Definition diff (xs : list cell) : list cell :=
  (fun i =>
     if (i <? 1)%nat then None
     else csub (xs !! i ≫= id) (xs !! (i - 1)%nat ≫= id))
    <$> seq 0 (length xs).

(** [xs * c] *)
Definition scale (c : Q) (xs : list cell) : list cell :=
  (fun x => cmul x (Some c)) <$> xs.

(** [xs.mean()]: NaN rows are skipped; NaN when no row is left. *)
Definition series_mean (xs : list cell) : cell :=
  match valid xs with
  | [] => None
  | vs => Some (Qmean vs)
  end.

(** A data frame: the length of its index and its float columns. *)
Record frame := {
  index_len : nat;
  columns : gmap string (list cell)
}.

(** [df[name]]; a missing column raises [KeyError(name)]. *)
Definition df_get (df : frame) (name : string) : result (list cell) :=
  match columns df !! name with
  | Some col => Ok col
  | None => Raise ("'" +:+ name +:+ "'")
  end.

(** [df[name] = col] *)
Definition df_set (df : frame) (name : string) (col : list cell) : frame :=
  {| index_len := index_len df; columns := <[name := col]> (columns df) |}.

(** [df.empty]: one of the two axes has length 0. *)
Definition df_empty (df : frame) : bool :=
  bool_decide (index_len df = 0%nat) || bool_decide (columns df = ∅).

(** [xs.iloc[-1]] *)
Definition iloc_last (xs : list cell) : result cell :=
  match last xs with
  | Some x => Ok x
  | None => Raise "single positional indexer is out-of-bounds"
  end.

(** [xs.std()]: the sample standard deviation (one degree of freedom
    taken off) of the rows that are numbers; NaN with fewer than two. *)
Definition series_std (np_sqrt : Q -> Q) (xs : list cell) : cell :=
  let vs := valid xs in
  if (length vs <? 2)%nat then None
  else
    let avg := Qmean vs in
    let sqr := Qsum ((fun v => (avg - v) * (avg - v)) <$> vs) in
    Some (np_sqrt (sqr / Q_of_nat (length vs - 1))).

(** The report dictionaries of the three helpers. *)
Record volatility_data := {
  overall_volatility_percent : cell;
  avg_daily_change : cell;
  volatility_7d : cell;
  volatility_14d : cell;
  volatility_30d : cell
}.

Record momentum_data := {
  roc_7d : cell;
  roc_14d : cell;
  roc_30d : cell;
  is_uptrend_7_14 : bool;
  is_uptrend_14_30 : bool
}.

Record price_prediction := {
  current_price : cell;
  lower_bound : cell;
  upper_bound : cell
}.

Definition volatility_dict (v : volatility_data) : pyval :=
  PDict [("overall_volatility_percent", PNum (overall_volatility_percent v));
         ("avg_daily_change", PNum (avg_daily_change v));
         ("volatility_7d", PNum (volatility_7d v));
         ("volatility_14d", PNum (volatility_14d v));
         ("volatility_30d", PNum (volatility_30d v))].

Definition momentum_dict (m : momentum_data) : pyval :=
  PDict [("roc_7d", PNum (roc_7d m));
         ("roc_14d", PNum (roc_14d m));
         ("roc_30d", PNum (roc_30d m));
         ("is_uptrend_7_14", PBool (is_uptrend_7_14 m));
         ("is_uptrend_14_30", PBool (is_uptrend_14_30 m))].

Definition prediction_dict (p : price_prediction) : pyval :=
  PDict [("current_price", PNum (current_price p));
         ("lower_bound", PNum (lower_bound p));
         ("upper_bound", PNum (upper_bound p))].

Section PriceAnalyzer.

(** [numpy.sqrt], used on 7 and, inside [std], on a variance. *)
Variable np_sqrt : Q -> Q.

(** [pd.DataFrame(prices)]: a frame of float columns, or the exception
    that the constructor raises on a value it cannot lay out or that the
    first operation raises on a column that is not numeric; both are inside
    the [try] block of [analyze]. *)
Variable DataFrame : pyval -> result frame.

(** [f"{x:.2f}"] *)
Variable format_2f : cell -> string.

(** [calculate_moving_averages(self, prices_df)] *)
Definition calculate_moving_averages (prices_df : frame) : result frame :=
  price ← df_get prices_df "price";
  let prices_df := df_set prices_df "MA7" (rolling_mean 7 price) in
  price ← df_get prices_df "price";
  let prices_df := df_set prices_df "MA14" (rolling_mean 14 price) in
  price ← df_get prices_df "price";
  let prices_df := df_set prices_df "MA30" (rolling_mean 30 price) in
  price ← df_get prices_df "price";
  let prices_df := df_set prices_df "MA50" (rolling_mean 50 price) in
  mret prices_df.

(** [calculate_volatility(self, prices_df)]; the frame is returned too,
    with the columns the method adds to it. *)
Definition calculate_volatility (prices_df : frame)
  : result (frame * volatility_data) :=
  price ← df_get prices_df "price";
  let prices_df := df_set prices_df "daily_return" (scale 100 (pct_change 1 price)) in
  daily_return ← df_get prices_df "daily_return";
  let volatility := series_std np_sqrt daily_return in
  price ← df_get prices_df "price";
  let prices_df := df_set prices_df "price_change" (cabs <$> diff price) in
  price_change ← df_get prices_df "price_change";
  let avg_daily_change := series_mean price_change in
  daily_return ← df_get prices_df "daily_return";
  let volatility_7d := series_std np_sqrt (tail 7 daily_return) in
  let volatility_14d := series_std np_sqrt (tail 14 daily_return) in
  let volatility_30d := series_std np_sqrt (tail 30 daily_return) in
  mret (prices_df,
        {| overall_volatility_percent := volatility;
           avg_daily_change := avg_daily_change;
           volatility_7d := volatility_7d;
           volatility_14d := volatility_14d;
           volatility_30d := volatility_30d |}).

(** [df[name].iloc[-1] if not df.empty else 0] *)
Definition latest_or_zero (df : frame) (name : string) : result cell :=
  if df_empty df then mret (Some 0)
  else col ← df_get df name; iloc_last col.

(** [df[a].iloc[-1] > df[b].iloc[-1] if not df.empty else False] *)
Definition latest_gt (df : frame) (a b : string) : result bool :=
  if df_empty df then mret false
  else
    ca ← df_get df a; xa ← iloc_last ca;
    cb ← df_get df b; xb ← iloc_last cb;
    mret (cgt xa xb).

(** [price_momentum(self, prices_df)] *)
Definition price_momentum (prices_df : frame)
  : result (frame * momentum_data) :=
  price ← df_get prices_df "price";
  let prices_df := df_set prices_df "ROC_7" (scale 100 (pct_change 7 price)) in
  price ← df_get prices_df "price";
  let prices_df := df_set prices_df "ROC_14" (scale 100 (pct_change 14 price)) in
  price ← df_get prices_df "price";
  let prices_df := df_set prices_df "ROC_30" (scale 100 (pct_change 30 price)) in
  latest_roc_7 ← latest_or_zero prices_df "ROC_7";
  latest_roc_14 ← latest_or_zero prices_df "ROC_14";
  latest_roc_30 ← latest_or_zero prices_df "ROC_30";
  is_uptrend_7_14 ← latest_gt prices_df "MA7" "MA14";
  is_uptrend_14_30 ← latest_gt prices_df "MA14" "MA30";
  mret (prices_df,
        {| roc_7d := latest_roc_7;
           roc_14d := latest_roc_14;
           roc_30d := latest_roc_30;
           is_uptrend_7_14 := is_uptrend_7_14;
           is_uptrend_14_30 := is_uptrend_14_30 |}).

(** [predict_price_range(self, prices_df, volatility)], over the
    rationals, for the report of [analyze]; the binary64 values are those
    of [Price64.predict_price_range]. *)
Definition predict_price_range (prices_df : frame) (volatility : cell)
  : result price_prediction :=
  if df_empty prices_df then
    mret {| current_price := Some 0; lower_bound := Some 0; upper_bound := Some 0 |}
  else
    price ← df_get prices_df "price";
    current_price ← iloc_last price;
    let daily_vol := cdiv volatility (Some (np_sqrt 7)) in
    let weekly_range := cmul (cmul (Some 1.96) daily_vol) (Some (np_sqrt 7)) in
    let lower_bound :=
      cmul current_price (csub (Some 1) (cdiv weekly_range (Some 100))) in
    let upper_bound :=
      cmul current_price (cadd (Some 1) (cdiv weekly_range (Some 100))) in
    mret {| current_price := current_price;
            lower_bound := lower_bound;
            upper_bound := upper_bound |}.

(** The entry of [latest_ma] for one column:
    [df[ma].iloc[-1]] if the frame is not empty and has the column, else
    [None]. *)
Definition latest_ma_entry (df : frame) (ma : string) : result (string * pyval) :=
  if negb (df_empty df) && bool_decide (is_Some (columns df !! ma)) then
    col ← df_get df ma; x ← iloc_last col; mret (ma, PNum x)
  else mret (ma, PNone).

Definition trend_label (m : momentum_data) : string :=
  if is_uptrend_7_14 m && is_uptrend_14_30 m then "Strong Uptrend"
  else if is_uptrend_7_14 m then "Moderate Uptrend"
  else if negb (is_uptrend_7_14 m) && negb (is_uptrend_14_30 m)
  then "Strong Downtrend"
  else "Moderate Downtrend".

Definition volatility_level (v : volatility_data) : string :=
  if cgt (overall_volatility_percent v) (Some 5) then "High"
  else if cgt (overall_volatility_percent v) (Some 2) then "Medium"
  else "Low".

(** What [analyze] returns when there is no price. *)
Definition no_data_report : pydict :=
  [("error", PStr "No price data available for analysis")].

(** The body of the [try] block of [analyze]. *)
Definition analyze_body (price_history : pydict) : result pydict :=
  let prices := dict_get price_history "prices" (PList []) in
  if negb (truthy prices) then mret no_data_report
  else
    df ← DataFrame prices;
    df ← calculate_moving_averages df;
    '(df, volatility_data) ← calculate_volatility df;
    '(df, momentum_data) ← price_momentum df;
    price_prediction ←
      predict_price_range df (overall_volatility_percent volatility_data);
    ma7 ← latest_ma_entry df "MA7";
    ma14 ← latest_ma_entry df "MA14";
    ma30 ← latest_ma_entry df "MA30";
    ma50 ← latest_ma_entry df "MA50";
    let latest_ma := [ma7; ma14; ma30; ma50] in
    let current_price := current_price price_prediction in
    let trend := trend_label momentum_data in
    let volatility_level := volatility_level volatility_data in
    mret [("coin_id", dict_get price_history "id" (PStr "unknown"));
          ("current_price", PNum current_price);
          ("moving_averages", PDict latest_ma);
          ("volatility", volatility_dict volatility_data);
          ("momentum", momentum_dict momentum_data);
          ("price_prediction", prediction_dict price_prediction);
          ("summary",
           PDict [("trend", PStr trend);
                  ("volatility_level", PStr volatility_level);
                  ("recent_performance",
                   PStr (format_2f (roc_7d momentum_data) +:+ "% (7d)"))])].

(** [analyze(self, price_history)]: the [try] block, and the [except]
    clause that turns any exception into an error report. *)
Definition analyze (price_history : pydict) : pydict :=
  match analyze_body price_history with
  | Ok report => report
  | Raise e => [("error", PStr ("Failed to analyze price data: " +:+ e))]
  end.

End PriceAnalyzer.

(** *** Instances of the library functions, to run the model *)

(** A frame with the single column ['price']. *)
Definition price_frame (prices : list Q) : frame :=
  {| index_len := length prices;
     columns := {["price" := Some <$> prices]} |}.

(** The price of a record [{"timestamp": .., "date": .., "price": p}]. *)
Definition record_price (v : pyval) : option Q :=
  match v with
  | PDict d =>
      match dict_lookup d "price" with
      | Some (PNum (Some p)) => Some p
      | _ => None
      end
  | _ => None
  end.

(** A constructor for lists of such records, to run the model on;
    anything else is refused (pandas lays out more: a record without a
    price, say, gets NaN). *)
Definition records_frame (v : pyval) : result frame :=
  match v with
  | PList l =>
      match mapM record_price l with
      | Some prices => Ok (price_frame prices)
      | None => Raise "'price'"
      end
  | _ => Raise "DataFrame constructor not properly called!"
  end.

(** A square root that is exact on the squares it is used on below. *)
Definition sqrt_stub (x : Q) : Q := if Qeq_bool x 7 then 2.64575 else x.

Definition format_stub (x : cell) : string := EmptyString.

(** The window of [w] prices that ends at index [i]. *)
Definition window_at (w i : nat) (qs : list Q) : list Q :=
  drop (S i - w) (take (S i) qs).

(** *** Frames whose columns all have the rows of the index *)

Definition ready (df : frame) : Prop :=
  index_len df <> 0%nat /\
  forall name col, columns df !! name = Some col -> length col = index_len df.

(** *** The frames the helpers hand on *)

Definition with_moving_averages (df : frame) (price : list cell) : frame :=
  df_set (df_set (df_set (df_set df
    "MA7" (rolling_mean 7 price))
    "MA14" (rolling_mean 14 price))
    "MA30" (rolling_mean 30 price))
    "MA50" (rolling_mean 50 price).

Definition with_returns (df : frame) (price : list cell) : frame :=
  df_set (df_set df
    "daily_return" (scale 100 (pct_change 1 price)))
    "price_change" (cabs <$> diff price).

Definition with_rates (df : frame) (price : list cell) : frame :=
  df_set (df_set (df_set df
    "ROC_7" (scale 100 (pct_change 7 price)))
    "ROC_14" (scale 100 (pct_change 14 price)))
    "ROC_30" (scale 100 (pct_change 30 price)).

(** A price history as [coin_gecko.get_price_history] builds it. *)
Definition price_record (i : nat) (p : Q) : pyval :=
  PDict [("timestamp", PNum (Some (Q_of_nat i)));
         ("date", PStr "2024-01-01 00:00:00");
         ("price", PNum (Some p))].

Definition history_of (coin : string) (qs : list Q) : pydict :=
  [("id", PStr coin); ("prices", PList (imap price_record qs));
   ("volumes", PList [])].

(** Fifty-one prices: 1, 2, ..., 51. *)
Definition rising_prices : list Q := Q_of_nat <$> seq 1 51.

(** *** The report, written out *)

(** The last row of a column; NaN for a column without rows. *)
Definition last_cell (xs : list cell) : cell := default None (last xs).

(** What [calculate_volatility] returns for a price column. *)
Definition volatility_of (np_sqrt : Q -> Q) (price : list cell) : volatility_data :=
  let daily_return := scale 100 (pct_change 1 price) in
  {| overall_volatility_percent := series_std np_sqrt daily_return;
     avg_daily_change := series_mean (cabs <$> diff price);
     volatility_7d := series_std np_sqrt (tail 7 daily_return);
     volatility_14d := series_std np_sqrt (tail 14 daily_return);
     volatility_30d := series_std np_sqrt (tail 30 daily_return) |}.

(** What [price_momentum] returns for a price column with rows. *)
Definition momentum_of (price : list cell) : momentum_data :=
  {| roc_7d := last_cell (scale 100 (pct_change 7 price));
     roc_14d := last_cell (scale 100 (pct_change 14 price));
     roc_30d := last_cell (scale 100 (pct_change 30 price));
     is_uptrend_7_14 :=
       cgt (last_cell (rolling_mean 7 price)) (last_cell (rolling_mean 14 price));
     is_uptrend_14_30 :=
       cgt (last_cell (rolling_mean 14 price)) (last_cell (rolling_mean 30 price)) |}.

(** What [predict_price_range] returns for a price column with rows. *)
Definition prediction_of (np_sqrt : Q -> Q) (price : list cell) (volatility : cell)
  : price_prediction :=
  let weekly_range :=
    cmul (cmul (Some 1.96) (cdiv volatility (Some (np_sqrt 7)))) (Some (np_sqrt 7)) in
  {| current_price := last_cell price;
     lower_bound :=
       cmul (last_cell price) (csub (Some 1) (cdiv weekly_range (Some 100)));
     upper_bound :=
       cmul (last_cell price) (cadd (Some 1) (cdiv weekly_range (Some 100))) |}.

(** The report of [analyze] for a price column with rows. *)
Definition report_of (np_sqrt : Q -> Q) (format_2f : cell -> string)
    (coin_id : pyval) (price : list cell) : pydict :=
  let vol := volatility_of np_sqrt price in
  let mom := momentum_of price in
  let pred := prediction_of np_sqrt price (overall_volatility_percent vol) in
  [("coin_id", coin_id);
   ("current_price", PNum (current_price pred));
   ("moving_averages",
    PDict [("MA7", PNum (last_cell (rolling_mean 7 price)));
           ("MA14", PNum (last_cell (rolling_mean 14 price)));
           ("MA30", PNum (last_cell (rolling_mean 30 price)));
           ("MA50", PNum (last_cell (rolling_mean 50 price)))]);
   ("volatility", volatility_dict vol);
   ("momentum", momentum_dict mom);
   ("price_prediction", prediction_dict pred);
   ("summary",
    PDict [("trend", PStr (trend_label mom));
           ("volatility_level", PStr (volatility_level vol));
           ("recent_performance", PStr (format_2f (roc_7d mom) +:+ "% (7d)"))])].

(** Short histories to run the model on. *)
Definition three_prices : list Q := [100; 110; 121].
Definition two_prices : list Q := [100; 110].

(** Nine prices that double at the end: 1, ..., 1, 2. *)
Definition doubling_prices : list Q := [1; 1; 1; 1; 1; 1; 1; 1; 2].

(** The entry [d[k1][k2]] of a dictionary of dictionaries. *)
Definition dict_lookup2 (d : pydict) (k1 k2 : string) : option pyval :=
  match dict_lookup d k1 with
  | Some (PDict d') => dict_lookup d' k2
  | _ => None
  end.

End Price.

(** ** utils/analysis.py: the predicted range in binary64 *)

(** [Price.predict_price_range] above carries the report of [analyze] over
    exact rationals.  What the method returns to the last bit, rounding,
    overflow and NaN included, is read off this second embedding of the
    same lines, in which every operation is the binary64 one.  [numpy.sqrt]
    on a float64 is the correctly rounded square root. *)

Module Price64.
Import Num Price.
Local Open Scope float_scope.

(** A data frame: the length of its index and its float64 columns. *)
Record frame := {
  index_len : nat;
  columns : gmap string (list float)
}.

(** [df[name]]; a missing column raises [KeyError(name)]. *)
Definition df_get (df : frame) (name : string) : result (list float) :=
  match columns df !! name with
  | Some col => Ok col
  | None => Raise ("'" +:+ name +:+ "'")
  end.

(** [df.empty]: one of the two axes has length 0. *)
Definition df_empty (df : frame) : bool :=
  bool_decide (index_len df = 0%nat) || bool_decide (columns df = ∅).

(** [xs.iloc[-1]] *)
Definition iloc_last (xs : list float) : result float :=
  match last xs with
  | Some x => Ok x
  | None => Raise "single positional indexer is out-of-bounds"
  end.

Record price_prediction := {
  current_price : float;
  lower_bound : float;
  upper_bound : float
}.

(** [predict_price_range(self, prices_df, volatility)] *)
#[warnings="-inexact-float"]
Definition predict_price_range (prices_df : frame) (volatility : float)
  : result price_prediction :=
  if df_empty prices_df then
    mret {| current_price := 0; lower_bound := 0; upper_bound := 0 |}
  else
    price ← df_get prices_df "price";
    current_price ← iloc_last price;
    let daily_vol := volatility / sqrt 7 in
    let weekly_range := 1.96 * daily_vol * sqrt 7 in
    let lower_bound := current_price * (1 - weekly_range / 100) in
    let upper_bound := current_price * (1 + weekly_range / 100) in
    mret {| current_price := current_price;
            lower_bound := lower_bound;
            upper_bound := upper_bound |}.

(** *** A frame to run the model on *)

(** A frame with the one column ['price']. *)
Definition price_frame (price : list float) : frame :=
  {| index_len := length price; columns := {["price" := price]} |}.

End Price64.

(** ** app.py: the correlation matrix *)

Module Correlation.

(** A value of a price list: a binary64 number, or [None] for a value that
    is not a number (JSON [null]). *)
Abbreviation price := (option float).

(** The nested dictionary [correlation_matrix]. *)
Abbreviation matrix := (gmap string (gmap string float)).

Definition float_of_nat (n : nat) : float :=
  PrimFloat.of_uint63 (Uint63.of_Z (Z.of_nat n)).

(** [m[a][b]] *)
Definition get2 (m : matrix) (a b : string) : option float :=
  m !! a ≫= (.!! b).

(** [m[a][b] = v] when the row [m[a]] is there, and
    [m.setdefault(a, {})[b] = v]. *)
Definition set_entry (m : matrix) (a b : string) (v : float) : matrix :=
  <[a := <[b := v]> (default ∅ (m !! a))]> m.

(** [xs[-k:]] for [k > 0] *)
Definition last_n {A} (k : nat) (xs : list A) : list A :=
  drop (length xs - k) xs.

(** *** numpy.corrcoef on two series of one length *)

Definition np_sum (xs : list float) : float :=
  foldl PrimFloat.add 0%float xs.

Definition np_mean (xs : list float) : float :=
  (np_sum xs / float_of_nat (length xs))%float.

Definition np_dot (xs ys : list float) : float :=
  np_sum (zip_with PrimFloat.mul xs ys).

(** [np.clip(c, -1, 1)]; NaN stays NaN. *)
Definition clip (c : float) : float :=
  if (c <? -1)%float then (-1)%float
  else if (1 <? c)%float then 1%float
  else c.

(** [np.corrcoef(x, y)[0, 1]]: the covariance matrix of the two rows with
    one degree of freedom taken off ([fact] is the number of points less
    one, and [0.0] for a single point), each entry divided by the standard
    deviation of its row and then of its column, and clipped.  Sums are
    taken from left to right; numpy's order of summation can differ from
    it in the last bit of a value, not in whether the value is NaN. *)
Definition corrcoef (x y : list float) : float :=
  let fact := float_of_nat (length x - 1) in
  let dx := (fun v => v - np_mean x)%float <$> x in
  let dy := (fun v => v - np_mean y)%float <$> y in
  let c00 := (np_dot dx dx * (1 / fact))%float in
  let c01 := (np_dot dx dy * (1 / fact))%float in
  let c11 := (np_dot dy dy * (1 / fact))%float in
  let stddev0 := PrimFloat.sqrt c00 in
  let stddev1 := PrimFloat.sqrt c11 in
  clip (c01 / stddev0 / stddev1)%float.

(** [np.array(xs)] as a float array; [None] when a value is not a number,
    where the arithmetic of [corrcoef] raises. *)
Definition np_array (xs : list price) : option (list float) := mapM id xs.

(** *** The live-data loop *)

(** [1.0 if coin1 == coin2 else 0] *)
Definition degenerate (coin1 coin2 : string) : float :=
  if String.eqb coin1 coin2 then 1%float else 0%float.

(** The body of the inner loop: the [try] block and its [except] clause. *)
Definition correlation_entry (coin1 coin2 : string) (p1 p2 : list price)
  : float :=
  let min_length := length p1 `min` length p2 in
  if (0 <? min_length)%nat then
    match np_array (last_n min_length p1), np_array (last_n min_length p2) with
    | Some data1, Some data2 => corrcoef data1 data2
    | _, _ => degenerate coin1 coin2
    end
  else degenerate coin1 coin2.

(** [price_data[coin]] on a dictionary kept as its list of items. *)
Definition series_of (price_data : list (string * list price)) (coin : string)
  : list price :=
  default [] ((list_to_map price_data : gmap string (list price)) !! coin).

(** The two nested loops over [price_data.keys()]. *)
Definition real_correlation_matrix (price_data : list (string * list price))
  : matrix :=
  foldl
    (fun (m : matrix) coin1 =>
       foldl
         (fun (m : matrix) coin2 =>
            set_entry m coin1 coin2
              (correlation_entry coin1 coin2
                 (series_of price_data coin1) (series_of price_data coin2)))
         (<[coin1 := ∅]> m) price_data.*1)
    ∅ price_data.*1.

(** *** The demo-data loop *)

Section Demo.

(** Python's [hash] on strings. *)
Variable py_hash : string -> Z.

(** The value the demo loop makes up for an ordered pair. *)
#[warnings="-inexact-float"]
Definition demo_correlation (coin1 coin2 : string) : float :=
  let seed :=
    (PrimFloat.of_uint63
       (Uint63.of_Z (py_hash (coin1 +:+ "-" +:+ coin2) `mod` 1000)) / 1000)%float in
  if PyStr.contains "tether" coin1 || PyStr.contains "tether" coin2
     || PyStr.contains "usdc" coin1 || PyStr.contains "usdc" coin2
  then (seed * 0.3)%float
  else if PyStr.contains "bitcoin" coin1 && PyStr.contains "ethereum" coin2
          || PyStr.contains "bitcoin" coin2 && PyStr.contains "ethereum" coin1
  then (0.7 + seed * 0.2)%float
  else (0.3 + seed * 0.4)%float.

(** The body of the inner loop. *)
Definition demo_step (coin1 : string) (m : matrix) (coin2 : string) : matrix :=
  if String.eqb coin1 coin2 then set_entry m coin1 coin2 1%float
  else
    let correlation := demo_correlation coin1 coin2 in
    set_entry (set_entry m coin1 coin2 correlation) coin2 coin1 correlation.

(** The two nested loops over [price_data.keys()]. *)
Definition demo_correlation_matrix (keys : list string) : matrix :=
  foldl (fun (m : matrix) coin1 => foldl (demo_step coin1) (<[coin1 := ∅]> m) keys)
    ∅ keys.

End Demo.

(** The three formulas of the demo loop on the seed [k / 1000.0]. *)
#[warnings="-inexact-float"]
Definition demo_values (k : nat) : list float :=
  let seed := (float_of_nat k / 1000)%float in
  [(seed * 0.3)%float; (0.7 + seed * 0.2)%float; (0.3 + seed * 0.4)%float].

(** [v == v] and [0 <= v <= 1]: a number, and a correlation. *)
Definition is_correlation (v : float) : bool :=
  (v =? v)%float && (0 <=? v)%float && (v <=? 1)%float.

(** The range that the comments of the demo loop name for a pair: 0 to 0.3
    with a stablecoin, 0.7 to 0.9 for bitcoin and ethereum, 0.3 to 0.7
    otherwise. *)
#[warnings="-inexact-float"]
Definition demo_range (coin1 coin2 : string) : float * float :=
  if PyStr.contains "tether" coin1 || PyStr.contains "tether" coin2
     || PyStr.contains "usdc" coin1 || PyStr.contains "usdc" coin2
  then (0, 0.3)%float
  else if PyStr.contains "bitcoin" coin1 && PyStr.contains "ethereum" coin2
          || PyStr.contains "bitcoin" coin2 && PyStr.contains "ethereum" coin1
  then (0.7, 0.9)%float
  else (0.3, 0.7)%float.

(** [lo <= v < hi] *)
Definition within (range : float * float) (v : float) : bool :=
  (range.1 <=? v)%float && (v <? range.2)%float.

(** The three formulas on the seed [k / 1000.0], each in its range. *)
#[warnings="-inexact-float"]
Definition demo_values_in_range (k : nat) : bool :=
  match demo_values k with
  | [stable; major; other] =>
      within (0, 0.3)%float stable && within (0.7, 0.9)%float major
      && within (0.3, 0.7)%float other
  | _ => false
  end.

(** *** Sample price data *)

(** Two coins, the first with a constant price. *)
Definition flat_and_rising : list (string * list price) :=
  [("tether", [Some 1%float; Some 1%float]);
   ("bitcoin", [Some 1%float; Some 2%float])].

(** A hash to run the demo loop with: the length of the string. *)
Definition length_hash (s : string) : Z := Z.of_nat (String.length s).

(** One coin with a single price. *)
Definition single_and_rising : list (string * list price) :=
  [("tether", [Some 1%float]);
   ("bitcoin", [Some 1%float; Some 2%float])].

(** One coin with a price that is not a number. *)
Definition null_and_rising : list (string * list price) :=
  [("tether", [Some 1%float; None]);
   ("bitcoin", [Some 1%float; Some 2%float])].

End Correlation.

(** ** services/stocks/sentiment_service.py *)

Module Stocks.
Import PyStr Num Sentiment Price.

Local Open Scope Q_scope.

(** A pandas frame of news: the length of its index and its columns, whose
    cells are any values (a missing cell is the float NaN). *)
Record news_frame := {
  news_len : nat;
  news_columns : gmap string (list pyval)
}.

(** [news_df.empty] *)
Definition news_empty (news_df : news_frame) : bool :=
  bool_decide (news_len news_df = 0%nat)
  || bool_decide (size (news_columns news_df) = 0%nat).

(** [d[key] = v] on a dictionary: in place when the key is there, at the end
    when it is not. *)
Fixpoint pydict_set (d : pydict) (key : string) (v : pyval) : pydict :=
  match d with
  | [] => [(key, v)]
  | (k, x) :: d' =>
      if String.eqb k key then (k, v) :: d' else (k, x) :: pydict_set d' key v
  end.

(** [v.get(key, default)] on any value: only a dictionary has the method. *)
Definition py_get (v : pyval) (key : string) (default : pyval) : result pyval :=
  match v with
  | PDict d => Ok (dict_get d key default)
  | _ => Raise "object has no attribute 'get'"
  end.

(** [a >= b] and [a <= b]; false when either side is NaN. *)
Definition cge (a b : cell) : bool :=
  match a, b with Some x, Some y => Qle_bool y x | _, _ => false end.
Definition cle (a b : cell) : bool :=
  match a, b with Some x, Some y => Qle_bool x y | _, _ => false end.
Definition clt (a b : cell) : bool := cgt b a.

(** The dictionaries [analyze_text] returns, key by key. *)
Definition sentence_dict (e : sentence_entry) : pyval :=
  PDict [("text", PStr (s_text e));
         ("compound", PNum (Some (s_compound e)));
         ("sentiment", PStr (s_sentiment e))].

Definition text_result_dict (r : text_result) : pydict :=
  [("compound", PNum (Some (compound r)));
   ("positive", PNum (Some (positive r)));
   ("neutral", PNum (Some (neutral r)));
   ("negative", PNum (Some (negative r)));
   ("sentiment", PStr (sentiment r));
   ("sentences", PList (sentence_dict <$> sentences r));
   ("explanation", PStr (explanation r))].

(** What the loop of [analyze_headlines] updates. *)
Record headlines_state := {
  analyzed_headlines : list pyval;
  headline_counts : gmap string nat;
  total_compound : cell
}.

Definition initial_headlines : headlines_state :=
  {| analyzed_headlines := [];
     headline_counts :=
       <["positive" := 0%nat]> (<["neutral" := 0%nat]> (<["negative" := 0%nat]> ∅));
     total_compound := Some 0 |}.

(** [news_df[col].iloc[idx] if col in news_df.columns else None] *)
Definition optional_cell (news_df : news_frame) (col : string) (idx : nat)
  : result pyval :=
  match news_columns news_df !! col with
  | None => Ok PNone
  | Some column =>
      match column !! idx with
      | Some v => Ok v
      | None => Raise "single positional indexer is out-of-bounds"
      end
  end.

(** The result for a frame without rows or without headlines. *)
Definition no_headlines_result : pydict :=
  [("sentiment_counts",
    PDict [("positive", PNum (Some 0)); ("neutral", PNum (Some 0));
           ("negative", PNum (Some 0))]);
   ("sentiment_distribution",
    PDict [("positive", PNum (Some 0)); ("neutral", PNum (Some 1));
           ("negative", PNum (Some 0))]);
   ("sentiment_scores",
    PDict [("compound", PNum (Some 0)); ("positive", PNum (Some 0));
           ("neutral", PNum (Some 0)); ("negative", PNum (Some 0))]);
   ("headlines_analyzed", PNum (Some 0));
   ("overall_sentiment", PStr "neutral");
   ("analyzed_headlines", PList [])].

(** The two chains of tests on [avg_compound]: the second one overrides the
    label of the first when one of its tests holds. *)
Definition headline_label (avg_compound : cell) : string :=
  let overall_sentiment :=
    if cge avg_compound (Some 0.05) then "positive"
    else if cle avg_compound (Some (-0.05)) then "negative"
    else "neutral" in
  if cge avg_compound (Some 0.5) then "very_positive"
  else if cge avg_compound (Some 0.2) then "positive"
  else if cge avg_compound (Some 0.05) then "slightly_positive"
  else if cle avg_compound (Some (-0.5)) then "very_negative"
  else if cle avg_compound (Some (-0.2)) then "negative"
  else if cle avg_compound (Some (-0.05)) then "slightly_negative"
  else overall_sentiment.

(** [counts[label]] for one of the three labels of the counter. *)
Definition count_of (counts : gmap string nat) (label : string) : nat :=
  default 0%nat (counts !! label).

(** [symbol.split('.')[0] if '.' in symbol else symbol]: the part of the
    symbol before its first dot. *)
Fixpoint before_dot (symbol : string) : string :=
  match symbol with
  | EmptyString => EmptyString
  | String c s => if Ascii.eqb c "."%char then EmptyString else String c (before_dot s)
  end.

Section Service.

(** VADER, as in [SentimentAnalyzer]. *)
Variable polarity_scores : string -> vader_scores.

(** [StocksDataService().get_stock_news(company, limit=n)] and
    [StocksDataService().get_stock_price_history(symbol, days=n)]; either
    may raise. *)
Variable get_stock_news : option string -> nat -> result news_frame.
Variable get_stock_price_history : string -> nat -> result frame.

(** [self.sentiment_analyzer.analyze_text(text)] on any value: a value that
    is false is answered as a blank text; a value that is true and is not a
    string raises at [text.strip()]. *)
Definition analyze_text_value (text : pyval) : result text_result :=
  if negb (truthy text) then Ok no_text_result
  else
    match text with
    | PStr s => Ok (analyze_text polarity_scores (Some s))
    | _ => Raise "object has no attribute 'strip'"
    end.

(** One pass of the loop of [analyze_headlines].  An exception leaves the
    state as it is at that point and the loop goes on. *)
Definition headline_step (news_df : news_frame) (st : headlines_state)
    (item : nat * pyval) : headlines_state :=
  let '(idx, headline) := item in
  match analyze_text_value headline with
  | Raise _ => st
  | Ok r =>
      let result := text_result_dict r in
      match dict_get result "sentiment" (PStr "neutral") with
      | PStr sentiment =>
          match headline_counts st !! sentiment with
          | None => st
          | Some n =>
              let counts := <[sentiment := S n]> (headline_counts st) in
              match py_get (dict_get result "scores" (PDict [])) "compound"
                      (PNum (Some 0)) with
              | Ok (PNum score) =>
                  let total := cadd (total_compound st) score in
                  match optional_cell news_df "PublishedAt" idx,
                        optional_cell news_df "Company" idx,
                        optional_cell news_df "Source" idx with
                  | Ok published_at, Ok company, Ok source =>
                      let analyzed_headline :=
                        PDict [("headline", headline);
                               ("sentiment", PStr sentiment);
                               ("compound_score", PNum score);
                               ("published_at", published_at);
                               ("company", company);
                               ("source", source)] in
                      {| analyzed_headlines :=
                           analyzed_headlines st ++ [analyzed_headline];
                         headline_counts := counts;
                         total_compound := total |}
                  | _, _, _ =>
                      {| analyzed_headlines := analyzed_headlines st;
                         headline_counts := counts;
                         total_compound := total |}
                  end
              | _ =>
                  {| analyzed_headlines := analyzed_headlines st;
                     headline_counts := counts;
                     total_compound := total_compound st |}
              end
          end
      | _ => st
      end
  end.

(** [count / total_headlines if total_headlines > 0 else 0] *)
Definition fraction (count total : nat) : cell :=
  if (0 <? total)%nat then Some (Q_of_nat count / Q_of_nat total) else Some 0.

(** [analyze_headlines(self, news_df)] *)
Definition analyze_headlines (news_df : news_frame) : pydict :=
  if news_empty news_df then no_headlines_result
  else
    match news_columns news_df !! "Headline" with
    | None => no_headlines_result
    | Some headlines =>
        let st :=
          foldl (headline_step news_df) initial_headlines
            (imap (fun idx headline => (idx, headline)) headlines) in
        let sentiment_counts := headline_counts st in
        let total_headlines := length (analyzed_headlines st) in
        let distribution label :=
          PNum (fraction (count_of sentiment_counts label) total_headlines) in
        let avg_compound :=
          if (0 <? total_headlines)%nat
          then cdiv (total_compound st) (Some (Q_of_nat total_headlines))
          else Some 0 in
        [("sentiment_counts",
          PDict [("positive", PNum (Some (Q_of_nat (count_of sentiment_counts "positive"))));
                 ("neutral", PNum (Some (Q_of_nat (count_of sentiment_counts "neutral"))));
                 ("negative", PNum (Some (Q_of_nat (count_of sentiment_counts "negative"))))]);
         ("sentiment_distribution",
          PDict [("positive", distribution "positive");
                 ("neutral", distribution "neutral");
                 ("negative", distribution "negative")]);
         ("sentiment_scores",
          PDict [("compound", PNum avg_compound);
                 ("positive", distribution "positive");
                 ("neutral", distribution "neutral");
                 ("negative", distribution "negative")]);
         ("headlines_analyzed", PNum (Some (Q_of_nat total_headlines)));
         ("overall_sentiment", PStr (headline_label avg_compound));
         ("analyzed_headlines", PList (analyzed_headlines st))]
  end.

(** The neutral part of the error results of the two wrappers. *)
Definition neutral_error_fields : pydict :=
  [("sentiment_counts",
    PDict [("positive", PNum (Some 0)); ("neutral", PNum (Some 0));
           ("negative", PNum (Some 0))]);
   ("sentiment_distribution",
    PDict [("positive", PNum (Some 0)); ("neutral", PNum (Some 1));
           ("negative", PNum (Some 0))]);
   ("overall_sentiment", PStr "neutral")].

(** [analyze_company_sentiment(self, company, news_df=None)] *)
Definition analyze_company_sentiment (company : string)
    (news_df : option news_frame) : pydict :=
  let loaded :=
    match news_df with
    | Some df => Ok df
    | None => get_stock_news (Some company) 50
    end in
  match loaded with
  | Ok df => pydict_set (analyze_headlines df) "company" (PStr company)
  | Raise e =>
      [("error", PStr e); ("company", PStr company)] ++ neutral_error_fields
  end.

(** [analyze_market_sentiment(self, news_df=None, max_headlines=100)] *)
Definition analyze_market_sentiment (news_df : option news_frame)
    (max_headlines : nat) : pydict :=
  let loaded :=
    match news_df with
    | Some df => Ok df
    | None => get_stock_news None max_headlines
    end in
  match loaded with
  | Ok df => pydict_set (analyze_headlines df) "market" (PStr "overall")
  | Raise e =>
      [("error", PStr e); ("market", PStr "overall")] ++ neutral_error_fields
  end.

(** The body of the [try] block of [analyze_stock_news_impact]. *)
Definition news_impact_body (symbol : string) (news_df : option news_frame)
  : result pydict :=
  stock_data ← get_stock_price_history symbol 30;
  if df_empty stock_data then
    mret [("error", PStr "No stock data available"); ("symbol", PStr symbol)]
  else
    let company := before_dot symbol in
    news_df ← match news_df with
              | Some df => Ok df
              | None => get_stock_news (Some company) 30
              end;
    if news_empty news_df then
      mret [("error", PStr "No news data available");
            ("symbol", PStr symbol); ("company", PStr company)]
    else
      let sentiment_results := analyze_headlines news_df in
      price_change ←
        (if (2 <=? index_len stock_data)%nat then
           close ← df_get stock_data "Close";
           start_price ← match close !! 0%nat with
                         | Some x => Ok x
                         | None => Raise "single positional indexer is out-of-bounds"
                         end;
           close ← df_get stock_data "Close";
           end_price ← iloc_last close;
           mret (cmul (cdiv (csub end_price start_price) start_price) (Some 100))
         else mret (Some 0));
      scores ← py_get (PDict sentiment_results) "sentiment_scores" (PDict []);
      sentiment_score ← py_get scores "compound" (PNum (Some 0));
      match sentiment_score with
      | PNum score =>
          let correlation :=
            if cgt score (Some 0) && cgt price_change (Some 0)
               || clt score (Some 0) && clt price_change (Some 0)
            then "aligned" else "divergent" in
          mret [("symbol", PStr symbol);
                ("company", PStr company);
                ("price_change", PNum price_change);
                ("sentiment_score", PNum score);
                ("correlation", PStr correlation);
                ("sentiment_analysis", PDict sentiment_results)]
      | _ => Raise "'>' not supported between instances"
      end.

(** [analyze_stock_news_impact(self, symbol, news_df=None)] *)
Definition analyze_stock_news_impact (symbol : string)
    (news_df : option news_frame) : pydict :=
  match news_impact_body symbol news_df with
  | Ok r => r
  | Raise e => [("error", PStr e); ("symbol", PStr symbol)]
  end.

End Service.

(** ** services/stocks/visualization_service.py *)

(** [v * 100] on any value: a number is multiplied, a string or a list is
    repeated, and [None] or a dictionary raise. *)
Definition times_100 (v : pyval) : result pyval :=
  match v with
  | PNum x => Ok (PNum (cmul x (Some 100)))
  | PBool b => Ok (PNum (Some (if b then 100 else 0)))
  | PStr s => Ok (PStr (String.concat EmptyString (replicate 100 s)))
  | PList l => Ok (PList (concat (replicate 100 l)))
  | _ => Raise "unsupported operand type(s) for *"
  end.

Definition empty_chart : pydict :=
  [("labels", PList []); ("datasets", PList [])].

(** [prepare_sentiment_distribution_data(self, sentiment_results)] *)
Definition prepare_sentiment_distribution_data (sentiment_results : pydict)
  : pydict :=
  if negb (truthy (PDict sentiment_results))
     || negb (bool_decide
                (is_Some (dict_lookup sentiment_results "sentiment_distribution")))
  then empty_chart
  else
    match
      distribution ←
        match dict_lookup sentiment_results "sentiment_distribution" with
        | Some v => Ok v
        | None => Raise "'sentiment_distribution'"
        end;
      positive ← py_get distribution "positive" (PNum (Some 0));
      positive ← times_100 positive;
      neutral ← py_get distribution "neutral" (PNum (Some 0));
      neutral ← times_100 neutral;
      negative ← py_get distribution "negative" (PNum (Some 0));
      negative ← times_100 negative;
      mret [("labels", PList [PStr "Positive"; PStr "Neutral"; PStr "Negative"]);
            ("datasets",
             PList [PDict [("data", PList [positive; neutral; negative]);
                           ("backgroundColor",
                            PList [PStr "rgba(75, 192, 192, 0.7)";
                                   PStr "rgba(201, 203, 207, 0.7)";
                                   PStr "rgba(255, 99, 132, 0.7)"]);
                           ("borderColor",
                            PList [PStr "rgba(75, 192, 192, 1)";
                                   PStr "rgba(201, 203, 207, 1)";
                                   PStr "rgba(255, 99, 132, 1)"]);
                           ("borderWidth", PNum (Some 1))]])]
    with
    | Ok sentiment_data => sentiment_data
    | Raise _ => empty_chart
    end.

(** [chart['datasets'][0]['data']] *)
Definition chart_values (chart : pydict) : option (list pyval) :=
  match dict_lookup chart "datasets" with
  | Some (PList (PDict dataset :: _)) =>
      match dict_lookup dataset "data" with
      | Some (PList values) => Some values
      | _ => None
      end
  | _ => None
  end.

(** *** What the statements about the headlines speak of *)

(** The label [analyze_text] gives a headline, when it returns. *)
Definition label_of (polarity_scores : string -> vader_scores)
    (headline : pyval) : option string :=
  match analyze_text_value polarity_scores headline with
  | Ok r => Some (sentiment r)
  | Raise _ => None
  end.

(** The number of headlines with a given label. *)
Definition labelled (polarity_scores : string -> vader_scores)
    (label : string) (headlines : list pyval) : nat :=
  length (filter (fun h => label_of polarity_scores h = Some label) headlines).

(** The headlines [analyze_text] returns on: strings and values that are
    false. *)
Definition readable (headline : pyval) : bool :=
  negb (truthy headline)
  || match headline with PStr _ => true | _ => false end.

(** [h['compound_score']] of an analysed headline. *)
Definition compound_score_of (h : pyval) : option pyval :=
  match h with
  | PDict d => dict_lookup d "compound_score"
  | _ => None
  end.

(** *** Frames and instances to run the model *)

(** Every column of the frame has the rows of the index. *)
Definition news_ready (news_df : news_frame) : Prop :=
  forall name column,
    news_columns news_df !! name = Some column ->
    length column = news_len news_df.

(** A frame with the single column ['Headline']. *)
Definition headlines_frame (headlines : list pyval) : news_frame :=
  {| news_len := length headlines;
     news_columns := {["Headline" := headlines]} |}.

(** Three headlines, the second one missing (NaN). *)
Definition sample_headlines : list pyval :=
  [PStr "Shares surge on strong results"; PNum None; PStr "Profit warning"].

(** A frame of closing prices. *)
Definition close_frame (prices : list Q) : frame :=
  {| index_len := length prices;
     columns := {["Close" := Some <$> prices]} |}.

End Stocks.

(** ** services/stocks/data_service.py *)

Module StockData.
Import PyStr Num Price Stocks.

Local Open Scope Q_scope.

(** The end of [get_stock_price_history]: the two averages are added to
    the rows of the symbol within the period, [stock_data], when there are
    more than 7 and more than 30 of them.  (The rows are selected by pandas
    from the file of all symbols; that part is not modelled.) *)
Definition add_moving_averages (stock_data : frame) : result frame :=
  stock_data ←
    (if (7 <? index_len stock_data)%nat then
       close ← df_get stock_data "Close";
       mret (df_set stock_data "7_day_ma" (rolling_mean 7 close))
     else mret stock_data);
  if (30 <? index_len stock_data)%nat then
    close ← df_get stock_data "Close";
    mret (df_set stock_data "30_day_ma" (rolling_mean 30 close))
  else mret stock_data.

(** [price_history[name].iloc[-1] if name in price_history.columns and not
    pd.isna(price_history[name].iloc[-1]) else None]; the [None] of the
    result is Python's. *)
Definition last_average (price_history : frame) (name : string)
  : result (option Q) :=
  match columns price_history !! name with
  | None => Ok None
  | Some column => iloc_last column
  end.

(** [ma] as a condition: [None] and 0.0 are false. *)
Definition average_set (ma : option Q) : bool :=
  match ma with
  | Some m => negb (Qeq_bool m 0)
  | None => false
  end.

(** ['above' if ma and current_price > ma else 'below'] *)
Definition price_vs (ma : option Q) (current_price : cell) : string :=
  if average_set ma && cgt current_price ma then "above" else "below".

(** The test of the trend against the close four rows before the last. *)
Definition recent_trend (current_price five_days_ago : cell) : string :=
  if cgt current_price (cmul five_days_ago (Some 1.05)) then "uptrend"
  else if clt current_price (cmul five_days_ago (Some 0.95)) then "downtrend"
  else "neutral".

(** The test of the trend against the two averages. *)
Definition average_trend (ma_7 ma_30 : option Q) (price_vs_ma7 price_vs_ma30 : string)
  : string :=
  if String.eqb price_vs_ma7 "above" && String.eqb price_vs_ma30 "above"
     && cgt ma_7 ma_30 then "strong_uptrend"
  else if String.eqb price_vs_ma7 "above" && String.eqb price_vs_ma30 "above"
  then "uptrend"
  else if String.eqb price_vs_ma7 "below" && String.eqb price_vs_ma30 "below"
          && clt ma_7 ma_30 then "strong_downtrend"
  else if String.eqb price_vs_ma7 "below" && String.eqb price_vs_ma30 "below"
  then "downtrend"
  else "neutral".

Definition optional_number (x : option Q) : pyval :=
  match x with
  | Some q => PNum (Some q)
  | None => PNone
  end.

Section Analysis.

(** [numpy.sqrt], inside [std]. *)
Variable np_sqrt : Q -> Q.

(** [get_stock_analysis(self, symbol)], from the frame [price_history]
    that [get_stock_price_history(symbol, days=90)] returned.  A missing
    column ['Close'] raises. *)
Definition get_stock_analysis (price_history : frame) (symbol : string)
  : result pydict :=
  if df_empty price_history then
    mret [("error", PStr "No data available for this symbol")]
  else
    ma_7 ← last_average price_history "7_day_ma";
    ma_30 ← last_average price_history "30_day_ma";
    close ← df_get price_history "Close";
    current_price ← iloc_last close;
    let price_vs_ma7 := price_vs ma_7 current_price in
    let price_vs_ma30 := price_vs ma_30 current_price in
    volatility ←
      (if (5 <? index_len price_history)%nat then
         close ← df_get price_history "Close";
         mret (cmul (series_std np_sqrt (pct_change 1 close)) (Some 100))
       else mret (Some 0));
    trend ←
      (if (10 <? index_len price_history)%nat then
         if average_set ma_7 && average_set ma_30 then
           mret (average_trend ma_7 ma_30 price_vs_ma7 price_vs_ma30)
         else if (5 <=? index_len price_history)%nat then
           close ← df_get price_history "Close";
           five_days_ago ←
             match close !! (index_len price_history - 5)%nat with
             | Some x => Ok x
             | None => Raise "single positional indexer is out-of-bounds"
             end;
           mret (recent_trend current_price five_days_ago)
         else mret "neutral"
       else mret "neutral");
    mret [("symbol", PStr symbol);
          ("current_price", PNum current_price);
          ("moving_averages",
           PDict [("ma_7", optional_number ma_7);
                  ("ma_30", optional_number ma_30);
                  ("price_vs_ma7", PStr price_vs_ma7);
                  ("price_vs_ma30", PStr price_vs_ma30)]);
          ("volatility_percent", PNum volatility);
          ("trend", PStr trend);
          ("data_points", PNum (Some (Q_of_nat (index_len price_history))))].

(** The analysis of the rows of a symbol: the averages are added, then the
    frame is analysed. *)
Definition analysis_of_rows (stock_data : frame) (symbol : string)
  : result pydict :=
  price_history ← add_moving_averages stock_data;
  get_stock_analysis price_history symbol.

End Analysis.


(** Twelve closing prices that end 10 per cent up. *)
Definition twelve_closes : list Q :=
  [100; 100; 100; 100; 100; 100; 100; 100; 100; 100; 100; 110].

End StockData.

(** ** app.py: the routes *)

Module App.
Import PyStr Num Sentiment Price Stocks.

(** *** sanitize_for_json *)

(** [sanitize_for_json(data)]: a float that is NaN becomes [None];
    dictionaries and lists are rebuilt with their values sanitized. *)
Fixpoint sanitize_for_json (data : pyval) : pyval :=
  match data with
  | PNum None => PNone
  | PDict d => PDict ((fun kv => (kv.1, sanitize_for_json kv.2)) <$> d)
  | PList l => PList (sanitize_for_json <$> l)
  | _ => data
  end.

(** A NaN somewhere in a value, at any depth of lists and dictionaries. *)
Fixpoint has_nan (data : pyval) : bool :=
  match data with
  | PNum None => true
  | PDict d => existsb (fun kv => has_nan kv.2) d
  | PList l => existsb has_nan l
  | _ => false
  end.

(** *** /api/check-credentials *)




(** *** /api/text/sentiment *)

(** The loop that gives a default to each key the result lacks. *)
Definition fill_missing (sentiment_result : pydict) : pydict :=
  foldl
    (fun (sentiment_result : pydict) key =>
       match dict_lookup sentiment_result key with
       | Some _ => sentiment_result
       | None =>
           pydict_set sentiment_result key
             (if negb (String.eqb key "sentiment") then PNum (Some 0%Q)
              else PStr "neutral")
       end)
    sentiment_result
    ["compound"; "positive"; "neutral"; "negative"; "sentiment"].

(** [analyze_text_sentiment()] on the JSON value of the request: the status
    and the body of the response. *)
Definition analyze_text_sentiment (polarity_scores : string -> vader_scores)
    (data : pyval) : nat * pydict :=
  if negb (truthy data) then
    (400%nat, [("error", PStr "No JSON data provided")])
  else
    match
      text ← py_get data "text" (PStr EmptyString);
      if negb (truthy text) then
        mret (400%nat, [("error", PStr "Text is required")])
      else
        sentiment_result ← analyze_text_value polarity_scores text;
        mret (200%nat, fill_missing (text_result_dict sentiment_result))
    with
    | Ok response => response
    | Raise error_message =>
        (500%nat,
         [("error", PStr ("Error analyzing text sentiment: " +:+ error_message));
          ("status", PStr "error")])
    end.

(** *** /api/price-correlation: which matrix is computed *)

(** [s.split(',')] *)
Fixpoint split_comma_go (cur s : string) : list string :=
  match s with
  | EmptyString => [cur]
  | String c s' =>
      if Ascii.eqb c ","%char then cur :: split_comma_go EmptyString s'
      else split_comma_go (cur +:+ String c EmptyString) s'
  end.

Definition split_comma (s : string) : list string :=
  split_comma_go EmptyString s.

(** The number of commas of a string. *)
Fixpoint commas (s : string) : nat :=
  match s with
  | EmptyString => 0
  | String c s' => (if Ascii.eqb c ","%char then 1 else 0) + commas s'
  end.

(** [for point in v]: the items a value yields when it is iterated. *)
Definition py_iter (v : pyval) : result (list pyval) :=
  match v with
  | PList l => Ok l
  | PStr s => Ok (PStr <$> chars s)
  | PDict d => Ok (PStr <$> d.*1)
  | _ => Raise "object is not iterable"
  end.

(** [point[1]]: the second item of a list or of a string; a dictionary has
    string keys, so that the key [1] is missing. *)
Definition subscript_1 (point : pyval) : result pyval :=
  match point with
  | PList l =>
      match l !! 1%nat with
      | Some v => Ok v
      | None => Raise "list index out of range"
      end
  | PStr s =>
      match chars s !! 1%nat with
      | Some ch => Ok (PStr ch)
      | None => Raise "string index out of range"
      end
  | PDict _ => Raise "1"
  | _ => Raise "object is not subscriptable"
  end.

(** [[f(x) for x in l]]: the first exception ends the comprehension. *)
Fixpoint list_comprehension {A B} (f : A -> result B) (l : list A)
  : result (list B) :=
  match l with
  | [] => Ok []
  | x :: l' =>
      y ← f x;
      ys ← list_comprehension f l';
      mret (y :: ys)
  end.

(** The keys of the dictionary that [generate_demo_correlation_data]
    returns: it stores a price list under each coin id of the list in
    turn, so that a repeated id keeps its first place. *)
Definition demo_keys (coin_id_list : list string) : list string :=
  foldl (fun keys coin_id =>
           if bool_decide (coin_id ∈ keys) then keys else keys ++ [coin_id])
    [] coin_id_list.

(** What [get_price_correlation] answers with: an error response, or the
    matrix of the demo loop over the keys of the demo data, or the matrix
    of the live loop over the price data collected. *)
Inductive outcome :=
  | Bad400 (message : string)
  | Demo (keys : list string)
  | Live (price_data : pydict)
  | Error500 (message : string).

Section Correlation_route.

(** [coin_gecko_service.get_price_history(coin_id, days)] *)
Variable get_price_history : string -> Z -> result pyval.

(** The [try] block of the loop over the coins, up to the list of prices. *)
Definition coin_prices (coin_id : string) (days : Z) : result (list pyval) :=
  price_history ← get_price_history coin_id days;
  points ← py_get price_history "prices" (PList []);
  points ← py_iter points;
  list_comprehension subscript_1 points.

(** One pass of the loop over the coins, on [price_data] and
    [hit_rate_limit]. *)
Definition collect_step (days : Z) (st : pydict * bool) (coin_id : string)
  : pydict * bool :=
  let '(price_data, hit_rate_limit) := st in
  match coin_prices coin_id days with
  | Ok prices =>
      if negb (bool_decide (length prices = 0%nat))
      then (pydict_set price_data coin_id (PList prices), hit_rate_limit)
      else (price_data, true)
  | Raise _ => (price_data, true)
  end.

(** [get_price_correlation()] on the query parameters [coins] and [days],
    up to the choice of the matrix. *)
Definition get_price_correlation (coin_ids : string) (days : Z) : outcome :=
  if is_empty coin_ids then Bad400 "No coins specified"
  else
    let coin_id_list := split_comma coin_ids in
    if (length coin_id_list <? 2)%nat then
      Bad400 "At least two coins are required for correlation"
    else
      let '(price_data, hit_rate_limit) :=
        foldl (collect_step days) ([], false) coin_id_list in
      if hit_rate_limit || (length price_data <? 2)%nat then
        Demo (demo_keys coin_id_list)
      else if (length price_data <? 2)%nat then
        Error500 "Could not get price data for at least two coins"
      else Live price_data.

End Correlation_route.

(** *** Values and services to run the routes on *)

(** A point as [CoinGeckoService.get_price_history] builds it. *)
Definition is_record (point : pyval) : bool :=
  match point with PDict _ => true | _ => false end.

(** A price history whose points are all dictionaries. *)
Definition record_history (price_history : pyval) : bool :=
  match price_history with
  | PDict h =>
      match dict_lookup h "prices" with
      | Some (PList points) => forallb is_record points
      | _ => false
      end
  | _ => false
  end.

(** A service whose points are dictionaries, as in [coin_gecko.py]. *)
Definition record_service (coin_id : string) (days : Z) : result pyval :=
  Ok (PDict [("id", PStr coin_id);
             ("prices",
              PList [PDict [("timestamp", PNum (Some 1%Q));
                            ("date", PStr "2024-01-01 00:00:00");
                            ("price", PNum (Some 100%Q))]]);
             ("volumes", PList [])]).

(** A service whose points are pairs of a timestamp and a price. *)
Definition pair_service (coin_id : string) (days : Z) : result pyval :=
  Ok (PDict [("id", PStr coin_id);
             ("prices",
              PList [PList [PNum (Some 1%Q); PNum (Some 100%Q)];
                     PList [PNum (Some 2%Q); PNum (Some 110%Q)]])]).

(** A request body with a text. *)
Definition text_request (text : string) : pyval :=
  PDict [("text", PStr text)].

(** A report with a NaN two levels down. *)
Definition nan_report : pyval :=
  PDict [("volatility", PDict [("overall", PNum None)]);
         ("prices", PList [PNum (Some 1%Q); PNum None])].

End App.

(** * What the code does *)

(** ** Facts: Python strings *)

Module PyStrFacts.
Import PyStr.

Example strip_run : strip "  to the moon!  " = "to the moon!".
Proof. vm_compute. reflexivity. Qed.

Example split_sentences_run :
  split_sentences "Bitcoin is up.  Sell? No! ok" =
    ["Bitcoin is up."; "Sell?"; "No!"; "ok"].
Proof. vm_compute. reflexivity. Qed.

(** Whitespace that does not follow a terminator does not split. *)
Example split_sentences_no_terminator :
  split_sentences "v1.2 is out , finally" = ["v1.2 is out , finally"].
Proof. vm_compute. reflexivity. Qed.

Example contains_run :
  contains "usdc" "bridged-usdc" = true /\ contains "tether" "bitcoin" = false.
Proof. split; reflexivity. Qed.

(** A no-break space (U+00A0) and an em space (U+2003) are whitespace, each
    one character of two and of three bytes: a text made of them strips to
    the empty string, and a no-break space after a terminator splits. *)
Example unicode_space_run :
  chars ("a" +:+ utf8 160 +:+ utf8 8195 +:+ "b") =
    ["a"; utf8 160; utf8 8195; "b"] /\
  is_space (utf8 160) = true /\ is_space (utf8 8195) = true /\
  strip (utf8 160 +:+ " " +:+ utf8 8195) = EmptyString /\
  split_sentences ("Up!" +:+ utf8 160 +:+ "Down") = ["Up!"; "Down"].
Proof. vm_compute. repeat split; reflexivity. Qed.

(** *** The characters of a string *)

Lemma join_chars (s : string) : join (chars s) = s.
Proof.
  induction s as [|c s IH]; [done|]. cbn [chars].
  destruct (chars s) as [|ch rest]; [cbn in IH; by subst|].
  destruct (continues ch).
  - change (join (String c ch :: rest)) with (String c (join (ch :: rest))).
    by rewrite IH.
  - change (join (String c EmptyString :: ch :: rest))
      with (String c (join (ch :: rest))).
    by rewrite IH.
Qed.

Lemma chars_one_char (s : string) :
  Forall (fun ch => one_char ch = true) (chars s) /\
  Forall (fun ch => continues ch = false) (tail (chars s)).
Proof.
  induction s as [|c s [IH1 IH2]]; [split; constructor|]. cbn [chars].
  destruct (chars s) as [|ch rest]; [split; repeat constructor|].
  destruct (continues ch) eqn:E.
  - split; [|exact IH2].
    inversion IH1 as [|? ? Hch Hrest]; subst. constructor; [|done].
    destruct ch as [|c' ch']; [done|]. cbn in *. by rewrite E, Hch.
  - split; [by constructor|]. cbn. constructor; [done|exact IH2].
Qed.

Lemma chars_app_char (ch s : string) :
  one_char ch = true ->
  match chars s with ch' :: _ => continues ch' = false | [] => True end ->
  chars (ch +:+ s) = ch :: chars s.
Proof.
  intros Hch Hs. destruct ch as [|c rest]; [done|]. cbn in Hch.
  revert c. induction rest as [|c' rest IH]; intros c.
  - change (String c EmptyString +:+ s) with (String c s). cbn [chars].
    destruct (chars s) as [|ch' l]; [done|]. by rewrite Hs.
  - cbn in Hch. apply andb_true_iff in Hch as [Hc' Hrest].
    change (String c (String c' rest) +:+ s)
      with (String c (String c' rest +:+ s)).
    cbn [chars]. rewrite (IH Hrest c'). cbn [continues]. by rewrite Hc'.
Qed.

(** A list of characters of which only the first may begin with a byte that
    continues a character is the list of the characters of its join. *)
Lemma chars_join (l : list string) :
  Forall (fun ch => one_char ch = true) l ->
  Forall (fun ch => continues ch = false) (tail l) ->
  chars (join l) = l.
Proof.
  induction l as [|ch l IH]; [done|]. intros Hone Hfresh.
  inversion Hone as [|? ? Hch Hl]; subst. cbn in Hfresh.
  cbn [join foldr]. fold (join l).
  rewrite chars_app_char; [| done |].
  - rewrite IH; [done|done|]. destruct l; [constructor|].
    by inversion Hfresh.
  - rewrite IH; [|done|].
    + destruct l; [done|]. by inversion Hfresh.
    + destruct l; [constructor|]. by inversion Hfresh.
Qed.

Lemma lstrip_chars_Forall (P : string -> Prop) (l : list string) :
  Forall P l -> Forall P (lstrip_chars l).
Proof.
  induction 1 as [|ch l Hch Hl IH]; cbn [lstrip_chars]; [constructor|].
  destruct (is_space ch); [exact IH|by constructor].
Qed.

Lemma rstrip_chars_Forall (P : string -> Prop) (l : list string) :
  Forall P l -> Forall P (rstrip_chars l).
Proof.
  induction 1 as [|ch l Hch Hl IH]; cbn [rstrip_chars]; [constructor|].
  destruct (_ && _); [constructor|by constructor].
Qed.

Lemma lstrip_chars_tail (P : string -> Prop) (l : list string) :
  Forall P (tail l) -> Forall P (tail (lstrip_chars l)).
Proof.
  induction l as [|ch l IH]; cbn; [done|]. intros H.
  destruct (is_space ch); [|done].
  apply IH. destruct l; [constructor|]. by inversion H.
Qed.

Lemma rstrip_chars_tail (P : string -> Prop) (l : list string) :
  Forall P (tail l) -> Forall P (tail (rstrip_chars l)).
Proof.
  destruct l as [|ch l]; cbn; [done|]. intros H.
  destruct (_ && _); [constructor|]. cbn. by apply rstrip_chars_Forall.
Qed.

(** The characters of a stripped string are the stripped characters. *)
Lemma chars_strip (s : string) :
  chars (strip s) = rstrip_chars (lstrip_chars (chars s)).
Proof.
  destruct (chars_one_char s) as [H1 H2]. unfold strip.
  apply chars_join.
  - by apply rstrip_chars_Forall, lstrip_chars_Forall.
  - by apply rstrip_chars_tail, lstrip_chars_tail.
Qed.

Lemma join_nil (l : list string) :
  Forall (fun ch => one_char ch = true) l ->
  is_empty (join l) = bool_decide (length l = 0%nat).
Proof.
  destruct 1 as [|ch l Hch _]; [done|].
  destruct ch; [done|]. done.
Qed.

(** *** Stripping and whitespace *)

Lemma lstrip_chars_starts (l : list string) :
  lstrip_chars l = [] \/ starts_ink (lstrip_chars l) = true.
Proof.
  induction l as [|ch l IH]; cbn; [by left|].
  destruct (is_space ch) eqn:E; [done|]. right. cbn. by rewrite E.
Qed.

Lemma rstrip_chars_ends (l : list string) :
  rstrip_chars l = [] \/ ends_ink (rstrip_chars l) = true.
Proof.
  induction l as [|ch l IH]; cbn; [by left|].
  destruct (rstrip_chars l) as [|ch' r] eqn:Hr; cbn.
  - destruct (is_space ch) eqn:E; cbn; [by left|]. right. by rewrite E.
  - rewrite andb_false_r. right. destruct IH as [IH | IH]; [done|]. exact IH.
Qed.

Lemma rstrip_chars_starts (l : list string) :
  starts_ink l = true -> starts_ink (rstrip_chars l) = true.
Proof.
  destruct l as [|ch l]; cbn; [done|].
  intros Hc. apply negb_true_iff in Hc. rewrite Hc. cbn. by rewrite Hc.
Qed.

Lemma has_ink_starts (l : list string) :
  has_ink l = true -> starts_ink (lstrip_chars l) = true.
Proof.
  induction l as [|ch l IH]; cbn; [done|].
  destruct (is_space ch) eqn:E; cbn; [exact IH|]. by rewrite E.
Qed.

(** A string with a character that is not whitespace does not strip to
    the empty string. *)
Lemma has_ink_strip (l : list string) :
  Forall (fun ch => one_char ch = true) l ->
  Forall (fun ch => continues ch = false) (tail l) ->
  has_ink l = true ->
  is_empty (strip (join l)) = false.
Proof.
  intros H1 H2 Hink. unfold strip. rewrite (chars_join l H1 H2).
  rewrite join_nil by (by apply rstrip_chars_Forall, lstrip_chars_Forall).
  apply has_ink_starts, rstrip_chars_starts in Hink.
  by destruct (rstrip_chars (lstrip_chars l)).
Qed.

Lemma all_space_lstrip (l : list string) :
  forallb is_space l = true -> lstrip_chars l = [].
Proof.
  induction l as [|ch l IH]; cbn; [done|].
  intros [Hc Hl]%andb_true_iff. rewrite Hc. auto.
Qed.

(** *** The pieces of a split *)

Lemma has_ink_app (l l' : list string) :
  has_ink (l ++ l') = has_ink l || has_ink l'.
Proof. apply existsb_app. Qed.

(** Every piece that [split_go] yields has a character that is not
    whitespace, when the piece read so far has one or the rest starts with
    one, and the rest does not end in whitespace. *)
Lemma split_go_ink (l cur : list string) (after_term in_sep : bool) :
  (l = [] -> in_sep = false /\ has_ink cur = true) ->
  (l <> [] -> ends_ink l = true) ->
  (in_sep = false -> has_ink cur = true \/ starts_ink l = true) ->
  Forall (fun piece => has_ink piece = true)
    (split_go cur after_term in_sep l).
Proof.
  revert cur after_term in_sep.
  induction l as [|ch l IH]; intros cur after_term in_sep H1 H2 H3.
  - cbn. constructor; [|constructor]. by apply H1.
  - specialize (H2 ltac:(done)). clear H1. cbn [split_go].
    assert (is_space ch = true -> l <> [] /\ ends_ink l = true) as Hsp.
    { intros Hc. destruct l as [|ch' l]; cbn in H2.
      - by rewrite Hc in H2.
      - done. }
    assert (l <> [] -> ends_ink l = true) as Hend.
    { intros Hs. destruct l; [done|]. exact H2. }
    destruct in_sep.
    + destruct (is_space ch) eqn:Hc.
      * destruct (Hsp eq_refl) as [Hs He]. by apply IH.
      * apply IH; [|done|]; cbn; rewrite Hc; auto.
    + specialize (H3 eq_refl).
      assert (is_space ch = true -> has_ink cur = true) as Hcur.
      { intros Hc. destruct H3 as [H3 | H3]; [done|]. cbn in H3.
        by rewrite Hc in H3. }
      destruct (is_space ch && after_term) eqn:Hsep.
      * apply andb_true_iff in Hsep as [Hc _].
        destruct (Hsp Hc) as [Hs He].
        constructor; [by apply Hcur|]. by apply IH.
      * assert (has_ink (cur ++ [ch]) = true) as Hink.
        { rewrite has_ink_app. cbn. destruct (is_space ch) eqn:Hc; cbn.
          - rewrite Hcur by done. done.
          - apply orb_true_r. }
        apply IH; auto.
Qed.

(** Every piece is a list of characters of which only the first may begin
    with a byte that continues a character, when the input is one. *)
Lemma split_go_chars (l cur : list string) (after_term in_sep : bool) :
  Forall (fun ch => one_char ch = true) (cur ++ l) ->
  Forall (fun ch => continues ch = false) (tail (cur ++ l)) ->
  Forall (fun piece =>
            Forall (fun ch => one_char ch = true) piece /\
            Forall (fun ch => continues ch = false) (tail piece))
    (split_go cur after_term in_sep l).
Proof.
  revert cur after_term in_sep.
  induction l as [|ch l IH]; intros cur after_term in_sep H1 H2.
  - cbn. rewrite app_nil_r in *. by repeat constructor.
  - cbn [split_go].
    apply Forall_app in H1 as [Hcur Hl].
    inversion Hl as [|? ? Hch Hl']; subst.
    assert (Forall (fun ch => continues ch = false) (tail cur)) as Hcur'.
    { destruct cur; [constructor|]. cbn in H2.
      by apply Forall_app in H2 as [? _]. }
    assert (Forall (fun ch => continues ch = false) l) as Hfresh.
    { destruct cur; cbn in H2.
      - done.
      - apply Forall_app in H2 as [_ H2]. by inversion H2. }
    assert (Forall (fun ch => continues ch = false) (tail l)) as Hfresh'.
    { destruct l; [constructor|]. by inversion Hfresh. }
    destruct in_sep.
    + destruct (is_space ch).
      * apply IH; [by apply Forall_app|].
        destruct cur; cbn; [done|]. by apply Forall_app.
      * apply (IH [ch]); cbn; [by constructor|done].
    + destruct (is_space ch && after_term).
      * constructor; [done|]. by apply (IH []).
      * apply IH.
        -- rewrite <- app_assoc. cbn. apply Forall_app. by split.
        -- rewrite <- app_assoc. cbn. done.
Qed.

Lemma split_go_not_nil (l cur : list string) (after_term in_sep : bool) :
  split_go cur after_term in_sep l <> [].
Proof.
  revert cur after_term in_sep.
  induction l as [|ch l IH]; intros cur after_term in_sep; cbn; [done|].
  repeat case_match; try done; apply IH.
Qed.

(** The pieces of a stripped text that is not empty: each has a character
    that is not whitespace, so that no piece strips to the empty string;
    and there is at least one. *)
Lemma split_sentences_strip (t : string) :
  is_empty (strip t) = false ->
  Forall (fun piece => is_empty (strip piece) = false)
    (split_sentences (strip t)) /\
  split_sentences (strip t) <> [].
Proof.
  intros Hne. unfold split_sentences. rewrite chars_strip.
  destruct (chars_one_char t) as [H1 H2].
  set (cs := rstrip_chars (lstrip_chars (chars t))).
  assert (Forall (fun ch => one_char ch = true) cs) as Hone
    by (by apply rstrip_chars_Forall, lstrip_chars_Forall).
  assert (Forall (fun ch => continues ch = false) (tail cs)) as Hfresh
    by (by apply rstrip_chars_tail, lstrip_chars_tail).
  assert (cs <> []) as Hcs.
  { intros E. unfold strip in Hne. fold cs in Hne. by rewrite E in Hne. }
  split.
  - apply Forall_fmap.
    pose proof (split_go_chars cs [] false false Hone Hfresh) as Hchars.
    assert (Forall (fun piece => has_ink piece = true)
              (split_go [] false false cs)) as Hink.
    { apply split_go_ink.
      - done.
      - intros _. unfold cs in *. by destruct (rstrip_chars_ends (lstrip_chars (chars t))).
      - intros _. right. unfold cs in *.
        destruct (lstrip_chars_starts (chars t)) as [E | E].
        + by rewrite E in Hcs.
        + by apply rstrip_chars_starts. }
    revert Hchars Hink. generalize (split_go [] false false cs).
    intros pieces Hchars. induction Hchars as [|piece pieces [Hp1 Hp2] _ IH];
      intros Hink; [constructor|].
    inversion Hink; subst. constructor; [|by apply IH].
    cbn. by apply has_ink_strip.
  - intros E. apply fmap_nil_inv in E. by apply split_go_not_nil in E.
Qed.

End PyStrFacts.

(** ** Facts: services/sentiment_analyzer.py *)

Module SentimentFacts.
Import PyStr Num Sentiment.

Local Open Scope Q_scope.

(** *** The threshold policy *)

Lemma classify_follows_threshold (c : Q) : follows_threshold (classify c) c.
Proof.
  unfold follows_threshold, classify.
  destruct (Qle_bool 0.05 c) eqn:Hpos.
  - apply Qle_bool_iff in Hpos.
    repeat split; intros; try done; try lra.
  - assert (~ 0.05 <= c) as Hn by (rewrite <- Qle_bool_iff; congruence).
    destruct (Qle_bool c (-0.05)) eqn:Hneg.
    + apply Qle_bool_iff in Hneg.
      repeat split; intros; try done; try lra.
    + assert (~ c <= -0.05) as Hn' by (rewrite <- Qle_bool_iff; congruence).
      repeat split; intros; try done; try lra.
Qed.

Lemma analyze_sentence_follows_threshold ps (s : string) :
  Forall (fun e => follows_threshold (s_sentiment e) (s_compound e))
    (analyze_sentence ps s).
Proof.
  unfold analyze_sentence.
  destruct (is_empty (strip s)); constructor; [|constructor].
  apply classify_follows_threshold.
Qed.

Lemma neutral_follows_threshold : follows_threshold "neutral" 0.
Proof. unfold follows_threshold. repeat split; intros; try done; lra. Qed.

(** C1. The label [analyze_text] returns is "positive" exactly when the
    compound score it returns is at least 0.05, "negative" exactly when it is
    at most -0.05 and "neutral" exactly when it is neither; every entry of
    the returned sentence list obeys the same rule, and so does the
    [overall_sentiment] of [analyze_posts] with respect to the average
    compound score.  (It holds for blank texts too, whose score is 0.) *)
Theorem analyze_text_label_follows_threshold :
  forall (polarity_scores : string -> vader_scores) (text : option string),
    let r := analyze_text polarity_scores text in
    follows_threshold (sentiment r) (compound r) /\
    Forall (fun e => follows_threshold (s_sentiment e) (s_compound e))
      (sentences r) /\
    forall posts : list post,
      let a := analyze_posts polarity_scores posts in
      follows_threshold (overall_sentiment a) (t_compound (average_scores a)).
Proof.
  intros ps text. cbn zeta. split; [|split].
  - unfold analyze_text. destruct (is_blank text); cbn.
    + apply neutral_follows_threshold.
    + apply classify_follows_threshold.
  - unfold analyze_text. destruct (is_blank text); cbn.
    + constructor.
    + induction (split_sentences _) as [|s l IH]; cbn.
      * constructor.
      * apply Forall_app. split; [apply analyze_sentence_follows_threshold | exact IH].
  - intros posts. unfold analyze_posts.
    destruct posts as [|p posts]; [apply neutral_follows_threshold|].
    destruct (_ =? 0)%nat; cbn.
    + apply neutral_follows_threshold.
    + apply classify_follows_threshold.
Qed.

(** *** Blank texts *)

Lemma is_blank_all_space (t : string) : all_space t = true -> is_blank (Some t) = true.
Proof.
  intros H. cbn. unfold strip, all_space in *.
  rewrite (PyStrFacts.all_space_lstrip _ H). cbn. apply orb_true_r.
Qed.

(** C8. For a text that is [None], empty or made of whitespace only,
    [analyze_text] returns compound, positive, neutral and negative scores
    0, the label "neutral", no sentences and the explanation
    "No text provided". *)
Theorem analyze_text_blank :
  forall (polarity_scores : string -> vader_scores) (text : option string),
    (text = None \/ exists t, text = Some t /\ all_space t = true) ->
    analyze_text polarity_scores text =
      {| compound := 0; positive := 0; neutral := 0; negative := 0;
         sentiment := "neutral"; sentences := [];
         explanation := "No text provided" |}.
Proof.
  intros ps text H. unfold analyze_text.
  assert (is_blank text = true) as ->; [|done].
  destruct H as [-> | (t & -> & Ht)]; [done|].
  by apply is_blank_all_space.
Qed.

Lemma analyze_text_blank_witness :
  analyze_text (constant_scores 0.5) (Some unicode_blank) =
    {| compound := 0; positive := 0; neutral := 0; negative := 0;
       sentiment := "neutral"; sentences := [];
       explanation := "No text provided" |}.
Proof.
  apply (analyze_text_blank (constant_scores 0.5) (Some unicode_blank)).
  right. exists unicode_blank. split; reflexivity.
Defined.

(** A text of one no-break space is blank, and a no-break space after a
    terminator separates two sentences. *)
Example analyze_text_no_break_space :
  analyze_text (constant_scores 0.5) (Some (utf8 160)) = no_text_result /\
  s_text <$> sentences (analyze_text (constant_scores 0.5)
                          (Some ("Up!" +:+ utf8 160 +:+ "Down"))) =
    ["Up!"; "Down"].
Proof. vm_compute. split; reflexivity. Qed.

(** *** Posts that fail after they were scored *)

Lemma analyze_text_label_cases ps (text : option string) :
  sentiment (analyze_text ps text) = "positive" \/
  sentiment (analyze_text ps text) = "neutral" \/
  sentiment (analyze_text ps text) = "negative".
Proof.
  unfold analyze_text. destruct (is_blank text); cbn; [auto|].
  unfold classify. repeat case_match; auto.
Qed.

(** The state after a post with a title and an id, and after a post with a
    title and no id: the second differs only in [posts_details]. *)
Lemma analyze_post_full ps st (title id : string) :
  let scored := analyze_text ps (Some (title +:+ " " +:+ EmptyString)) in
  analyze_post ps st (full_post title id) =
    {| total_scores :=
         {| t_compound := t_compound (total_scores st) + compound scored;
            t_positive := t_positive (total_scores st) + positive scored;
            t_neutral := t_neutral (total_scores st) + neutral scored;
            t_negative := t_negative (total_scores st) + negative scored |};
       sentiment_counts := counter_incr (sentiment scored) (sentiment_counts st);
       posts_details :=
         posts_details st ++
           [{| d_id := id; d_title := title; d_score := 0; d_num_comments := 0;
               d_sentiment :=
                 {| b_compound := compound scored; b_positive := positive scored;
                    b_neutral := neutral scored; b_negative := negative scored;
                    b_sentiment := sentiment scored |} |}] |}.
Proof. reflexivity. Qed.

Lemma analyze_post_without_id ps st (title : string) :
  let scored := analyze_text ps (Some (title +:+ " " +:+ EmptyString)) in
  analyze_post ps st (post_without_id title) =
    {| total_scores :=
         {| t_compound := t_compound (total_scores st) + compound scored;
            t_positive := t_positive (total_scores st) + positive scored;
            t_neutral := t_neutral (total_scores st) + neutral scored;
            t_negative := t_negative (total_scores st) + negative scored |};
       sentiment_counts := counter_incr (sentiment scored) (sentiment_counts st);
       posts_details := posts_details st |}.
Proof. reflexivity. Qed.

(** C4, at the posts [[{'title': t, 'id': i}, {'title': t}]].  The second
    post raises [KeyError] at [post['id']], after its scores were added to
    [total_scores]: one post is analyzed, and each average is twice that
    post's score instead of the score itself. *)
Theorem analyze_posts_average_counts_failed_post :
  forall (polarity_scores : string -> vader_scores) (title id : string),
    let r := analyze_posts polarity_scores
               [full_post title id; post_without_id title] in
    let scored :=
      analyze_text polarity_scores (Some (title +:+ " " +:+ EmptyString)) in
    posts_analyzed r = 1%nat /\
    length (r_posts_details r) = 1%nat /\
    t_compound (average_scores r) == 2 * compound scored /\
    t_positive (average_scores r) == 2 * positive scored /\
    t_neutral (average_scores r) == 2 * neutral scored /\
    t_negative (average_scores r) == 2 * negative scored.
Proof.
  intros ps title id. cbv zeta. unfold analyze_posts.
  cbn [foldl]. rewrite analyze_post_full, analyze_post_without_id. cbv zeta.
  set (scored := analyze_text ps _). cbn.
  repeat split; unfold Q_of_nat; cbn; field.
Qed.

(** C9, at the same posts.  One post is analyzed and [posts_analyzed] is the
    length of [posts_details], but the label of the failed post was counted
    as well: the three fractions add up to 2. *)
Theorem analyze_posts_distribution_counts_failed_post :
  forall (polarity_scores : string -> vader_scores) (title id : string),
    let r := analyze_posts polarity_scores
               [full_post title id; post_without_id title] in
    posts_analyzed r = length (r_posts_details r) /\
    posts_analyzed r = 1%nat /\
    exists a b c : Q,
      sentiment_distribution r !! "positive" = Some a /\
      sentiment_distribution r !! "neutral" = Some b /\
      sentiment_distribution r !! "negative" = Some c /\
      a + b + c == 2.
Proof.
  intros ps title id. cbv zeta. unfold analyze_posts.
  cbn [foldl]. rewrite analyze_post_full, analyze_post_without_id. cbv zeta.
  set (scored := analyze_text ps _).
  cbn [posts_details initial_state app length Nat.eqb posts_analyzed
       r_posts_details sentiment_distribution sentiment_counts].
  split; [done|]. split; [done|].
  destruct (analyze_text_label_cases ps (Some (title +:+ " " +:+ EmptyString)))
    as [H | [H | H]]; fold scored in H; rewrite H.
  - exists 2, 0, 0. by vm_compute.
  - exists 0, 2, 0. by vm_compute.
  - exists 0, 0, 2. by vm_compute.
Qed.

(** The same posts with a scorer that gives every text the compound score
    0.5: the average compound score is 1 and the "positive" fraction is 2. *)
Example analyze_posts_failed_post_run :
  let r := analyze_posts (constant_scores 0.5)
             [full_post "bullish" "a1"; post_without_id "bullish"] in
  posts_analyzed r = 1%nat /\
  Qeq_bool (t_compound (average_scores r)) 1 = true /\
  sentiment_distribution r !! "positive" = Some 2.
Proof. by vm_compute. Qed.

(** *** What holds of every list of posts *)

(** X24. [analyze_posts] returns for every list; [posts_analyzed] is the
    length of [posts_details]; the three labels are keys of the distribution; and
    with no analyzed post (an empty list among them) the result is the zero
    result. *)
Lemma analyze_posts_shape ps (posts : list post) :
  let r := analyze_posts ps posts in
  posts_analyzed r = length (r_posts_details r) /\
  (forall l, l ∈ ["positive"; "neutral"; "negative"] ->
             is_Some (sentiment_distribution r !! l)) /\
  (posts_analyzed r = 0%nat -> r = zero_result).
Proof.
  cbv zeta. unfold analyze_posts.
  assert (forall l, l ∈ ["positive"; "neutral"; "negative"] ->
                    is_Some (sentiment_distribution zero_result !! l)) as Hzero.
  { intros l Hl. set_unfold in Hl.
    destruct Hl as [-> | [-> | [-> | []]]]; eexists; reflexivity. }
  destruct posts as [|p posts]; [done|].
  destruct (_ =? 0)%nat eqn:Hlen; [done|].
  apply Nat.eqb_neq in Hlen.
  cbn [posts_analyzed r_posts_details sentiment_distribution].
  split_and!; [done| |done].
  intros l Hl. cbn [foldl]. unfold ensure_key. set_unfold in Hl.
  repeat case_match; destruct Hl as [-> | [-> | [-> | []]]];
    simplify_map_eq; eauto.
Qed.

Lemma analyze_posts_nil ps : analyze_posts ps [] = zero_result.
Proof. reflexivity. Qed.

(** *** Posts that fail before they are scored, or not at all *)


Lemma Qsum_app (l l' : list Q) : Qsum (l ++ l') == Qsum l + Qsum l'.
Proof.
  unfold Qsum. induction l as [|x l IH]; cbn; [ring|].
  rewrite IH. ring.
Qed.








Lemma Q_of_nat_pos (n : nat) : (0 < n)%nat -> 0 < Q_of_nat n.
Proof.
  intros H. unfold Q_of_nat. change 0 with (inject_Z 0).
  rewrite <- Zlt_Qlt. lia.
Qed.

Lemma Q_of_nat_le (a b : nat) : (a <= b)%nat -> Q_of_nat a <= Q_of_nat b.
Proof. intros H. unfold Q_of_nat. rewrite <- Zle_Qle. lia. Qed.

(** A fraction [count / total] of a count that is at most the total. *)
Lemma fraction_bounds (a n : nat) :
  (0 < n)%nat -> (a <= n)%nat ->
  0 <= Q_of_nat a / Q_of_nat n /\ Q_of_nat a / Q_of_nat n <= 1.
Proof.
  intros Hn Ha. pose proof (Q_of_nat_pos n Hn) as Hpos.
  split.
  - apply Qle_shift_div_l; [done|]. rewrite Qmult_0_l.
    change 0 with (Q_of_nat 0). apply Q_of_nat_le. lia.
  - apply Qle_shift_div_r; [done|]. rewrite Qmult_1_l. by apply Q_of_nat_le.
Qed.


(** *** The sentences of a text *)

(** X5. For a text that is not blank, every piece that the split on
    sentence ends yields is scored: the sentence list has one entry for
    each piece, in order, with the piece as its text, and it is not
    empty.  The test [if sentence.strip()] never drops a piece. *)
Theorem analyze_text_scores_every_piece :
  forall (polarity_scores : string -> vader_scores) (t : string),
    is_blank (Some t) = false ->
    let r := analyze_text polarity_scores (Some t) in
    sentences r =
      sentence_entry_of polarity_scores <$> split_sentences (strip t) /\
    (0 < length (sentences r))%nat.
Proof.
  intros ps t Hb. cbv zeta.
  assert (is_empty (strip t) = false) as Hne.
  { cbn in Hb. by apply orb_false_iff in Hb as [_ Hb]. }
  assert (sentences (analyze_text ps (Some t)) =
            sentence_entry_of ps <$> split_sentences (strip t)) as ->.
  { unfold analyze_text. rewrite Hb. cbn [sentences default]. unfold id.
    generalize (split_sentences (strip t))
      (proj1 (PyStrFacts.split_sentences_strip t Hne)).
    intros pieces Hink.
    induction Hink as [|piece pieces Hp _ IH]; [done|].
    cbn [flat_map fmap list_fmap]. rewrite IH.
    unfold analyze_sentence at 1. by rewrite Hp. }
  split; [done|]. rewrite length_fmap.
  pose proof (proj2 (PyStrFacts.split_sentences_strip t Hne)) as Hnil.
  destruct (split_sentences (strip t)); [done|]. cbn. lia.
Qed.

Lemma analyze_text_scores_every_piece_witness :
  let r := analyze_text (constant_scores 0.5) (Some " Up! Down? ") in
  sentences r =
    sentence_entry_of (constant_scores 0.5) <$> split_sentences (strip " Up! Down? ") /\
  (0 < length (sentences r))%nat.
Proof.
  apply (analyze_text_scores_every_piece (constant_scores 0.5) " Up! Down? ").
  reflexivity.
Defined.

(** *** Which posts reach the result *)

Lemma analyze_post_untitled_state ps (st : posts_state) (p : post) :
  p_title p = None -> analyze_post ps st p = st.
Proof. intros H. unfold analyze_post. by rewrite H. Qed.

Lemma foldl_analyze_post_titled ps (posts : list post) (st : posts_state) :
  foldl (analyze_post ps) st posts =
    foldl (analyze_post ps) st (filter (fun p => is_Some (p_title p)) posts).
Proof.
  revert st. induction posts as [|p posts IH]; intros st; [done|].
  rewrite filter_cons. case_decide as Hp; cbn [foldl].
  - apply IH.
  - rewrite analyze_post_untitled_state; [apply IH|].
    destruct (p_title p); [|done]. by destruct Hp.
Qed.

(** X6. Posts without a title leave no trace: the result of
    [analyze_posts] on a list is the result on the list without them. *)
Theorem analyze_posts_ignores_untitled :
  forall (polarity_scores : string -> vader_scores) (posts : list post),
    analyze_posts polarity_scores posts =
      analyze_posts polarity_scores
        (filter (fun p => is_Some (p_title p)) posts).
Proof.
  intros ps posts. unfold analyze_posts.
  rewrite <- (foldl_analyze_post_titled ps posts initial_state).
  destruct posts as [|p posts]; [done|].
  destruct (filter _ (p :: posts)) as [|q qs] eqn:Hf; [|done].
  rewrite (foldl_analyze_post_titled ps (p :: posts)), Hf. done.
Qed.

Lemma analyze_post_details ps (st : posts_state) (p : post) :
  posts_details (analyze_post ps st p) =
    posts_details st ++ option_list (detail_of ps p).
Proof.
  unfold analyze_post, detail_of.
  destruct (p_title p); [|by rewrite app_nil_r].
  destruct (p_id p); cbn; [done|by rewrite app_nil_r].
Qed.

Lemma foldl_analyze_post_details ps (posts : list post) (st : posts_state) :
  posts_details (foldl (analyze_post ps) st posts) =
    posts_details st ++ omap (detail_of ps) posts.
Proof.
  revert st. induction posts as [|p posts IH]; intros st; cbn [foldl].
  - by rewrite app_nil_r.
  - rewrite IH, analyze_post_details, <- app_assoc. f_equal.
    assert (omap (detail_of ps) (p :: posts) =
              option_list (detail_of ps p) ++ omap (detail_of ps) posts) as ->;
      [|done].
    change (omap (detail_of ps) (p :: posts)) with
      (match detail_of ps p with
       | Some d => d :: omap (detail_of ps) posts
       | None => omap (detail_of ps) posts
       end).
    by destruct (detail_of ps p).
Qed.

(** X7. For every list of posts, [posts_details] lists the posts that have
    both a title and an id, in the order of the input, each with its own
    id, title and scores, and with 0 for a missing score or comment count;
    [posts_analyzed] is their number. *)
Theorem analyze_posts_details_in_order :
  forall (polarity_scores : string -> vader_scores) (posts : list post),
    let r := analyze_posts polarity_scores posts in
    r_posts_details r = omap (detail_of polarity_scores) posts /\
    posts_analyzed r = length (omap (detail_of polarity_scores) posts).
Proof.
  intros ps posts. cbv zeta. unfold analyze_posts.
  destruct posts as [|p posts]; [done|].
  pose proof (foldl_analyze_post_details ps (p :: posts) initial_state) as H.
  cbn [initial_state posts_details app] in H. cbv zeta.
  set (st := foldl (analyze_post ps) initial_state (p :: posts)) in *.
  rewrite <- H.
  destruct (length (posts_details st) =? 0)%nat eqn:E; [|done].
  apply Nat.eqb_eq in E. by destruct (posts_details st).
Qed.


End SentimentFacts.

(** ** Facts: utils/analysis.py *)

Module PriceFacts.
Import Num Price.

Local Open Scope Q_scope.

(** *** The error reports *)

(** C7. When the price list is empty ([prices] is missing, so that the
    default [[]] is used, or is [[]]), [analyze] returns exactly
    [{"error": "No price data available for analysis"}], whatever the
    frame constructor would do. *)
Theorem analyze_no_prices :
  forall (np_sqrt : Q -> Q) (DataFrame : pyval -> result frame)
         (format_2f : cell -> string) (price_history : pydict),
    (dict_lookup price_history "prices" = None \/
     dict_lookup price_history "prices" = Some (PList [])) ->
    analyze np_sqrt DataFrame format_2f price_history =
      [("error", PStr "No price data available for analysis")].
Proof.
  intros np_sqrt DataFrame format_2f ph H.
  unfold analyze, analyze_body, dict_get.
  by destruct H as [-> | ->].
Qed.

Lemma analyze_no_prices_witness :
  analyze sqrt_stub records_frame format_stub
    [("id", PStr "bitcoin"); ("prices", PList [])] =
    [("error", PStr "No price data available for analysis")].
Proof.
  apply (analyze_no_prices sqrt_stub records_frame format_stub
           [("id", PStr "bitcoin"); ("prices", PList [])]).
  right. reflexivity.
Defined.

(** C10. [analyze] always returns a dictionary, and it is one of three:
    the report [{"error": "No price data available for analysis"}], a
    report [{"error": "Failed to analyze price data: ..."}] for an
    exception raised inside the [try] block, or a report with the keys
    [coin_id], [current_price], [moving_averages], [volatility],
    [momentum], [price_prediction] and [summary]. *)
Theorem analyze_returns_error_or_report :
  forall (np_sqrt : Q -> Q) (DataFrame : pyval -> result frame)
         (format_2f : cell -> string) (price_history : pydict),
    let report := analyze np_sqrt DataFrame format_2f price_history in
    report = [("error", PStr "No price data available for analysis")] \/
    (exists e : string,
       report = [("error", PStr ("Failed to analyze price data: " +:+ e))]) \/
    report.*1 =
      ["coin_id"; "current_price"; "moving_averages"; "volatility";
       "momentum"; "price_prediction"; "summary"].
Proof.
  intros np_sqrt DataFrame format_2f ph. cbv zeta.
  unfold analyze.
  destruct (analyze_body _ _ _ ph) as [report | e] eqn:Hbody; [|eauto].
  unfold analyze_body in Hbody.
  destruct (negb _).
  { injection Hbody as <-. by left. }
  repeat match type of Hbody with
         | mbind _ ?m = _ => destruct m as [[]|]; cbn in Hbody; try done
         | mbind _ ?m = _ => destruct m; cbn in Hbody; try done
         end.
  injection Hbody as <-. by right; right.
Qed.

(** *** Moving averages *)

Lemma valid_numbers (qs : list Q) : valid (Some <$> qs) = qs.
Proof. unfold valid. induction qs as [|q qs IH]; cbn; [done|]. by rewrite IH. Qed.

Lemma length_rolling_mean (w : nat) (xs : list cell) :
  length (rolling_mean w xs) = length xs.
Proof. unfold rolling_mean. by rewrite length_fmap, length_seq. Qed.

Lemma length_pct_change (k : nat) (xs : list cell) :
  length (pct_change k xs) = length xs.
Proof. unfold pct_change. by rewrite length_fmap, length_seq. Qed.

Lemma length_diff (xs : list cell) : length (diff xs) = length xs.
Proof. unfold diff. by rewrite length_fmap, length_seq. Qed.

Lemma length_scale (c : Q) (xs : list cell) : length (scale c xs) = length xs.
Proof. unfold scale. by rewrite length_fmap. Qed.

(** The rolling mean of a series of numbers, index by index. *)
Lemma rolling_mean_lookup (w i : nat) (qs : list Q) :
  (i < length qs)%nat ->
  rolling_mean w (Some <$> qs) !! i =
    Some (if (S i <? w)%nat then None else Some (Qmean (window_at w i qs))).
Proof.
  intros Hi. unfold rolling_mean.
  rewrite list_lookup_fmap, length_fmap. rewrite lookup_seq_lt by lia.
  cbn [fmap option_fmap option_map Nat.add]. f_equal. unfold window_mean, tail.
  rewrite length_take, length_fmap.
  replace (S i `min` length qs)%nat with (S i) by lia.
  destruct (S i <? w)%nat eqn:Hw; [done|].
  apply Nat.ltb_ge in Hw.
  rewrite <- fmap_take, <- fmap_drop, valid_numbers.
  fold (window_at w i qs).
  rewrite bool_decide_eq_true_2; [done|].
  unfold window_at. rewrite length_drop, length_take. lia.
Qed.

(** At the last index the window is the tail of the series. *)
Lemma rolling_mean_last (w : nat) (qs : list Q) :
  (0 < w <= length qs)%nat ->
  last (rolling_mean w (Some <$> qs)) = Some (Some (Qmean (tail w qs))).
Proof.
  intros Hw. rewrite last_lookup, length_rolling_mean, length_fmap.
  rewrite rolling_mean_lookup by lia.
  replace (S (pred (length qs))) with (length qs) by lia.
  destruct (length qs <? w)%nat eqn:E; [apply Nat.ltb_lt in E; lia|].
  unfold window_at, tail.
  replace (S (pred (length qs))) with (length qs) by lia.
  by rewrite take_ge by lia.
Qed.

Lemma ready_df_set (df : frame) (name : string) (col : list cell) :
  ready df -> length col = index_len df -> ready (df_set df name col).
Proof.
  intros [Hn Hc] Hlen. split; [done|]. cbn. intros name' col'.
  rewrite lookup_insert. case_decide; [naive_solver|]. apply Hc.
Qed.

Lemma ready_not_empty (df : frame) (name : string) (col : list cell) :
  ready df -> columns df !! name = Some col -> df_empty df = false.
Proof.
  intros [Hn _] Hcol. unfold df_empty.
  rewrite bool_decide_eq_false_2 by done.
  rewrite bool_decide_eq_false_2; [done|].
  intros E. by rewrite E, lookup_empty in Hcol.
Qed.

Lemma ready_iloc_last (df : frame) (name : string) (col : list cell) :
  ready df -> columns df !! name = Some col ->
  exists x, last col = Some x /\ iloc_last col = Ok x.
Proof.
  intros [Hn Hc] Hcol. apply Hc in Hcol.
  destruct (last col) as [x|] eqn:E.
  - exists x. unfold iloc_last. by rewrite E.
  - apply last_None in E. subst col. cbn in Hcol. lia.
Qed.

Lemma df_get_some (df : frame) (name : string) (col : list cell) :
  columns df !! name = Some col -> df_get df name = Ok col.
Proof. intros H. unfold df_get. by rewrite H. Qed.

Lemma columns_df_set (df : frame) (name name' : string) (col : list cell) :
  columns (df_set df name col) !! name' =
    if decide (name = name') then Some col else columns df !! name'.
Proof. cbn. apply lookup_insert. Qed.

(** *** The helpers on a frame with a price column *)

(** Read a column through the columns set on top of it. *)
Ltac column :=
  unfold with_moving_averages, with_returns, with_rates;
  repeat (rewrite columns_df_set;
          first [ rewrite decide_True by done | rewrite decide_False by done ]);
  first [ reflexivity | eassumption ].

Ltac column_length Hready :=
  rewrite ?length_rolling_mean, ?length_scale, ?length_pct_change,
    ?length_fmap, ?length_diff;
  cbn [index_len df_set];
  first [ by eapply Hready | lia ].

Lemma calculate_moving_averages_ok (df : frame) (price : list cell) :
  columns df !! "price" = Some price ->
  calculate_moving_averages df = Ok (with_moving_averages df price).
Proof.
  intros H. unfold calculate_moving_averages.
  repeat (erewrite df_get_some by column; cbn [mbind result_bind]).
  reflexivity.
Qed.

Lemma calculate_volatility_ok np_sqrt (df : frame) (price : list cell) :
  columns df !! "price" = Some price ->
  exists v, calculate_volatility np_sqrt df = Ok (with_returns df price, v).
Proof.
  intros H. unfold calculate_volatility.
  repeat (erewrite df_get_some by column; cbn [mbind result_bind]).
  eexists. reflexivity.
Qed.

Lemma ready_with_moving_averages (df : frame) (price : list cell) :
  ready df -> columns df !! "price" = Some price ->
  ready (with_moving_averages df price).
Proof.
  intros Hr H. pose proof (proj2 Hr _ _ H) as Hlen.
  unfold with_moving_averages.
  repeat (apply ready_df_set; [|column_length Hr]). done.
Qed.

Lemma ready_with_returns (df : frame) (price : list cell) :
  ready df -> columns df !! "price" = Some price ->
  ready (with_returns df price).
Proof.
  intros Hr H. pose proof (proj2 Hr _ _ H) as Hlen.
  unfold with_returns.
  repeat (apply ready_df_set; [|column_length Hr]). done.
Qed.

Lemma ready_with_rates (df : frame) (price : list cell) :
  ready df -> columns df !! "price" = Some price ->
  ready (with_rates df price).
Proof.
  intros Hr H. pose proof (proj2 Hr _ _ H) as Hlen.
  unfold with_rates.
  repeat (apply ready_df_set; [|column_length Hr]). done.
Qed.

Lemma latest_or_zero_ok (df : frame) (name : string) (col : list cell) :
  ready df -> columns df !! name = Some col ->
  exists x, latest_or_zero df name = Ok x.
Proof.
  intros Hr H. unfold latest_or_zero.
  rewrite (ready_not_empty _ _ _ Hr H), (df_get_some _ _ _ H).
  destruct (ready_iloc_last _ _ _ Hr H) as (x & _ & Hx). eauto.
Qed.

Lemma latest_gt_ok (df : frame) (a b : string) (ca cb : list cell) :
  ready df -> columns df !! a = Some ca -> columns df !! b = Some cb ->
  exists u, latest_gt df a b = Ok u.
Proof.
  intros Hr Ha Hb. unfold latest_gt.
  rewrite (ready_not_empty _ _ _ Hr Ha).
  rewrite (df_get_some _ _ _ Ha), (df_get_some _ _ _ Hb).
  destruct (ready_iloc_last _ _ _ Hr Ha) as (xa & _ & Hxa).
  destruct (ready_iloc_last _ _ _ Hr Hb) as (xb & _ & Hxb).
  cbn. rewrite Hxa. cbn. rewrite Hxb. cbn. eauto.
Qed.

Lemma price_momentum_ok (df : frame) (price c7 c14 c30 : list cell) :
  ready df ->
  columns df !! "price" = Some price ->
  columns df !! "MA7" = Some c7 ->
  columns df !! "MA14" = Some c14 ->
  columns df !! "MA30" = Some c30 ->
  exists m, price_momentum df = Ok (with_rates df price, m).
Proof.
  intros Hr H H7 H14 H30. unfold price_momentum.
  repeat (erewrite df_get_some by column; cbn [mbind result_bind]).
  fold (with_rates df price).
  pose proof (ready_with_rates _ _ Hr H) as Hr'.
  destruct (latest_or_zero_ok (with_rates df price) "ROC_7" _ Hr' ltac:(column))
    as [r7 ->].
  destruct (latest_or_zero_ok (with_rates df price) "ROC_14" _ Hr' ltac:(column))
    as [r14 ->].
  destruct (latest_or_zero_ok (with_rates df price) "ROC_30" _ Hr' ltac:(column))
    as [r30 ->].
  destruct (latest_gt_ok (with_rates df price) "MA7" "MA14" _ _ Hr'
              ltac:(column) ltac:(column)) as [u1 ->].
  destruct (latest_gt_ok (with_rates df price) "MA14" "MA30" _ _ Hr'
              ltac:(column) ltac:(column)) as [u2 ->].
  cbn. eauto.
Qed.

Lemma predict_price_range_ok np_sqrt (df : frame) (price : list cell) (v : cell) :
  ready df -> columns df !! "price" = Some price ->
  exists p, predict_price_range np_sqrt df v = Ok p.
Proof.
  intros Hr H. unfold predict_price_range.
  rewrite (ready_not_empty _ _ _ Hr H), (df_get_some _ _ _ H).
  destruct (ready_iloc_last _ _ _ Hr H) as (x & _ & Hx).
  cbn. rewrite Hx. cbn. eauto.
Qed.

Lemma latest_ma_entry_ok (df : frame) (ma : string) (col : list cell) :
  ready df -> columns df !! ma = Some col ->
  exists x, last col = Some x /\ latest_ma_entry df ma = Ok (ma, PNum x).
Proof.
  intros Hr H. unfold latest_ma_entry.
  rewrite (ready_not_empty _ _ _ Hr H), (df_get_some _ _ _ H).
  rewrite bool_decide_eq_true_2 by (by rewrite H).
  destruct (ready_iloc_last _ _ _ Hr H) as (x & Hl & Hx).
  exists x. split; [done|]. cbn. by rewrite Hx.
Qed.

(** On a frame with rows and a price column [analyze] returns the full
    report, and the moving averages in it are the last rows of the rolling
    means. *)
Lemma analyze_full_report np_sqrt DataFrame format_2f
    (price_history : pydict) (df : frame) (price : list cell) :
  truthy (dict_get price_history "prices" (PList [])) = true ->
  DataFrame (dict_get price_history "prices" (PList [])) = Ok df ->
  ready df ->
  columns df !! "price" = Some price ->
  exists x7 x14 x30 x50 vol mom pred,
    last (rolling_mean 7 price) = Some x7 /\
    last (rolling_mean 14 price) = Some x14 /\
    last (rolling_mean 30 price) = Some x30 /\
    last (rolling_mean 50 price) = Some x50 /\
    analyze np_sqrt DataFrame format_2f price_history =
      [("coin_id", dict_get price_history "id" (PStr "unknown"));
       ("current_price", PNum (current_price pred));
       ("moving_averages",
        PDict [("MA7", PNum x7); ("MA14", PNum x14);
               ("MA30", PNum x30); ("MA50", PNum x50)]);
       ("volatility", volatility_dict vol);
       ("momentum", momentum_dict mom);
       ("price_prediction", prediction_dict pred);
       ("summary",
        PDict [("trend", PStr (trend_label mom));
               ("volatility_level", PStr (volatility_level vol));
               ("recent_performance",
                PStr (format_2f (roc_7d mom) +:+ "% (7d)"))])].
Proof.
  intros Htruthy Hframe Hr H.
  unfold analyze, analyze_body. rewrite Htruthy, Hframe.
  cbn [negb mbind result_bind].
  rewrite (calculate_moving_averages_ok _ _ H). cbn [mbind result_bind].
  pose proof (ready_with_moving_averages _ _ Hr H) as Hr1.
  set (df1 := with_moving_averages df price) in *.
  assert (columns df1 !! "price" = Some price) as H1 by (subst df1; column).
  destruct (calculate_volatility_ok np_sqrt df1 price H1) as [vol ->].
  cbn [mbind result_bind].
  pose proof (ready_with_returns _ _ Hr1 H1) as Hr2.
  set (df2 := with_returns df1 price) in *.
  assert (columns df2 !! "price" = Some price) as H2 by (subst df2 df1; column).
  destruct (price_momentum_ok df2 price (rolling_mean 7 price)
              (rolling_mean 14 price) (rolling_mean 30 price) Hr2 H2)
    as [mom ->]; [subst df2 df1; column..|].
  cbn [mbind result_bind].
  pose proof (ready_with_rates _ _ Hr2 H2) as Hr3.
  set (df3 := with_rates df2 price) in *.
  assert (columns df3 !! "price" = Some price) as H3
    by (subst df3 df2 df1; column).
  destruct (predict_price_range_ok np_sqrt df3 price
              (overall_volatility_percent vol) Hr3 H3) as [pred ->].
  cbn [mbind result_bind].
  destruct (latest_ma_entry_ok df3 "MA7" (rolling_mean 7 price) Hr3)
    as (x7 & Hx7 & ->); [subst df3 df2 df1; column|].
  destruct (latest_ma_entry_ok df3 "MA14" (rolling_mean 14 price) Hr3)
    as (x14 & Hx14 & ->); [subst df3 df2 df1; column|].
  destruct (latest_ma_entry_ok df3 "MA30" (rolling_mean 30 price) Hr3)
    as (x30 & Hx30 & ->); [subst df3 df2 df1; column|].
  destruct (latest_ma_entry_ok df3 "MA50" (rolling_mean 50 price) Hr3)
    as (x50 & Hx50 & ->); [subst df3 df2 df1; column|].
  cbn [mbind result_bind mret result_ret].
  exists x7, x14, x30, x50, vol, mom, pred. done.
Qed.

(** C5. On a frame whose prices are the numbers [qs],
    [calculate_moving_averages] adds the columns MA7, MA14, MA30 and MA50,
    and the column for the window [w], at index [i], is NaN (null) while
    fewer than [w] prices are there and the mean of the [w] prices that end
    at [i] from then on.  With at least 50 prices, the ["MA50"] that
    [analyze] reports is the mean of the last 50 prices. *)
Theorem moving_averages_are_trailing_means :
  forall (prices_df : frame) (qs : list Q),
    columns prices_df !! "price" = Some (Some <$> qs) ->
    (exists df' : frame,
       calculate_moving_averages prices_df = Ok df' /\
       forall (w : nat) (name : string),
         (w, name) ∈ [(7, "MA7"); (14, "MA14"); (30, "MA30"); (50, "MA50")]%nat ->
         exists col : list cell,
           columns df' !! name = Some col /\
           length col = length qs /\
           forall i : nat, (i < length qs)%nat ->
             col !! i =
               Some (if (S i <? w)%nat then None
                     else Some (Qmean (window_at w i qs)))) /\
    forall (np_sqrt : Q -> Q) (DataFrame : pyval -> result frame)
           (format_2f : cell -> string) (price_history : pydict),
      truthy (dict_get price_history "prices" (PList [])) = true ->
      DataFrame (dict_get price_history "prices" (PList [])) = Ok prices_df ->
      ready prices_df ->
      (50 <= length qs)%nat ->
      exists mas : pydict,
        dict_lookup (analyze np_sqrt DataFrame format_2f price_history)
          "moving_averages" = Some (PDict mas) /\
        dict_lookup mas "MA50" = Some (PNum (Some (Qmean (tail 50 qs)))).
Proof.
  intros df qs H. split.
  - exists (with_moving_averages df (Some <$> qs)).
    split; [by apply calculate_moving_averages_ok|].
    intros w name Hin.
    exists (rolling_mean w (Some <$> qs)).
    split; [|split].
    + set_unfold in Hin.
      destruct Hin as [[= -> ->] | [[= -> ->] | [[= -> ->] | [[= -> ->] | []]]]];
        column.
    + by rewrite length_rolling_mean, length_fmap.
    + intros i Hi. by apply rolling_mean_lookup.
  - intros np_sqrt DataFrame format_2f ph Htruthy Hframe Hr Hlen.
    destruct (analyze_full_report np_sqrt DataFrame format_2f ph df
                (Some <$> qs) Htruthy Hframe Hr H)
      as (x7 & x14 & x30 & x50 & vol & mom & pred & _ & _ & _ & H50 & ->).
    rewrite rolling_mean_last in H50 by lia.
    injection H50 as <-.
    eexists. split; reflexivity.
Qed.

Lemma ready_price_frame (qs : list Q) : qs <> [] -> ready (price_frame qs).
Proof.
  intros Hne. split; cbn.
  - destruct qs; [done|]. cbn. lia.
  - intros name col [_ <-]%lookup_singleton_Some. by rewrite length_fmap.
Qed.

Lemma moving_averages_are_trailing_means_witness :
  exists mas : pydict,
    dict_lookup
      (analyze sqrt_stub records_frame format_stub
         (history_of "bitcoin" rising_prices))
      "moving_averages" = Some (PDict mas) /\
    dict_lookup mas "MA50" = Some (PNum (Some (Qmean (tail 50 rising_prices)))).
Proof.
  apply (proj2 (moving_averages_are_trailing_means
                  (price_frame rising_prices) rising_prices eq_refl)).
  - reflexivity.
  - vm_compute. reflexivity.
  - apply ready_price_frame. discriminate.
  - unfold rising_prices. rewrite length_fmap, length_seq. lia.
Defined.

(** The mean of 2, ..., 51 is 26.5. *)
Example rising_prices_ma50 : Qmean (tail 50 rising_prices) == 26.5.
Proof. by vm_compute. Qed.

(** A run on three prices: the report is complete, the moving averages are
    NaN for want of rows, and so is the seven-row rate of change. *)
Example analyze_three_prices :
  let report :=
    analyze sqrt_stub records_frame format_stub
      (history_of "bitcoin" [100; 110; 121]) in
  report.*1 =
    ["coin_id"; "current_price"; "moving_averages"; "volatility";
     "momentum"; "price_prediction"; "summary"] /\
  dict_lookup report "current_price" = Some (PNum (Some 121)) /\
  dict_lookup report "moving_averages" =
    Some (PDict [("MA7", PNum None); ("MA14", PNum None);
                 ("MA30", PNum None); ("MA50", PNum None)]).
Proof. by vm_compute. Qed.

(** A run on a list of pairs [[timestamp, price]], which the constructor
    used here refuses: the exception becomes an error report. *)
Example analyze_refused_prices :
  analyze sqrt_stub records_frame format_stub
    [("id", PStr "bitcoin");
     ("prices", PList [PList [PNum (Some 1); PNum (Some 100)]])] =
    [("error", PStr "Failed to analyze price data: 'price'")].
Proof. by vm_compute. Qed.

(** *** The predicted range *)

Lemma Qeq_bool_false (x y : Q) : ~ x == y -> Qeq_bool x y = false.
Proof.
  intros H. destruct (Qeq_bool x y) eqn:E; [|done].
  by apply Qeq_bool_iff in E.
Qed.

(** The predicted range over the rationals.  For a frame that is not
    empty, with last price [p], and a volatility [v], the bounds are
    [p * (1 - r/100)] and [p * (1 + r/100)] for the one band
    [r = 1.96 * (v / sqrt 7) * sqrt 7]; without rounding [r] is [1.96 * v]
    and the two bounds are equally far from [p].  What binary64 makes of
    it is in [Price64Facts]. *)
Lemma predict_price_range_exact (np_sqrt : Q -> Q) (prices_df : frame)
    (price : list cell) (p v : Q) :
  df_empty prices_df = false ->
  columns prices_df !! "price" = Some price ->
  last price = Some (Some p) ->
  ~ np_sqrt 7 == 0 ->
  let daily_vol := v / np_sqrt 7 in
  let r := 1.96 * daily_vol * np_sqrt 7 in
  let lower := p * (1 - r / 100) in
  let upper := p * (1 + r / 100) in
  predict_price_range np_sqrt prices_df (Some v) =
    Ok {| current_price := Some p;
          lower_bound := Some lower;
          upper_bound := Some upper |} /\
  p - lower == upper - p /\
  r == 1.96 * v.
Proof.
  intros Hne Hcol Hlast Hsqrt. cbv zeta.
  split; [|split].
  - unfold predict_price_range, df_get, iloc_last.
    rewrite Hne, Hcol. cbn. rewrite Hlast. cbn.
    by rewrite (Qeq_bool_false _ _ Hsqrt).
  - field; exact Hsqrt.
  - field; exact Hsqrt.
Qed.

(** *** The report on a frame with rows *)

Lemma ready_last_cell (df : frame) (name : string) (col : list cell) :
  ready df -> columns df !! name = Some col -> iloc_last col = Ok (last_cell col).
Proof.
  intros Hr H. destruct (ready_iloc_last _ _ _ Hr H) as (x & Hl & Hx).
  unfold last_cell. by rewrite Hl.
Qed.

Lemma calculate_volatility_value np_sqrt (df : frame) (price : list cell) :
  columns df !! "price" = Some price ->
  calculate_volatility np_sqrt df =
    Ok (with_returns df price, volatility_of np_sqrt price).
Proof.
  intros H. unfold calculate_volatility.
  repeat (erewrite df_get_some by column; cbn [mbind result_bind]).
  reflexivity.
Qed.

Lemma latest_or_zero_value (df : frame) (name : string) (col : list cell) :
  ready df -> columns df !! name = Some col ->
  latest_or_zero df name = Ok (last_cell col).
Proof.
  intros Hr H. unfold latest_or_zero.
  rewrite (ready_not_empty _ _ _ Hr H), (df_get_some _ _ _ H).
  by apply (ready_last_cell df name).
Qed.

Lemma latest_gt_value (df : frame) (a b : string) (ca cb : list cell) :
  ready df -> columns df !! a = Some ca -> columns df !! b = Some cb ->
  latest_gt df a b = Ok (cgt (last_cell ca) (last_cell cb)).
Proof.
  intros Hr Ha Hb. unfold latest_gt.
  rewrite (ready_not_empty _ _ _ Hr Ha).
  rewrite (df_get_some _ _ _ Ha), (df_get_some _ _ _ Hb).
  cbn. rewrite (ready_last_cell _ _ _ Hr Ha). cbn.
  by rewrite (ready_last_cell _ _ _ Hr Hb).
Qed.

Lemma price_momentum_value (df : frame) (price : list cell) :
  ready df ->
  columns df !! "price" = Some price ->
  columns df !! "MA7" = Some (rolling_mean 7 price) ->
  columns df !! "MA14" = Some (rolling_mean 14 price) ->
  columns df !! "MA30" = Some (rolling_mean 30 price) ->
  price_momentum df = Ok (with_rates df price, momentum_of price).
Proof.
  intros Hr H H7 H14 H30. unfold price_momentum.
  repeat (erewrite df_get_some by column; cbn [mbind result_bind]).
  fold (with_rates df price).
  pose proof (ready_with_rates _ _ Hr H) as Hr'.
  rewrite (latest_or_zero_value (with_rates df price) "ROC_7" _ Hr' ltac:(column)).
  rewrite (latest_or_zero_value (with_rates df price) "ROC_14" _ Hr' ltac:(column)).
  rewrite (latest_or_zero_value (with_rates df price) "ROC_30" _ Hr' ltac:(column)).
  rewrite (latest_gt_value (with_rates df price) "MA7" "MA14" _ _ Hr'
             ltac:(column) ltac:(column)).
  rewrite (latest_gt_value (with_rates df price) "MA14" "MA30" _ _ Hr'
             ltac:(column) ltac:(column)).
  reflexivity.
Qed.

Lemma predict_price_range_value np_sqrt (df : frame) (price : list cell)
    (v : cell) :
  ready df -> columns df !! "price" = Some price ->
  predict_price_range np_sqrt df v = Ok (prediction_of np_sqrt price v).
Proof.
  intros Hr H. unfold predict_price_range.
  rewrite (ready_not_empty _ _ _ Hr H), (df_get_some _ _ _ H).
  cbn. by rewrite (ready_last_cell _ _ _ Hr H).
Qed.

Lemma latest_ma_entry_value (df : frame) (ma : string) (col : list cell) :
  ready df -> columns df !! ma = Some col ->
  latest_ma_entry df ma = Ok (ma, PNum (last_cell col)).
Proof.
  intros Hr H. unfold latest_ma_entry.
  rewrite (ready_not_empty _ _ _ Hr H), (df_get_some _ _ _ H).
  rewrite bool_decide_eq_true_2 by (by rewrite H).
  cbn. by rewrite (ready_last_cell _ _ _ Hr H).
Qed.

(** On a frame with rows and a price column, [analyze] returns the report
    written out in [report_of]. *)
Lemma analyze_report np_sqrt DataFrame format_2f
    (price_history : pydict) (df : frame) (price : list cell) :
  truthy (dict_get price_history "prices" (PList [])) = true ->
  DataFrame (dict_get price_history "prices" (PList [])) = Ok df ->
  ready df ->
  columns df !! "price" = Some price ->
  analyze np_sqrt DataFrame format_2f price_history =
    report_of np_sqrt format_2f (dict_get price_history "id" (PStr "unknown")) price.
Proof.
  intros Htruthy Hframe Hr H.
  unfold analyze, analyze_body. rewrite Htruthy, Hframe.
  cbn [negb mbind result_bind].
  rewrite (calculate_moving_averages_ok _ _ H). cbn [mbind result_bind].
  pose proof (ready_with_moving_averages _ _ Hr H) as Hr1.
  set (df1 := with_moving_averages df price) in *.
  assert (columns df1 !! "price" = Some price) as H1 by (subst df1; column).
  rewrite (calculate_volatility_value np_sqrt df1 price H1).
  cbn [mbind result_bind].
  pose proof (ready_with_returns _ _ Hr1 H1) as Hr2.
  set (df2 := with_returns df1 price) in *.
  assert (columns df2 !! "price" = Some price) as H2 by (subst df2 df1; column).
  rewrite (price_momentum_value df2 price Hr2 H2) by (subst df2 df1; column).
  cbn [mbind result_bind].
  pose proof (ready_with_rates _ _ Hr2 H2) as Hr3.
  set (df3 := with_rates df2 price) in *.
  assert (columns df3 !! "price" = Some price) as H3
    by (subst df3 df2 df1; column).
  rewrite (predict_price_range_value np_sqrt df3 price _ Hr3 H3).
  cbn [mbind result_bind].
  rewrite (latest_ma_entry_value df3 "MA7" (rolling_mean 7 price) Hr3)
    by (subst df3 df2 df1; column).
  rewrite (latest_ma_entry_value df3 "MA14" (rolling_mean 14 price) Hr3)
    by (subst df3 df2 df1; column).
  rewrite (latest_ma_entry_value df3 "MA30" (rolling_mean 30 price) Hr3)
    by (subst df3 df2 df1; column).
  rewrite (latest_ma_entry_value df3 "MA50" (rolling_mean 50 price) Hr3)
    by (subst df3 df2 df1; column).
  reflexivity.
Qed.

(** *** Short histories *)

Lemma rolling_mean_short (w : nat) (xs : list cell) :
  (length xs < w)%nat -> last_cell (rolling_mean w xs) = None.
Proof.
  intros Hw. unfold last_cell. rewrite last_lookup, length_rolling_mean.
  destruct xs as [|x xs]; [done|].
  unfold rolling_mean. rewrite list_lookup_fmap.
  rewrite lookup_seq_lt by (cbn; lia).
  cbn [fmap option_fmap option_map default Nat.add].
  unfold window_mean. rewrite length_take.
  destruct (_ <? w)%nat eqn:E; [done|]. apply Nat.ltb_ge in E. lia.
Qed.

Lemma cgt_nan_r (a : cell) : cgt a None = false.
Proof. by destruct a. Qed.

(** X1. On a frame with rows, a history of fewer than 30 prices is never
    given the trend "Strong Uptrend" or "Moderate Downtrend", whatever the
    prices: the 30-row average is NaN and any comparison with it is false.
    With fewer than 14 prices the trend is always "Strong Downtrend". *)
Theorem short_history_trend :
  forall (np_sqrt : Q -> Q) (DataFrame : pyval -> result frame)
         (format_2f : cell -> string) (price_history : pydict)
         (df : frame) (price : list cell),
    truthy (dict_get price_history "prices" (PList [])) = true ->
    DataFrame (dict_get price_history "prices" (PList [])) = Ok df ->
    ready df ->
    columns df !! "price" = Some price ->
    (length price < 30)%nat ->
    let trend :=
      dict_lookup2 (analyze np_sqrt DataFrame format_2f price_history)
        "summary" "trend" in
    (trend = Some (PStr "Moderate Uptrend") \/
     trend = Some (PStr "Strong Downtrend")) /\
    ((length price < 14)%nat -> trend = Some (PStr "Strong Downtrend")).
Proof.
  intros np_sqrt DataFrame format_2f ph df price Ht Hf Hr H Hlen. cbv zeta.
  rewrite (analyze_report _ _ _ _ _ _ Ht Hf Hr H).
  unfold report_of, dict_lookup2. cbn [dict_lookup String.eqb Ascii.eqb Bool.eqb].
  unfold trend_label, momentum_of. cbn [is_uptrend_7_14 is_uptrend_14_30].
  rewrite (rolling_mean_short 30) by done. rewrite cgt_nan_r.
  split.
  - destruct (cgt _ _); cbn; auto.
  - intros H14. rewrite (rolling_mean_short 14) by done. by rewrite cgt_nan_r.
Qed.

Lemma short_history_trend_witness :
  let trend :=
    dict_lookup2
      (analyze sqrt_stub records_frame format_stub
         (history_of "bitcoin" three_prices))
      "summary" "trend" in
  (trend = Some (PStr "Moderate Uptrend") \/
   trend = Some (PStr "Strong Downtrend")) /\
  ((length (Some <$> three_prices) < 14)%nat ->
   trend = Some (PStr "Strong Downtrend")).
Proof.
  apply (short_history_trend sqrt_stub records_frame format_stub
           (history_of "bitcoin" three_prices)
           (price_frame three_prices) (Some <$> three_prices)).
  - reflexivity.
  - reflexivity.
  - apply ready_price_frame. discriminate.
  - reflexivity.
  - cbn. lia.
Defined.

(** X2. On a frame with rows, a history of one or two prices has no
    volatility: [overall_volatility_percent] is NaN, so the level is "Low"
    and both bounds of the predicted range are NaN. *)
Theorem few_prices_no_volatility :
  forall (np_sqrt : Q -> Q) (DataFrame : pyval -> result frame)
         (format_2f : cell -> string) (price_history : pydict)
         (df : frame) (price : list cell),
    truthy (dict_get price_history "prices" (PList [])) = true ->
    DataFrame (dict_get price_history "prices" (PList [])) = Ok df ->
    ready df ->
    columns df !! "price" = Some price ->
    (length price < 3)%nat ->
    let report := analyze np_sqrt DataFrame format_2f price_history in
    dict_lookup2 report "volatility" "overall_volatility_percent" =
      Some (PNum None) /\
    dict_lookup2 report "summary" "volatility_level" = Some (PStr "Low") /\
    dict_lookup2 report "price_prediction" "lower_bound" = Some (PNum None) /\
    dict_lookup2 report "price_prediction" "upper_bound" = Some (PNum None).
Proof.
  intros np_sqrt DataFrame format_2f ph df price Ht Hf Hr H Hlen. cbv zeta.
  rewrite (analyze_report _ _ _ _ _ _ Ht Hf Hr H).
  assert (series_std np_sqrt (scale 100 (pct_change 1 price)) = None) as Hstd.
  { destruct price as [|a [|b [|c price]]]; [done| | |cbn in Hlen; lia].
    - by destruct a.
    - unfold series_std, scale, pct_change. cbn.
      destruct a as [a|], b as [b|]; cbn; try done.
      by destruct (Qeq_bool a 0). }
  unfold report_of, dict_lookup2, volatility_level, prediction_of, volatility_of.
  cbn [dict_lookup String.eqb Ascii.eqb Bool.eqb volatility_dict prediction_dict
       overall_volatility_percent lower_bound upper_bound].
  rewrite Hstd. cbn. by destruct (last_cell price).
Qed.

Lemma few_prices_no_volatility_witness :
  let report :=
    analyze sqrt_stub records_frame format_stub
      (history_of "bitcoin" two_prices) in
  dict_lookup2 report "volatility" "overall_volatility_percent" =
    Some (PNum None) /\
  dict_lookup2 report "summary" "volatility_level" = Some (PStr "Low") /\
  dict_lookup2 report "price_prediction" "lower_bound" = Some (PNum None) /\
  dict_lookup2 report "price_prediction" "upper_bound" = Some (PNum None).
Proof.
  apply (few_prices_no_volatility sqrt_stub records_frame format_stub
           (history_of "bitcoin" two_prices)
           (price_frame two_prices) (Some <$> two_prices)).
  - reflexivity.
  - reflexivity.
  - apply ready_price_frame. discriminate.
  - reflexivity.
  - cbn. lia.
Defined.

(** *** Rates of change *)

Lemma last_cell_lookup (xs : list cell) :
  last_cell xs = default None (xs !! pred (length xs)).
Proof. unfold last_cell. by rewrite last_lookup. Qed.

Lemma pct_change_lookup (k i : nat) (xs : list cell) :
  (i < length xs)%nat ->
  scale 100 (pct_change k xs) !! i =
    Some (cmul (if (i <? k)%nat then None
                else csub (cdiv (xs !! i ≫= id) (xs !! (i - k)%nat ≫= id)) (Some 1))
               (Some 100)).
Proof.
  intros Hi. unfold scale, pct_change.
  rewrite !list_lookup_fmap. by rewrite lookup_seq_lt by done.
Qed.

Lemma rate_of_change_short (k : nat) (xs : list cell) :
  (length xs <= k)%nat -> last_cell (scale 100 (pct_change k xs)) = None.
Proof.
  intros Hk. rewrite last_cell_lookup, length_scale, length_pct_change.
  destruct xs as [|x xs]; [done|].
  rewrite pct_change_lookup by (cbn; lia).
  destruct (_ <? k)%nat eqn:E; [done|].
  apply Nat.ltb_ge in E. cbn in Hk, E. lia.
Qed.

Lemma rate_of_change_last (k : nat) (qs : list Q) (a b : Q) :
  (k < length qs)%nat ->
  qs !! (length qs - 1)%nat = Some a ->
  qs !! (length qs - 1 - k)%nat = Some b ->
  ~ b == 0 ->
  last_cell (scale 100 (pct_change k (Some <$> qs))) =
    Some ((a / b - 1) * 100).
Proof.
  intros Hk Ha Hb Hnz.
  rewrite last_cell_lookup, length_scale, length_pct_change, length_fmap.
  rewrite pct_change_lookup by (rewrite length_fmap; lia).
  replace (pred (length qs)) with (length qs - 1)%nat by lia.
  destruct (_ <? k)%nat eqn:E; [apply Nat.ltb_lt in E; lia|].
  rewrite !list_lookup_fmap, Ha, Hb. cbn.
  by rewrite (Qeq_bool_false _ _ Hnz).
Qed.

(** X3. On a frame with rows whose prices are the numbers [qs], the rate of
    change that [analyze] reports for the lookback [k] (7, 14 or 30) is NaN
    when there are at most [k] prices, and otherwise
    [(last / base - 1) * 100], where [base] is the price [k] rows before
    the last one (taken non-zero). *)
Theorem rate_of_change_reported :
  forall (np_sqrt : Q -> Q) (DataFrame : pyval -> result frame)
         (format_2f : cell -> string) (price_history : pydict)
         (df : frame) (qs : list Q) (k : nat) (key : string),
    truthy (dict_get price_history "prices" (PList [])) = true ->
    DataFrame (dict_get price_history "prices" (PList [])) = Ok df ->
    ready df ->
    columns df !! "price" = Some (Some <$> qs) ->
    (k, key) ∈ [(7, "roc_7d"); (14, "roc_14d"); (30, "roc_30d")]%nat ->
    let roc :=
      dict_lookup2 (analyze np_sqrt DataFrame format_2f price_history)
        "momentum" key in
    ((length qs <= k)%nat -> roc = Some (PNum None)) /\
    (forall last base : Q,
       (k < length qs)%nat ->
       qs !! (length qs - 1)%nat = Some last ->
       qs !! (length qs - 1 - k)%nat = Some base ->
       ~ base == 0 ->
       roc = Some (PNum (Some ((last / base - 1) * 100)))).
Proof.
  intros np_sqrt DataFrame format_2f ph df qs k key Ht Hf Hr H Hin. cbv zeta.
  rewrite (analyze_report _ _ _ _ _ _ Ht Hf Hr H).
  set_unfold in Hin.
  destruct Hin as [[= -> ->] | [[= -> ->] | [[= -> ->] | []]]];
    (split;
     [ intros Hshort;
       unfold report_of, dict_lookup2, momentum_of;
       cbn [dict_lookup String.eqb Ascii.eqb Bool.eqb momentum_dict
            roc_7d roc_14d roc_30d];
       rewrite rate_of_change_short by (by rewrite length_fmap); reflexivity
     | intros a b Hk Ha Hb Hnz;
       unfold report_of, dict_lookup2, momentum_of;
       cbn [dict_lookup String.eqb Ascii.eqb Bool.eqb momentum_dict
            roc_7d roc_14d roc_30d];
       by rewrite (rate_of_change_last _ qs a b Hk Ha Hb Hnz) ]).
Qed.

(** Nine prices that double at the end: 1, ..., 1, 2. *)
Lemma rate_of_change_reported_witness :
  let roc :=
    dict_lookup2
      (analyze sqrt_stub records_frame format_stub
         (history_of "bitcoin" doubling_prices))
      "momentum" "roc_7d" in
  ((length doubling_prices <= 7)%nat -> roc = Some (PNum None)) /\
  (forall last base : Q,
     (7 < length doubling_prices)%nat ->
     doubling_prices !! (length doubling_prices - 1)%nat = Some last ->
     doubling_prices !! (length doubling_prices - 1 - 7)%nat = Some base ->
     ~ base == 0 ->
     roc = Some (PNum (Some ((last / base - 1) * 100)))).
Proof.
  apply (rate_of_change_reported sqrt_stub records_frame format_stub
           (history_of "bitcoin" doubling_prices)
           (price_frame doubling_prices) doubling_prices 7%nat "roc_7d").
  - reflexivity.
  - reflexivity.
  - apply ready_price_frame. discriminate.
  - reflexivity.
  - apply (bool_decide_unpack _). vm_compute. exact I.
Defined.

Example doubling_prices_rate :
  dict_lookup2
    (analyze sqrt_stub records_frame format_stub
       (history_of "bitcoin" doubling_prices))
    "momentum" "roc_7d" = Some (PNum (Some ((2 / 1 - 1) * 100))).
Proof. reflexivity. Qed.

End PriceFacts.

(** ** Facts: utils/analysis.py: the predicted range in binary64 *)

Module Price64Facts.
Import Num Price Price64.
Local Open Scope float_scope.

#[local] Set Warnings "-inexact-float".

(** *** NaN in binary64 arithmetic *)

Lemma SFcompare_refl (x : spec_float) :
  x <> S754_nan -> SFcompare x x = Some Eq.
Proof.
  intros H. destruct x as [s|s| |s m e]; [done| |done|]; cbn.
  - by destruct s.
  - rewrite Z.compare_refl, Pos.compare_cont_refl. by destruct s.
Qed.

Lemma is_nan_eq (x : float) : is_nan x = true <-> x = nan.
Proof.
  split; [|by intros ->].
  intros H. apply FloatAxioms.Prim2SF_inj. change (Prim2SF nan) with S754_nan.
  unfold is_nan in H. rewrite FloatAxioms.eqb_spec in H. unfold SFeqb in H.
  destruct (Prim2SF x) as [s|s| |s m e] eqn:E; [| |done|];
    by rewrite SFcompare_refl in H.
Qed.

Lemma nan_mul_r (x : float) : x * nan = nan.
Proof.
  apply FloatAxioms.Prim2SF_inj. rewrite FloatAxioms.mul_spec.
  change (Prim2SF nan) with S754_nan. by destruct (Prim2SF x).
Qed.

Lemma nan_add_r (x : float) : x + nan = nan.
Proof.
  apply FloatAxioms.Prim2SF_inj. rewrite FloatAxioms.add_spec.
  change (Prim2SF nan) with S754_nan. by destruct (Prim2SF x).
Qed.

Lemma nan_sub_r (x : float) : x - nan = nan.
Proof.
  apply FloatAxioms.Prim2SF_inj. rewrite FloatAxioms.sub_spec.
  change (Prim2SF nan) with S754_nan. by destruct (Prim2SF x).
Qed.

(** *** The band around the current price *)

(** C6, refuted as to the equal distances.  For the prices
    [98.0, 99.0, 100.0] and the volatility [1.0] the method returns the
    bounds [98.04000000000001] and [101.96000000000001]: the current price
    less the lower bound is [1.9599999999999937], the upper bound less the
    current price is [1.960000000000008], and [==] on the two is false.
    Nor is the band [1.96 * v]: for [v = 60.0] it is
    [117.60000000000001], where [1.96 * 60.0] is [117.6]. *)
Lemma predicted_distances_differ :
  predict_price_range (price_frame [98; 99; 100]) 1 =
    Ok {| current_price := 100;
          lower_bound := 98.04000000000001;
          upper_bound := 101.96000000000001 |} /\
  100 - 98.04000000000001 = 1.9599999999999937 /\
  101.96000000000001 - 100 = 1.960000000000008 /\
  (100 - 98.04000000000001 =? 101.96000000000001 - 100) = false /\
  1.96 * (60 / sqrt 7) * sqrt 7 = 117.60000000000001 /\
  (1.96 * (60 / sqrt 7) * sqrt 7 =? 1.96 * 60) = false.
Proof. vm_compute. repeat split; reflexivity. Qed.

(** C6, as the code has it.  For a frame that is not empty, with last price
    [p], and a volatility [v], [predict_price_range] takes the daily
    deviation [v / sqrt 7], the band [r = 1.96 * (v / sqrt 7) * sqrt 7],
    and returns the current price [p] with the bounds [p * (1 - r/100)]
    and [p * (1 + r/100)], the one [r] on both sides and every operation
    the binary64 one.  For a volatility that is NaN, as [std] gives it for
    one or two prices, both bounds are NaN. *)
Theorem predict_price_range_band :
  forall (prices_df : frame) (price : list float) (p v : float),
    df_empty prices_df = false ->
    columns prices_df !! "price" = Some price ->
    last price = Some p ->
    let daily_vol := v / sqrt 7 in
    let r := 1.96 * daily_vol * sqrt 7 in
    let lower := p * (1 - r / 100) in
    let upper := p * (1 + r / 100) in
    predict_price_range prices_df v =
      Ok {| current_price := p; lower_bound := lower; upper_bound := upper |} /\
    (is_nan v = true -> is_nan lower = true /\ is_nan upper = true).
Proof.
  intros df price p v Hne Hcol Hlast. cbv zeta. split.
  - unfold predict_price_range, df_get, iloc_last.
    rewrite Hne, Hcol. cbn. by rewrite Hlast.
  - intros Hv. apply is_nan_eq in Hv as ->.
    match goal with |- context [?r / 100] => change (r / 100) with nan end.
    by rewrite nan_sub_r, nan_add_r, nan_mul_r.
Qed.

Lemma predict_price_range_band_witness :
  let r := 1.96 * (3 / sqrt 7) * sqrt 7 in
  predict_price_range (price_frame [100; 110]) 3 =
    Ok {| current_price := 110;
          lower_bound := 110 * (1 - r / 100);
          upper_bound := 110 * (1 + r / 100) |} /\
  (is_nan 3 = true ->
   is_nan (110 * (1 - r / 100)) = true /\ is_nan (110 * (1 + r / 100)) = true).
Proof.
  apply (predict_price_range_band (price_frame [100; 110]) [100; 110] 110 3).
  - reflexivity.
  - reflexivity.
  - reflexivity.
Defined.

(** X4. The predicted range is not cut off at zero.  For the prices
    [100.0, 110.0] and the volatility [60.0] the lower bound is
    [-19.360000000000017], below zero, and the upper bound
    [239.36]; for the price [110.0] and the volatility
    [51.020408163265316] the band is [100.0] and the bounds are [0.0] and
    [220.0]. *)
Theorem predicted_range_below_zero :
  predict_price_range (price_frame [100; 110]) 60 =
    Ok {| current_price := 110;
          lower_bound := -19.360000000000017;
          upper_bound := 239.36 |} /\
  (-19.360000000000017 <? 0) = true /\
  1.96 * (51.020408163265316 / sqrt 7) * sqrt 7 = 100 /\
  predict_price_range (price_frame [110]) 51.020408163265316 =
    Ok {| current_price := 110; lower_bound := 0; upper_bound := 220 |}.
Proof. vm_compute. repeat split; reflexivity. Qed.

(** One price: the volatility is NaN, and so are the bounds. *)
Example one_price_band :
  predict_price_range (price_frame [100]) nan =
    Ok {| current_price := 100; lower_bound := nan; upper_bound := nan |}.
Proof. reflexivity. Qed.

End Price64Facts.

(** ** Facts: app.py: the correlation matrix *)

Module CorrelationFacts.
Import Correlation.

(** *** Reading the matrix after a write *)

Lemma get2_empty (a b : string) : get2 ∅ a b = None.
Proof. unfold get2. by rewrite lookup_empty. Qed.

Lemma get2_set_entry (m : matrix) (a b : string) (v : float) (a' b' : string) :
  get2 (set_entry m a b v) a' b' =
    if decide (a' = a /\ b' = b) then Some v else get2 m a' b'.
Proof.
  unfold get2, set_entry.
  destruct (decide (a' = a)) as [->|Ha].
  - rewrite lookup_insert_eq. cbn.
    destruct (decide (b' = b)) as [->|Hb].
    + rewrite lookup_insert_eq. by rewrite decide_True.
    + rewrite lookup_insert_ne by done. rewrite decide_False by naive_solver.
      destruct (m !! a); [done|]. cbn. by rewrite lookup_empty.
  - rewrite lookup_insert_ne by done. by rewrite decide_False by naive_solver.
Qed.

Lemma get2_new_row (m : matrix) (c a b : string) :
  get2 (<[c := ∅]> m) a b = if decide (a = c) then None else get2 m a b.
Proof.
  unfold get2. case_decide as Ha.
  - subst. rewrite lookup_insert_eq. cbn. by rewrite lookup_empty.
  - by rewrite lookup_insert_ne.
Qed.

(** *** The live-data loop, entry by entry *)

Lemma real_inner_loop (f : string -> float) (c : string) (l : list string)
    (m : matrix) (a b : string) :
  get2 (foldl (fun (m : matrix) c2 => set_entry m c c2 (f c2)) m l) a b =
    if decide (a = c /\ b ∈ l) then Some (f b) else get2 m a b.
Proof.
  revert m. induction l as [|x l IH]; intros m; cbn [foldl].
  - rewrite decide_False; [done|]. set_solver.
  - rewrite IH, get2_set_entry.
    repeat case_decide; try done; set_solver.
Qed.

Lemma real_outer_loop (e : string -> string -> float) (l k : list string)
    (m : matrix) (a b : string) :
  get2 (foldl (fun (m : matrix) c1 =>
                 foldl (fun (m : matrix) c2 => set_entry m c1 c2 (e c1 c2))
                   (<[c1 := ∅]> m) l) m k) a b =
    if decide (a ∈ k) then (if decide (b ∈ l) then Some (e a b) else None)
    else get2 m a b.
Proof.
  revert m. induction k as [|x k IH]; intros m; cbn [foldl].
  - rewrite decide_False; [done|]. set_solver.
  - rewrite IH, (real_inner_loop (e x)), get2_new_row.
    repeat case_decide; try done; set_solver.
Qed.

(** Every entry of the live matrix is computed on its own from the two
    series of its pair. *)
Lemma real_correlation_matrix_entry (price_data : list (string * list price))
    (a b : string) :
  a ∈ price_data.*1 -> b ∈ price_data.*1 ->
  get2 (real_correlation_matrix price_data) a b =
    Some (correlation_entry a b (series_of price_data a) (series_of price_data b)).
Proof.
  intros Ha Hb. unfold real_correlation_matrix.
  rewrite (real_outer_loop
             (fun c1 c2 => correlation_entry c1 c2 (series_of price_data c1)
                             (series_of price_data c2))).
  rewrite get2_empty. by rewrite !decide_True.
Qed.

(** *** The demo-data loop, entry by entry *)

Lemma demo_inner_loop py_hash (c : string) (l : list string) (m : matrix)
    (a b : string) :
  get2 (foldl (demo_step py_hash c) m l) a b =
    if decide (a = c /\ b = c /\ c ∈ l) then Some 1%float
    else if decide (a = c /\ b <> c /\ b ∈ l)
    then Some (demo_correlation py_hash c b)
    else if decide (b = c /\ a <> c /\ a ∈ l)
    then Some (demo_correlation py_hash c a)
    else get2 m a b.
Proof.
  revert m. induction l as [|x l IH]; intros m; cbn [foldl].
  - rewrite !decide_False; [done|set_solver..].
  - rewrite IH. unfold demo_step.
    destruct (String.eqb_spec c x) as [<-|Hx].
    + rewrite get2_set_entry.
      repeat case_decide; try done; set_solver.
    + rewrite !get2_set_entry.
      repeat case_decide; try done; try set_solver.
      all: destruct_and?; subst; try done; set_solver.
Qed.

(** After the outer loop has run over a prefix [k] of the keys [l]: the
    diagonal of the rows done is 1.0, and for two rows done both entries of
    the pair hold the value made up when the later of the two coins was
    [coin1]. *)
Lemma demo_outer_loop py_hash (l k : list string) :
  NoDup k -> k ⊆ l ->
  let m := foldl (fun (m : matrix) c1 =>
                    foldl (demo_step py_hash c1) (<[c1 := ∅]> m) l) ∅ k in
  (forall a, a ∈ k -> get2 m a a = Some 1%float) /\
  (forall (a b : string) (i j : nat),
     k !! i = Some a -> k !! j = Some b -> (i < j)%nat ->
     get2 m a b = Some (demo_correlation py_hash b a) /\
     get2 m b a = Some (demo_correlation py_hash b a)).
Proof.
  induction k as [|c k IH] using rev_ind; intros Hnd Hsub; cbv zeta.
  - split; [set_solver|]. intros a b i j Hi. by rewrite lookup_nil in Hi.
  - apply NoDup_app in Hnd as (Hk & Hc & _).
    assert (c ∉ k) as Hck by (intros Hin; apply (Hc c Hin); set_solver).
    assert (c ∈ l) as Hcl by set_solver.
    destruct (IH Hk ltac:(set_solver)) as [IH1 IH2]. clear IH.
    rewrite foldl_app. cbn [foldl].
    set (m0 := foldl _ ∅ k) in *.
    split.
    + intros a Ha. rewrite demo_inner_loop, get2_new_row.
      apply elem_of_app in Ha as [Ha | Ha%list_elem_of_singleton].
      * assert (a <> c) by (by intros ->).
        rewrite !decide_False by naive_solver. by apply IH1.
      * subst a. by rewrite decide_True.
    + intros a b i j Hi Hj Hij.
      rewrite !demo_inner_loop, !get2_new_row.
      destruct (decide (j < length k)%nat) as [Hjk | Hjk].
      * rewrite lookup_app_l in Hi by lia. rewrite lookup_app_l in Hj by done.
        assert (a ∈ k) as Ha by (by eapply list_elem_of_lookup_2).
        assert (b ∈ k) as Hb by (by eapply list_elem_of_lookup_2).
        assert (a <> c) by (by intros ->). assert (b <> c) by (by intros ->).
        rewrite !decide_False by naive_solver. by eapply IH2.
      * assert (j = length k) as ->.
        { apply lookup_lt_Some in Hj. rewrite length_app in Hj. cbn in Hj. lia. }
        rewrite lookup_app_l in Hi by done.
        rewrite list_lookup_middle in Hj by done. injection Hj as <-.
        assert (a ∈ k) as Ha by (by eapply list_elem_of_lookup_2).
        assert (a <> c) by (by intros ->). assert (a ∈ l) by set_solver.
        rewrite (decide_False (P := a = c /\ _)) by naive_solver.
        rewrite (decide_False (P := a = c /\ _)) by naive_solver.
        rewrite (decide_True (P := c = c /\ a <> c /\ _)) by done.
        rewrite (decide_False (P := c = c /\ a = c /\ _)) by naive_solver.
        rewrite (decide_True (P := c = c /\ a <> c /\ _)) by done.
        done.
Qed.

Lemma demo_values_are_correlations :
  forallb (fun k => forallb is_correlation (demo_values k)) (seq 0 1000) = true.
Proof. vm_compute. reflexivity. Qed.

Lemma demo_correlation_is_correlation py_hash (coin1 coin2 : string) :
  is_correlation (demo_correlation py_hash coin1 coin2) = true.
Proof.
  set (z := (py_hash (coin1 +:+ "-" +:+ coin2) `mod` 1000)%Z).
  assert (0 <= z < 1000)%Z as Hz by (apply Z.mod_pos_bound; lia).
  pose proof demo_values_are_correlations as Hall.
  rewrite forallb_forall in Hall.
  specialize (Hall (Z.to_nat z)).
  rewrite forallb_forall in Hall.
  assert (In (Z.to_nat z) (seq 0 1000)) as Hin by (apply in_seq; lia).
  specialize (Hall Hin).
  unfold demo_values, float_of_nat in Hall. rewrite Z2Nat.id in Hall by lia.
  unfold demo_correlation. fold z.
  repeat case_match; apply Hall; cbn; auto.
Qed.

(** *** The matrix of the two paths *)

(** C2, refuted on the live path.  For the coins ["tether"], with prices
    [1.0, 1.0], and ["bitcoin"], with prices [1.0, 2.0], the diagonal entry
    of ["tether"] is NaN, not 1.0, and the two entries of the pair are NaN,
    so that [M[a][b] == M[b][a]] is false. *)
Lemma real_matrix_diagonal_nan :
  let m := real_correlation_matrix flat_and_rising in
  get2 m "tether" "tether" = Some nan /\
  (nan =? 1)%float = false /\
  get2 m "tether" "bitcoin" = Some nan /\
  get2 m "bitcoin" "tether" = Some nan /\
  (nan =? nan)%float = false.
Proof. vm_compute. repeat split; reflexivity. Qed.

(** C2, as the code has it.  On the demo path, for keys without
    repetition, the diagonal is forced to 1.0 and the matrix is symmetric:
    the two entries of a pair hold one value, a number, written to both
    places.  Every ordered pair of distinct coins is computed, so each
    unordered pair twice, and the value that stays is the one made up when
    the coin that comes later in the keys was [coin1].  On the live path
    every entry, the diagonal too, is computed on its own from the two
    series of its ordered pair. *)
Theorem correlation_matrix_by_path :
  (forall (py_hash : string -> Z) (keys : list string) (a b : string),
     NoDup keys -> a ∈ keys -> b ∈ keys ->
     let m := demo_correlation_matrix py_hash keys in
     get2 m a a = Some 1%float /\
     exists v : float,
       get2 m a b = Some v /\ get2 m b a = Some v /\
       (v =? v)%float = true /\
       (forall i j : nat,
          keys !! i = Some a -> keys !! j = Some b -> (i < j)%nat ->
          v = demo_correlation py_hash b a)) /\
  (forall (price_data : list (string * list price)) (a b : string),
     a ∈ price_data.*1 -> b ∈ price_data.*1 ->
     get2 (real_correlation_matrix price_data) a b =
       Some (correlation_entry a b
               (series_of price_data a) (series_of price_data b))).
Proof.
  split.
  - intros py_hash keys a b Hnd Ha Hb. cbv zeta.
    destruct (demo_outer_loop py_hash keys keys Hnd ltac:(done)) as [H1 H2].
    fold (demo_correlation_matrix py_hash keys) in H1, H2.
    split; [by apply H1|].
    pose proof Ha as Ha'. pose proof Hb as Hb'.
    apply list_elem_of_lookup in Ha' as [i Hi].
    apply list_elem_of_lookup in Hb' as [j Hj].
    assert (forall v, is_correlation v = true -> (v =? v)%float = true) as Hnum.
    { intros v Hc. unfold is_correlation in Hc.
      by apply andb_true_iff in Hc as [[Hc _]%andb_true_iff _]. }
    destruct (Nat.lt_total i j) as [Hij | [-> | Hji]].
    + destruct (H2 a b i j Hi Hj Hij) as [Hab Hba].
      exists (demo_correlation py_hash b a).
      split_and!; [done|done| |done].
      apply Hnum, demo_correlation_is_correlation.
    + assert (a = b) as -> by congruence.
      exists 1%float. split_and!; [by apply H1|by apply H1|done|].
      intros i' j' Hi' Hj' Hlt.
      pose proof (NoDup_lookup _ _ _ _ Hnd Hi' Hj'). lia.
    + destruct (H2 b a j i Hj Hi Hji) as [Hba Hab].
      exists (demo_correlation py_hash a b).
      split_and!; [done|done| |].
      * apply Hnum, demo_correlation_is_correlation.
      * intros i' j' Hi' Hj' Hlt.
        pose proof (NoDup_lookup _ _ _ _ Hnd Hi Hi').
        pose proof (NoDup_lookup _ _ _ _ Hnd Hj Hj'). lia.
  - apply real_correlation_matrix_entry.
Qed.

Lemma correlation_matrix_by_path_witness :
  (let m := demo_correlation_matrix length_hash ["bitcoin"; "ethereum"; "tether"] in
   get2 m "bitcoin" "bitcoin" = Some 1%float /\
   exists v : float,
     get2 m "bitcoin" "tether" = Some v /\ get2 m "tether" "bitcoin" = Some v /\
     (v =? v)%float = true /\
     (forall i j : nat,
        ["bitcoin"; "ethereum"; "tether"] !! i = Some "bitcoin" ->
        ["bitcoin"; "ethereum"; "tether"] !! j = Some "tether" ->
        (i < j)%nat ->
        v = demo_correlation length_hash "tether" "bitcoin")) /\
  get2 (real_correlation_matrix flat_and_rising) "bitcoin" "tether" =
    Some (correlation_entry "bitcoin" "tether"
            (series_of flat_and_rising "bitcoin")
            (series_of flat_and_rising "tether")).
Proof.
  split.
  - apply (proj1 correlation_matrix_by_path length_hash
             ["bitcoin"; "ethereum"; "tether"] "bitcoin" "tether").
    + apply (bool_decide_unpack _). vm_compute. exact I.
    + apply (bool_decide_unpack _). vm_compute. exact I.
    + apply (bool_decide_unpack _). vm_compute. exact I.
  - apply (proj2 correlation_matrix_by_path flat_and_rising "bitcoin" "tether").
    + apply (bool_decide_unpack _). vm_compute. exact I.
    + apply (bool_decide_unpack _). vm_compute. exact I.
Defined.

(** A run of the demo loop: the value that stays in both places is the one
    made up when the later of the two coins is [coin1]. *)
Example demo_matrix_run :
  let m := demo_correlation_matrix length_hash ["bitcoin"; "tether"] in
  get2 m "bitcoin" "tether" = get2 m "tether" "bitcoin" /\
  get2 m "bitcoin" "tether" = Some (demo_correlation length_hash "tether" "bitcoin").
Proof. vm_compute. split; reflexivity. Qed.

(** *** The degenerate entries of the live path *)

(** C3, refuted.  With one overlapping point, which is fewer than 2, the
    entry of two distinct coins is NaN, not 0, and the entry of a coin with
    itself is NaN, not 1.0. *)
Lemma single_point_entry_nan :
  let m := real_correlation_matrix single_and_rising in
  (length (series_of single_and_rising "tether")
     `min` length (series_of single_and_rising "bitcoin") < 2)%nat /\
  get2 m "tether" "bitcoin" = Some nan /\
  (nan =? 0)%float = false /\
  get2 m "tether" "tether" = Some nan /\
  (nan =? 1)%float = false.
Proof. vm_compute. repeat split; (reflexivity || lia). Qed.

(** A pair without any overlapping point, which the loop allows for though
    the endpoint stores no empty list. *)
Example empty_series_entries :
  let m := real_correlation_matrix
             [("tether", []); ("bitcoin", [Some 1%float; Some 2%float])] in
  get2 m "tether" "tether" = Some 1%float /\
  get2 m "tether" "bitcoin" = Some 0%float /\
  get2 m "bitcoin" "tether" = Some 0%float.
Proof. vm_compute. repeat split; reflexivity. Qed.

(** Two series that rise together, and two that move against each other. *)
Example corrcoef_run :
  corrcoef [1; 2; 3]%float [2; 4; 6]%float = 1%float /\
  corrcoef [1; 2; 3]%float [3; 2; 1]%float = (-1)%float.
Proof. vm_compute. split; reflexivity. Qed.

(** C3, as the code has it.  On the live path, the entry of a pair whose
    overlapping series have no point at all is 1.0 for a coin with itself
    and 0 for two distinct coins; and when the computation raises (a value
    of one of the two truncated series is not a number), the entry falls
    back to the same two values. *)
Theorem degenerate_entry_fallback :
  forall (price_data : list (string * list price)) (a b : string),
    a ∈ price_data.*1 -> b ∈ price_data.*1 ->
    let p1 := series_of price_data a in
    let p2 := series_of price_data b in
    let n := (length p1 `min` length p2)%nat in
    (n = 0%nat \/
     np_array (last_n n p1) = None \/ np_array (last_n n p2) = None) ->
    get2 (real_correlation_matrix price_data) a b =
      Some (if decide (a = b) then 1%float else 0%float).
Proof.
  intros pd a b Ha Hb p1 p2 n H.
  rewrite real_correlation_matrix_entry by done.
  f_equal. unfold correlation_entry. fold p1 p2 n.
  assert (degenerate a b = if decide (a = b) then 1%float else 0%float) as <-.
  { unfold degenerate. destruct (String.eqb_spec a b); by case_decide. }
  destruct H as [-> | [-> | H]]; [done| by case_match |].
  rewrite H. by repeat case_match.
Qed.

Lemma degenerate_entry_fallback_witness :
  get2 (real_correlation_matrix null_and_rising) "tether" "bitcoin" =
    Some (if decide ("tether" = "bitcoin") then 1%float else 0%float).
Proof.
  apply (degenerate_entry_fallback null_and_rising "tether" "bitcoin").
  - apply (bool_decide_unpack _). vm_compute. exact I.
  - apply (bool_decide_unpack _). vm_compute. exact I.
  - right. left. vm_compute. reflexivity.
Defined.

(** *** The ranges of the demo values *)

Lemma demo_values_all_in_range :
  forallb demo_values_in_range (seq 0 1000) = true.
Proof. vm_compute. reflexivity. Qed.

(** X21. The value the demo loop makes up for a pair of coins lies in the
    range its comments name, whatever the hash of the pair, in binary64
    arithmetic: from 0 up to 0.3 when one of the ids contains "tether" or
    "usdc", from 0.7 up to 0.9 for a pair of ids that contain "bitcoin" and
    "ethereum", and from 0.3 up to 0.7 otherwise; the upper end is never
    reached.  The range is the same for the two orders of a pair. *)
Theorem demo_correlation_in_range :
  forall (py_hash : string -> Z) (coin1 coin2 : string),
    within (demo_range coin1 coin2) (demo_correlation py_hash coin1 coin2) = true /\
    demo_range coin2 coin1 = demo_range coin1 coin2.
Proof.
  intros py_hash coin1 coin2. split.
  - set (z := (py_hash (coin1 +:+ "-" +:+ coin2) `mod` 1000)%Z).
    assert (0 <= z < 1000)%Z as Hz by (apply Z.mod_pos_bound; lia).
    pose proof demo_values_all_in_range as Hall.
    rewrite forallb_forall in Hall.
    specialize (Hall (Z.to_nat z)).
    assert (In (Z.to_nat z) (seq 0 1000)) as Hin by (apply in_seq; lia).
    specialize (Hall Hin).
    unfold demo_values_in_range, demo_values, float_of_nat in Hall.
    rewrite Z2Nat.id in Hall by lia.
    apply andb_true_iff in Hall as [Hall H3].
    apply andb_true_iff in Hall as [H1 H2].
    unfold demo_correlation, demo_range. fold z.
    repeat case_match; assumption.
  - unfold demo_range.
    destruct (PyStr.contains "tether" coin1), (PyStr.contains "tether" coin2),
      (PyStr.contains "usdc" coin1), (PyStr.contains "usdc" coin2),
      (PyStr.contains "bitcoin" coin1), (PyStr.contains "bitcoin" coin2),
      (PyStr.contains "ethereum" coin1), (PyStr.contains "ethereum" coin2);
      reflexivity.
Qed.

End CorrelationFacts.

(** ** Facts: the sentiment of stock news *)

Module StocksFacts.
Import PyStr Num Sentiment Price Stocks.

Local Open Scope Q_scope.

(** *** Dictionaries *)

Lemma pydict_set_lookup (d : pydict) (key : string) (v : pyval) :
  dict_lookup (pydict_set d key v) key = Some v.
Proof.
  induction d as [|[k x] d IH]; cbn.
  - by rewrite String.eqb_refl.
  - destruct (String.eqb k key) eqn:E; cbn; by rewrite E.
Qed.

Lemma pydict_set_lookup_ne (d : pydict) (key key' : string) (v : pyval) :
  key <> key' ->
  dict_lookup (pydict_set d key v) key' = dict_lookup d key'.
Proof.
  intros Hne. induction d as [|[k x] d IH]; cbn.
  - destruct (String.eqb key key') eqn:E; [|done].
    by apply String.eqb_eq in E.
  - destruct (String.eqb k key) eqn:E; cbn.
    + apply String.eqb_eq in E as ->.
      destruct (String.eqb key key') eqn:E'; [|done].
      by apply String.eqb_eq in E'.
    + by rewrite IH.
Qed.

(** *** The label of a headline *)

Lemma classify_label (c : Q) :
  classify c = "positive" \/ classify c = "neutral" \/ classify c = "negative".
Proof. unfold classify. repeat case_match; auto. Qed.

Lemma label_of_cases ps (h : pyval) (label : string) :
  label_of ps h = Some label ->
  label = "positive" \/ label = "neutral" \/ label = "negative".
Proof.
  unfold label_of, analyze_text_value.
  destruct (negb (truthy h)); [intros [= <-]; auto|].
  destruct h; try done. intros [= <-].
  unfold analyze_text. destruct (is_blank _); cbn; [auto|].
  apply classify_label.
Qed.

Lemma label_of_readable ps (h : pyval) :
  is_Some (label_of ps h) <-> readable h = true.
Proof.
  unfold label_of, readable, analyze_text_value.
  destruct (negb (truthy h)); cbn; [split; eauto|].
  destruct h; cbn; split; intros H; eauto; try done; by destruct H.
Qed.

(** *** One pass of the loop *)

(** The score that the loop adds for a headline is the default of
    [result.get('scores', {}).get('compound', 0)]: the dictionary of
    [analyze_text] has no key ['scores']. *)
Lemma headline_step_cases ps (news_df : news_frame) (st : headlines_state)
    (item : nat * pyval) :
  let st' := headline_step ps news_df st item in
  (total_compound st' = total_compound st \/
   total_compound st' = cadd (total_compound st) (Some 0)) /\
  (analyzed_headlines st' = analyzed_headlines st \/
   exists d,
     analyzed_headlines st' = analyzed_headlines st ++ [d] /\
     compound_score_of d = Some (PNum (Some 0))).
Proof.
  destruct item as [idx h]. cbv zeta. unfold headline_step.
  destruct (analyze_text_value ps h) as [r|]; [|auto].
  cbn [text_result_dict dict_get dict_lookup String.eqb Ascii.eqb Bool.eqb
       py_get].
  destruct (headline_counts st !! sentiment r); [|auto].
  destruct (optional_cell news_df "PublishedAt" idx),
    (optional_cell news_df "Company" idx),
    (optional_cell news_df "Source" idx); cbn; (split; [by right|]);
    [right; by eexists|by left..].
Qed.

Lemma headline_loop_zero ps (news_df : news_frame)
    (items : list (nat * pyval)) (st : headlines_state) :
  (exists t, total_compound st = Some t /\ t == 0) ->
  Forall (fun h => compound_score_of h = Some (PNum (Some 0)))
    (analyzed_headlines st) ->
  let st' := foldl (headline_step ps news_df) st items in
  (exists t, total_compound st' = Some t /\ t == 0) /\
  Forall (fun h => compound_score_of h = Some (PNum (Some 0)))
    (analyzed_headlines st').
Proof.
  revert st. induction items as [|item items IH]; intros st Ht Ha; [done|].
  cbn [foldl]. apply IH.
  - destruct (headline_step_cases ps news_df st item) as [[E | E] _];
      rewrite E; [done|].
    destruct Ht as (t & -> & Ht). exists (t + 0). split; [done|]. lra.
  - destruct (headline_step_cases ps news_df st item) as [_ [E | (d & E & Hd)]];
      rewrite E; [done|].
    apply Forall_app. split; [done|]. by constructor.
Qed.

Lemma Q_of_nat_nonzero (n : nat) : (0 < n)%nat -> Qeq_bool (Q_of_nat n) 0 = false.
Proof.
  intros Hn. destruct (Qeq_bool _ _) eqn:E; [|done].
  apply Qeq_bool_eq in E. unfold Qeq, Q_of_nat in E. cbn in E. lia.
Qed.

Lemma headline_label_zero (x : Q) : x == 0 -> headline_label (Some x) = "neutral".
Proof.
  intros Hx. unfold headline_label, cge, cle.
  repeat match goal with
  | |- context [Qle_bool ?a ?b] =>
      let E := fresh "E" in
      destruct (Qle_bool a b) eqn:E; [apply Qle_bool_iff in E; lra|]
  end.
  done.
Qed.

Lemma cgt_zero (x : Q) : x == 0 -> cgt (Some x) (Some 0) = false.
Proof.
  intros Hx. unfold cgt, Qgt_bool.
  destruct (Qle_bool x 0) eqn:E; [done|].
  exfalso. apply not_true_iff_false in E. apply E, Qle_bool_iff. lra.
Qed.

Lemma clt_zero (x : Q) : x == 0 -> clt (Some x) (Some 0) = false.
Proof.
  intros Hx. unfold clt, cgt, Qgt_bool.
  destruct (Qle_bool 0 x) eqn:E; [done|].
  exfalso. apply not_true_iff_false in E. apply E, Qle_bool_iff. lra.
Qed.

(** What [analyze_headlines] returns about the compound score, for every
    frame. *)
Lemma analyze_headlines_zero ps (news_df : news_frame) :
  let r := analyze_headlines ps news_df in
  dict_lookup r "overall_sentiment" = Some (PStr "neutral") /\
  (exists (scores : pydict) (x : Q),
     dict_lookup r "sentiment_scores" = Some (PDict scores) /\
     dict_lookup scores "compound" = Some (PNum (Some x)) /\ x == 0) /\
  exists hs,
    dict_lookup r "analyzed_headlines" = Some (PList hs) /\
    Forall (fun h => compound_score_of h = Some (PNum (Some 0))) hs.
Proof.
  cbv zeta. unfold analyze_headlines.
  assert (let r := no_headlines_result in
          dict_lookup r "overall_sentiment" = Some (PStr "neutral") /\
          (exists (scores : pydict) (x : Q),
             dict_lookup r "sentiment_scores" = Some (PDict scores) /\
             dict_lookup scores "compound" = Some (PNum (Some x)) /\ x == 0) /\
          exists hs,
            dict_lookup r "analyzed_headlines" = Some (PList hs) /\
            Forall (fun h => compound_score_of h = Some (PNum (Some 0))) hs)
    as Hnone.
  { cbv zeta. split; [done|]. split.
    - eexists _, 0. split; [reflexivity|]. split; [reflexivity|]. lra.
    - exists []. split; [reflexivity|]. constructor. }
  destruct (news_empty news_df); [exact Hnone|].
  destruct (news_columns news_df !! "Headline") as [headlines|]; [|exact Hnone].
  clear Hnone.
  destruct (headline_loop_zero ps news_df
              (imap (fun idx headline => (idx, headline)) headlines)
              initial_headlines) as [(t & Ht & Hz) Ha].
  { exists 0. split; [done|]. lra. }
  { constructor. }
  set (st := foldl _ _ _) in *. clearbody st.
  cbn [dict_lookup String.eqb Ascii.eqb Bool.eqb].
  rewrite Ht.
  assert (exists x,
            (if (0 <? length (analyzed_headlines st))%nat
             then cdiv (Some t) (Some (Q_of_nat (length (analyzed_headlines st))))
             else Some 0) = Some x /\ x == 0) as (x & -> & Hx).
  { destruct (0 <? _)%nat eqn:E.
    - apply Nat.ltb_lt in E. cbn. rewrite (Q_of_nat_nonzero _ E).
      eexists. split; [reflexivity|]. rewrite Hz.
      unfold Qdiv. ring.
    - exists 0. split; [done|]. lra. }
  split; [by rewrite (headline_label_zero _ Hx)|]. split.
  - eexists _, x. split; [reflexivity|]. split; [reflexivity|done].
  - eexists. split; [reflexivity|done].
Qed.

(** X9. Whatever the news and whatever VADER answers, [analyze_headlines]
    reports the overall sentiment "neutral", an average compound score of
    0 and the compound score 0 for every headline: it reads the score by
    [result.get('scores', {}).get('compound', 0)], and the dictionary of
    [analyze_text] has its score under ['compound'], not under
    ['scores']. *)
Theorem analyze_headlines_always_neutral :
  forall (polarity_scores : string -> vader_scores) (news_df : news_frame),
    let r := analyze_headlines polarity_scores news_df in
    dict_lookup r "overall_sentiment" = Some (PStr "neutral") /\
    (exists x : Q,
       dict_lookup2 r "sentiment_scores" "compound" = Some (PNum (Some x)) /\
       x == 0) /\
    exists hs : list pyval,
      dict_lookup r "analyzed_headlines" = Some (PList hs) /\
      Forall (fun h => compound_score_of h = Some (PNum (Some 0))) hs.
Proof.
  intros ps news_df. cbv zeta.
  destruct (analyze_headlines_zero ps news_df) as (H1 & (sc & x & H2 & H3 & Hx) & H4).
  split; [done|]. split; [|done].
  exists x. split; [|done]. unfold dict_lookup2. by rewrite H2.
Qed.

(** *** The counts on a frame whose columns have the rows of the index *)

Lemma count_of_insert (counts : gmap string nat) (l l' : string) (n : nat) :
  count_of (<[l := n]> counts) l' =
    if decide (l = l') then n else count_of counts l'.
Proof.
  unfold count_of. case_decide as E.
  - subst. by rewrite lookup_insert_eq.
  - by rewrite lookup_insert_ne.
Qed.

Lemma optional_cell_ready (news_df : news_frame) (col : string) (idx : nat) :
  news_ready news_df -> (idx < news_len news_df)%nat ->
  exists v, optional_cell news_df col idx = Ok v.
Proof.
  intros Hr Hi. unfold optional_cell.
  destruct (news_columns news_df !! col) as [column|] eqn:E; [|eauto].
  specialize (Hr _ _ E).
  destruct (column !! idx) eqn:E'; [eauto|].
  apply lookup_ge_None in E'. lia.
Qed.

Lemma headline_step_ready ps (news_df : news_frame) (st : headlines_state)
    (idx : nat) (h : pyval) :
  news_ready news_df -> (idx < news_len news_df)%nat ->
  (forall l, l ∈ ["positive"; "neutral"; "negative"] ->
             is_Some (headline_counts st !! l)) ->
  let st' := headline_step ps news_df st (idx, h) in
  match label_of ps h with
  | None => st' = st
  | Some l =>
      length (analyzed_headlines st') = S (length (analyzed_headlines st)) /\
      headline_counts st' =
        <[l := S (count_of (headline_counts st) l)]> (headline_counts st)
  end.
Proof.
  intros Hr Hi Hk. cbv zeta. unfold headline_step.
  pose proof (label_of_cases ps h) as Hl. unfold label_of in *.
  destruct (analyze_text_value ps h) as [r|]; [|done].
  cbn [text_result_dict dict_get dict_lookup String.eqb Ascii.eqb Bool.eqb
       py_get].
  destruct (Hk (sentiment r)) as [n Hn].
  { specialize (Hl _ eq_refl). set_unfold. naive_solver. }
  unfold count_of. rewrite Hn. cbn [default].
  destruct (optional_cell_ready news_df "PublishedAt" idx Hr Hi) as [a ->].
  destruct (optional_cell_ready news_df "Company" idx Hr Hi) as [b ->].
  destruct (optional_cell_ready news_df "Source" idx Hr Hi) as [c ->].
  cbn. split; [|done]. rewrite length_app. cbn. lia.
Qed.

Lemma labelled_cons ps (l : string) (h : pyval) (hs : list pyval) :
  labelled ps l (h :: hs) =
    ((if decide (label_of ps h = Some l) then 1 else 0) + labelled ps l hs)%nat.
Proof.
  unfold labelled. rewrite filter_cons. by case_decide.
Qed.

Lemma headline_loop_ready ps (news_df : news_frame)
    (items : list (nat * pyval)) (st : headlines_state) :
  news_ready news_df ->
  Forall (fun item => (item.1 < news_len news_df)%nat) items ->
  (forall l, l ∈ ["positive"; "neutral"; "negative"] ->
             is_Some (headline_counts st !! l)) ->
  let st' := foldl (headline_step ps news_df) st items in
  length (analyzed_headlines st') =
    (length (analyzed_headlines st)
     + labelled ps "positive" items.*2
     + labelled ps "neutral" items.*2
     + labelled ps "negative" items.*2)%nat /\
  forall l, count_of (headline_counts st') l =
            (count_of (headline_counts st) l + labelled ps l items.*2)%nat.
Proof.
  intros Hr Hi. revert st.
  induction Hi as [|[idx h] items Hidx _ IH]; intros st Hk; cbv zeta.
  - cbn. split; [lia|]. intros l. unfold labelled. cbn. lia.
  - cbn [foldl fmap list_fmap snd]. cbn in Hidx.
    pose proof (headline_step_ready ps news_df st idx h Hr Hidx Hk) as Hs.
    cbv zeta in Hs.
    pose proof (label_of_cases ps h) as Hl.
    rewrite !labelled_cons.
    destruct (label_of ps h) as [l0|] eqn:E.
    + destruct Hs as [Hlen Hc].
      destruct (IH (headline_step ps news_df st (idx, h))) as [IH1 IH2].
      { intros l Hin. rewrite Hc.
        destruct (decide (l0 = l)) as [->|Hne].
        - rewrite lookup_insert_eq. eauto.
        - rewrite lookup_insert_ne by done. by apply Hk. }
      split.
      * rewrite IH1, Hlen.
        destruct (Hl _ eq_refl) as [-> | [-> | ->]];
          repeat case_decide; try done; lia.
      * intros l. rewrite IH2, Hc, count_of_insert, labelled_cons, E.
        repeat case_decide; simplify_eq; lia.
    + rewrite Hs. destruct (IH st Hk) as [IH1 IH2].
      split.
      * rewrite IH1. repeat case_decide; try done; lia.
      * intros l. rewrite IH2, labelled_cons, E. case_decide; [done|]. lia.
Qed.

Lemma imap_pair_snd {A} (l : list A) :
  (imap (fun idx x => (idx, x)) l).*2 = l.
Proof.
  rewrite fmap_imap. unfold compose. cbn.
  induction l as [|x l IH]; [done|]. cbn. f_equal.
  rewrite <- IH at 2. by apply imap_ext.
Qed.

Lemma imap_pair_index {A} (l : list A) :
  Forall (fun item : nat * A => (item.1 < length l)%nat)
    (imap (fun idx x => (idx, x)) l).
Proof.
  apply Forall_lookup. intros i [j x] H.
  rewrite list_lookup_imap in H.
  destruct (l !! i) eqn:E; [|done]. cbn in H. injection H as <- <-.
  cbn. by apply lookup_lt_Some in E.
Qed.

Lemma labelled_readable ps (hs : list pyval) :
  (labelled ps "positive" hs + labelled ps "neutral" hs
   + labelled ps "negative" hs)%nat =
    length (filter (fun h => readable h = true) hs).
Proof.
  induction hs as [|h hs IH]; [done|].
  rewrite !labelled_cons, filter_cons.
  pose proof (label_of_cases ps h) as Hl.
  pose proof (label_of_readable ps h) as Hr.
  destruct (label_of ps h) as [l|] eqn:E.
  - assert (readable h = true) as Hrd by (apply Hr; eauto).
    destruct (Hl _ eq_refl) as [-> | [-> | ->]];
      repeat case_decide; try done; cbn [length]; lia.
  - assert (readable h <> true) as Hrd
      by (intros H; apply Hr in H; by destruct H).
    repeat case_decide; try done; lia.
Qed.

(** The tally of [analyze_headlines] on a frame whose columns have the rows
    of the index. *)
Lemma analyze_headlines_tally ps (news_df : news_frame)
    (headlines : list pyval) :
  news_ready news_df ->
  news_empty news_df = false ->
  news_columns news_df !! "Headline" = Some headlines ->
  let r := analyze_headlines ps news_df in
  let total :=
    (labelled ps "positive" headlines + labelled ps "neutral" headlines
     + labelled ps "negative" headlines)%nat in
  dict_lookup r "headlines_analyzed" = Some (PNum (Some (Q_of_nat total))) /\
  dict_lookup r "sentiment_counts" =
    Some (PDict
            [("positive", PNum (Some (Q_of_nat (labelled ps "positive" headlines))));
             ("neutral", PNum (Some (Q_of_nat (labelled ps "neutral" headlines))));
             ("negative", PNum (Some (Q_of_nat (labelled ps "negative" headlines))))]) /\
  dict_lookup r "sentiment_distribution" =
    Some (PDict
            [("positive", PNum (fraction (labelled ps "positive" headlines) total));
             ("neutral", PNum (fraction (labelled ps "neutral" headlines) total));
             ("negative", PNum (fraction (labelled ps "negative" headlines) total))]).
Proof.
  intros Hr Hne Hcol. cbv zeta.
  unfold analyze_headlines. rewrite Hne, Hcol.
  destruct (headline_loop_ready ps news_df
              (imap (fun idx headline => (idx, headline)) headlines)
              initial_headlines Hr) as [Hlen Hcount].
  { rewrite <- (Hr _ _ Hcol). apply imap_pair_index. }
  { intros l Hl. set_unfold.
    destruct Hl as [-> | [-> | [-> | []]]]; by eexists. }
  rewrite imap_pair_snd in Hlen, Hcount.
  set (st := foldl _ _ _) in *. clearbody st.
  cbn [initial_headlines analyzed_headlines length Nat.add] in Hlen.
  assert (forall l, l ∈ ["positive"; "neutral"; "negative"] ->
                    count_of (headline_counts st) l = labelled ps l headlines)
    as Hc.
  { intros l Hl. rewrite Hcount. set_unfold.
    destruct Hl as [-> | [-> | [-> | []]]]; reflexivity. }
  cbn [dict_lookup String.eqb Ascii.eqb Bool.eqb].
  rewrite Hlen, !Hc by set_solver. done.
Qed.

(** X10. On a frame with rows whose columns all have the rows of the
    index, [analyze_headlines] counts every headline that [analyze_text]
    returns on, that is every string and every value that is false; the
    others (a missing headline is NaN, which is true and has no [strip])
    are skipped.  The count of a label is the number of headlines given
    that label, the number analysed is the sum of the three counts, and
    the distribution of a label is its count over that sum, or 0 when
    nothing was analysed. *)
Theorem analyze_headlines_counts :
  forall (polarity_scores : string -> vader_scores) (news_df : news_frame)
         (headlines : list pyval),
    news_ready news_df ->
    news_empty news_df = false ->
    news_columns news_df !! "Headline" = Some headlines ->
    let r := analyze_headlines polarity_scores news_df in
    let total :=
      (labelled polarity_scores "positive" headlines
       + labelled polarity_scores "neutral" headlines
       + labelled polarity_scores "negative" headlines)%nat in
    total = length (filter (fun h => readable h = true) headlines) /\
    dict_lookup r "headlines_analyzed" = Some (PNum (Some (Q_of_nat total))) /\
    forall label,
      label ∈ ["positive"; "neutral"; "negative"] ->
      dict_lookup2 r "sentiment_counts" label =
        Some (PNum (Some (Q_of_nat (labelled polarity_scores label headlines)))) /\
      dict_lookup2 r "sentiment_distribution" label =
        Some (PNum (fraction (labelled polarity_scores label headlines) total)).
Proof.
  intros ps news_df headlines Hr Hne Hcol. cbv zeta.
  split; [apply labelled_readable|].
  destruct (analyze_headlines_tally ps news_df headlines Hr Hne Hcol)
    as (H1 & H2 & H3).
  split; [exact H1|].
  intros label Hl. unfold dict_lookup2. rewrite H2, H3.
  set_unfold. destruct Hl as [-> | [-> | [-> | []]]]; by split.
Qed.

Lemma ready_headlines_frame (headlines : list pyval) :
  news_ready (headlines_frame headlines).
Proof.
  intros name column H. unfold headlines_frame in H. cbn in H.
  apply lookup_singleton_Some in H as [_ <-]. done.
Qed.

Lemma analyze_headlines_counts_witness :
  let ps := constant_scores 0.5 in
  let r := analyze_headlines ps (headlines_frame sample_headlines) in
  let total :=
    (labelled ps "positive" sample_headlines
     + labelled ps "neutral" sample_headlines
     + labelled ps "negative" sample_headlines)%nat in
  total = length (filter (fun h => readable h = true) sample_headlines) /\
  dict_lookup r "headlines_analyzed" = Some (PNum (Some (Q_of_nat total))) /\
  forall label,
    label ∈ ["positive"; "neutral"; "negative"] ->
    dict_lookup2 r "sentiment_counts" label =
      Some (PNum (Some (Q_of_nat (labelled ps label sample_headlines)))) /\
    dict_lookup2 r "sentiment_distribution" label =
      Some (PNum (fraction (labelled ps label sample_headlines) total)).
Proof.
  apply (analyze_headlines_counts (constant_scores 0.5)
           (headlines_frame sample_headlines) sample_headlines).
  - apply ready_headlines_frame.
  - reflexivity.
  - reflexivity.
Defined.

(** The sample frame has two headlines that are strings and one that is
    missing: two are analysed, both positive. *)
Example sample_headlines_counts :
  let r := analyze_headlines (constant_scores 0.5)
             (headlines_frame sample_headlines) in
  dict_lookup r "headlines_analyzed" = Some (PNum (Some 2)) /\
  dict_lookup2 r "sentiment_counts" "positive" = Some (PNum (Some 2)) /\
  dict_lookup r "overall_sentiment" = Some (PStr "neutral").
Proof. vm_compute. done. Qed.

(** *** The chart of the distribution *)

Lemma fraction_unit (a b c : nat) :
  let total := (a + b + c)%nat in
  exists x y z : Q,
    fraction a total = Some x /\ fraction b total = Some y /\
    fraction c total = Some z /\
    (0 <= x <= 1) /\ (0 <= y <= 1) /\ (0 <= z <= 1) /\
    (total = 0%nat -> x = 0 /\ y = 0 /\ z = 0).
Proof.
  cbv zeta. unfold fraction.
  destruct (0 <? a + b + c)%nat eqn:E.
  - apply Nat.ltb_lt in E. do 3 eexists. split_and!; try reflexivity.
    1-6: apply SentimentFacts.fraction_bounds; lia.
    lia.
  - exists 0, 0, 0. split_and!; done.
Qed.

(** X22. The chart that [prepare_sentiment_distribution_data] draws from
    the result of [analyze_headlines], on a frame whose columns have the
    rows of the index, has three values: the fractions of the labels
    positive, neutral and negative in the distribution of the result, each
    times 100, the code's own product.  Each fraction lies in [0,1], so
    that each value lies between 0 and 100.  A frame without rows or
    without headlines is drawn as 0, 100, 0; a frame with headlines of
    which none can be analysed as 0, 0, 0.  (That the three values add up
    to 100 otherwise holds of the code up to the rounding of its binary64
    quotients only, and is not stated.) *)
Theorem sentiment_chart_percentages :
  forall (polarity_scores : string -> vader_scores) (news_df : news_frame),
    news_ready news_df ->
    let r := analyze_headlines polarity_scores news_df in
    let chart := prepare_sentiment_distribution_data r in
    exists x y z : Q,
      dict_lookup2 r "sentiment_distribution" "positive" = Some (PNum (Some x)) /\
      dict_lookup2 r "sentiment_distribution" "neutral" = Some (PNum (Some y)) /\
      dict_lookup2 r "sentiment_distribution" "negative" = Some (PNum (Some z)) /\
      chart_values chart =
        Some [PNum (Some (x * 100)); PNum (Some (y * 100));
              PNum (Some (z * 100))] /\
      (0 <= x <= 1) /\ (0 <= y <= 1) /\ (0 <= z <= 1) /\
      match
        (if news_empty news_df then None
         else news_columns news_df !! "Headline")
      with
      | None => x = 0 /\ y = 1 /\ z = 0
      | Some headlines =>
          filter (fun h => readable h = true) headlines = [] ->
          x = 0 /\ y = 0 /\ z = 0
      end.
Proof.
  intros ps news_df Hr. cbv zeta.
  assert (analyze_headlines ps news_df = no_headlines_result ->
          (if news_empty news_df then None
           else news_columns news_df !! "Headline") = None ->
          exists x y z : Q,
            dict_lookup2 (analyze_headlines ps news_df)
              "sentiment_distribution" "positive" = Some (PNum (Some x)) /\
            dict_lookup2 (analyze_headlines ps news_df)
              "sentiment_distribution" "neutral" = Some (PNum (Some y)) /\
            dict_lookup2 (analyze_headlines ps news_df)
              "sentiment_distribution" "negative" = Some (PNum (Some z)) /\
            chart_values
              (prepare_sentiment_distribution_data (analyze_headlines ps news_df)) =
              Some [PNum (Some (x * 100)); PNum (Some (y * 100));
                    PNum (Some (z * 100))] /\
            (0 <= x <= 1) /\ (0 <= y <= 1) /\ (0 <= z <= 1) /\
            match
              (if news_empty news_df then None
               else news_columns news_df !! "Headline")
            with
            | None => x = 0 /\ y = 1 /\ z = 0
            | Some headlines =>
                filter (fun h => readable h = true) headlines = [] ->
                x = 0 /\ y = 0 /\ z = 0
            end) as Hnone.
  { intros -> ->. exists 0, 1, 0. split_and!; done. }
  destruct (news_empty news_df) eqn:Hne.
  { apply Hnone; [|done]. unfold analyze_headlines. by rewrite Hne. }
  destruct (news_columns news_df !! "Headline") as [headlines|] eqn:Hcol.
  2:{ apply Hnone; [|done]. unfold analyze_headlines. by rewrite Hne, Hcol. }
  clear Hnone.
  destruct (analyze_headlines_tally ps news_df headlines Hr Hne Hcol)
    as (_ & _ & Hd). cbv zeta in Hd.
  pose proof (labelled_readable ps headlines) as Hread.
  destruct (fraction_unit (labelled ps "positive" headlines)
              (labelled ps "neutral" headlines)
              (labelled ps "negative" headlines))
    as (x & y & z & Hx & Hy & Hz & Hx1 & Hy1 & Hz1 & Hzero).
  rewrite Hx, Hy, Hz in Hd.
  exists x, y, z. unfold dict_lookup2. rewrite Hd.
  do 3 (split; [done|]). split; [|do 3 (split; [done|])].
  - unfold prepare_sentiment_distribution_data.
    assert (truthy (PDict (analyze_headlines ps news_df)) = true) as ->.
    { cbn. destruct (analyze_headlines ps news_df); [done|].
      by rewrite bool_decide_eq_false_2. }
    rewrite Hd. cbn [negb orb].
    rewrite bool_decide_eq_true_2 by eauto. reflexivity.
  - intros Hnil. apply Hzero. by rewrite Hread, Hnil.
Qed.

Lemma sentiment_chart_percentages_witness :
  let r := analyze_headlines (constant_scores 0.5)
             (headlines_frame sample_headlines) in
  exists x y z : Q,
    dict_lookup2 r "sentiment_distribution" "positive" = Some (PNum (Some x)) /\
    dict_lookup2 r "sentiment_distribution" "neutral" = Some (PNum (Some y)) /\
    dict_lookup2 r "sentiment_distribution" "negative" = Some (PNum (Some z)) /\
    chart_values (prepare_sentiment_distribution_data r) =
      Some [PNum (Some (x * 100)); PNum (Some (y * 100));
            PNum (Some (z * 100))] /\
    (0 <= x <= 1) /\ (0 <= y <= 1) /\ (0 <= z <= 1) /\
    match
      (if news_empty (headlines_frame sample_headlines) then None
       else news_columns (headlines_frame sample_headlines) !! "Headline")
    with
    | None => x = 0 /\ y = 1 /\ z = 0
    | Some headlines =>
        filter (fun h => readable h = true) headlines = [] ->
        x = 0 /\ y = 0 /\ z = 0
    end.
Proof.
  apply (sentiment_chart_percentages (constant_scores 0.5)
           (headlines_frame sample_headlines)).
  apply ready_headlines_frame.
Defined.

(** *** The callers of [analyze_headlines] *)

(** X11. [analyze_company_sentiment] and [analyze_market_sentiment] return
    a dictionary whose overall sentiment is "neutral" in every case: when
    the news cannot be loaded by the error result, and otherwise by what
    [analyze_headlines] returns.  The result carries the company, or the
    market "overall". *)
Theorem wrappers_always_neutral :
  forall (polarity_scores : string -> vader_scores)
         (get_stock_news : option string -> nat -> result news_frame)
         (company : string) (news_df : option news_frame)
         (max_headlines : nat),
    let c := analyze_company_sentiment polarity_scores get_stock_news
               company news_df in
    let m := analyze_market_sentiment polarity_scores get_stock_news
               news_df max_headlines in
    dict_lookup c "overall_sentiment" = Some (PStr "neutral") /\
    dict_lookup c "company" = Some (PStr company) /\
    dict_lookup m "overall_sentiment" = Some (PStr "neutral") /\
    dict_lookup m "market" = Some (PStr "overall").
Proof.
  intros ps news company news_df n. cbv zeta.
  unfold analyze_company_sentiment, analyze_market_sentiment.
  assert (forall df key v,
            key <> "overall_sentiment" ->
            dict_lookup (pydict_set (analyze_headlines ps df) key v)
              "overall_sentiment" = Some (PStr "neutral")) as Hset.
  { intros df key v Hne. rewrite pydict_set_lookup_ne by done.
    apply analyze_headlines_zero. }
  split_and!.
  - destruct news_df as [df|]; [by apply Hset|].
    destruct (news (Some company) 50%nat); [by apply Hset|done].
  - destruct news_df as [df|]; [apply pydict_set_lookup|].
    destruct (news (Some company) 50%nat); [apply pydict_set_lookup|done].
  - destruct news_df as [df|]; [by apply Hset|].
    destruct (news None n); [by apply Hset|done].
  - destruct news_df as [df|]; [apply pydict_set_lookup|].
    destruct (news None n); [apply pydict_set_lookup|done].
Qed.

(** X12. [analyze_stock_news_impact] never reports the news and the price
    as "aligned": its result is an error dictionary, or it has the
    sentiment score 0 and the correlation "divergent", whatever the prices
    and the headlines. *)
Theorem news_impact_never_aligned :
  forall (polarity_scores : string -> vader_scores)
         (get_stock_news : option string -> nat -> result news_frame)
         (get_stock_price_history : string -> nat -> result frame)
         (symbol : string) (news_df : option news_frame),
    let r := analyze_stock_news_impact polarity_scores get_stock_news
               get_stock_price_history symbol news_df in
    is_Some (dict_lookup r "error") \/
    (dict_lookup r "correlation" = Some (PStr "divergent") /\
     exists x : Q,
       dict_lookup r "sentiment_score" = Some (PNum (Some x)) /\ x == 0).
Proof.
  intros ps news history symbol news_df. cbv zeta.
  unfold analyze_stock_news_impact, news_impact_body.
  destruct (history symbol 30%nat) as [stock_data|]; cbn; [|left; eauto].
  destruct (df_empty stock_data); cbn; [left; eauto|].
  assert (forall df : news_frame,
    let r :=
      match
        (if news_empty df
         then mret [("error", PStr "No news data available");
                    ("symbol", PStr symbol);
                    ("company", PStr (before_dot symbol))]
         else
           price_change ←
             (if (2 <=? index_len stock_data)%nat then
                close ← df_get stock_data "Close";
                start_price ← match close !! 0%nat with
                              | Some x => Ok x
                              | None => Raise "single positional indexer is out-of-bounds"
                              end;
                close ← df_get stock_data "Close";
                end_price ← iloc_last close;
                mret (cmul (cdiv (csub end_price start_price) start_price) (Some 100))
              else mret (Some 0));
           scores ← py_get (PDict (analyze_headlines ps df)) "sentiment_scores" (PDict []);
           sentiment_score ← py_get scores "compound" (PNum (Some 0));
           match sentiment_score with
           | PNum score =>
               mret [("symbol", PStr symbol);
                     ("company", PStr (before_dot symbol));
                     ("price_change", PNum price_change);
                     ("sentiment_score", PNum score);
                     ("correlation",
                      PStr (if cgt score (Some 0) && cgt price_change (Some 0)
                               || clt score (Some 0) && clt price_change (Some 0)
                            then "aligned" else "divergent"));
                     ("sentiment_analysis", PDict (analyze_headlines ps df))]
           | _ => Raise "'>' not supported between instances"
           end) : result pydict
      with
      | Ok r => r
      | Raise e => [("error", PStr e); ("symbol", PStr symbol)]
      end in
    is_Some (dict_lookup r "error") \/
    (dict_lookup r "correlation" = Some (PStr "divergent") /\
     exists x : Q,
       dict_lookup r "sentiment_score" = Some (PNum (Some x)) /\ x == 0))
    as Hbody.
  { intros df. cbv zeta.
    destruct (news_empty df); [left; cbn; eauto|].
    destruct (analyze_headlines_zero ps df) as (_ & (sc & x & H2 & H3 & Hx) & _).
    set (price_change := if (2 <=? _)%nat then _ else _).
    destruct price_change as [pc|e]; cbn -[cgt clt]; [|left; eauto].
    unfold dict_get. rewrite H2. cbn -[cgt clt].
    unfold dict_get. rewrite H3. cbn -[cgt clt].
    right. rewrite (cgt_zero x Hx), (clt_zero x Hx). cbn.
    split; [done|]. by exists x. }
  destruct news_df as [df|]; cbn.
  - apply Hbody.
  - destruct (news (Some (before_dot symbol)) 30%nat) as [df|]; cbn; [|left; eauto].
    apply Hbody.
Qed.

End StocksFacts.

(** ** Facts: the analysis of a stock *)

Module StockDataFacts.
Import PyStr Num Price Stocks StockData.

Local Open Scope Q_scope.





(** Twelve rows that end 10 per cent above the close four rows earlier: an
    uptrend, with the price above the 7-day average. *)
Example twelve_closes_uptrend :
  exists report : pydict,
    analysis_of_rows sqrt_stub (close_frame twelve_closes) "TCS" = Ok report /\
    dict_lookup report "trend" = Some (PStr "uptrend") /\
    dict_lookup2 report "moving_averages" "price_vs_ma7" = Some (PStr "above").
Proof. eexists. split; [vm_compute; reflexivity|]. split; reflexivity. Qed.

End StockDataFacts.

(** ** Facts: the routes *)

Module AppFacts.
Import PyStr Num Sentiment Price Stocks App.

(** *** sanitize_for_json *)

(** Induction on a value, with the induction hypothesis for every item of a
    list and every value of a dictionary. *)
Lemma pyval_nested_ind (P : pyval -> Prop) :
  P PNone ->
  (forall b, P (PBool b)) ->
  (forall x, P (PNum x)) ->
  (forall s, P (PStr s)) ->
  (forall l, Forall P l -> P (PList l)) ->
  (forall d, Forall (fun kv => P kv.2) d -> P (PDict d)) ->
  forall v, P v.
Proof.
  intros H1 H2 H3 H4 H5 H6. fix IH 1.
  intros [| | | |l|d]; [exact H1|apply H2|apply H3|apply H4| |].
  - apply H5. induction l as [|v l IHl]; constructor; [apply IH|exact IHl].
  - apply H6. induction d as [|[k v] d IHd]; constructor; [apply IH|exact IHd].
Qed.

Lemma sanitize_no_nan (data : pyval) : has_nan (sanitize_for_json data) = false.
Proof.
  induction data as [| |[x|]| |l IH|d IH] using pyval_nested_ind; try done.
  - cbn [sanitize_for_json has_nan].
    induction IH as [|v l Hv _ IHl]; [done|].
    cbn. by rewrite Hv, IHl.
  - cbn [sanitize_for_json has_nan].
    induction IH as [|[k v] d Hv _ IHd]; [done|].
    cbn in *. by rewrite Hv, IHd.
Qed.

Lemma sanitize_fixed (data : pyval) :
  has_nan data = false -> sanitize_for_json data = data.
Proof.
  induction data as [| |[x|]| |l IH|d IH] using pyval_nested_ind; try done.
  - cbn [sanitize_for_json has_nan]. intros H. f_equal.
    induction IH as [|v l Hv _ IHl]; [done|].
    cbn in H. apply orb_false_iff in H as [H1 H2].
    cbn. by rewrite Hv, IHl.
  - cbn [sanitize_for_json has_nan]. intros H. f_equal.
    induction IH as [|[k v] d Hv _ IHd]; [done|].
    cbn in H. apply orb_false_iff in H as [H1 H2].
    cbn in *. by rewrite Hv, IHd.
Qed.

(** X13. [sanitize_for_json] leaves no NaN at any depth of lists and
    dictionaries, returns a value without NaN as it is, and so changes
    nothing when it is applied a second time. *)
Theorem sanitize_for_json_removes_nan :
  forall data : pyval,
    has_nan (sanitize_for_json data) = false /\
    (has_nan data = false -> sanitize_for_json data = data) /\
    sanitize_for_json (sanitize_for_json data) = sanitize_for_json data.
Proof.
  intros data. split_and!.
  - apply sanitize_no_nan.
  - apply sanitize_fixed.
  - apply sanitize_fixed, sanitize_no_nan.
Qed.

Example sanitize_nan_report :
  has_nan nan_report = true /\
  sanitize_for_json nan_report =
    PDict [("volatility", PDict [("overall", PNone)]);
           ("prices", PList [PNum (Some 1%Q); PNone])].
Proof. split; reflexivity. Qed.

(** *** check_credentials *)



(** *** The sentiment of a text *)

Lemma fill_missing_text_result (r : text_result) :
  fill_missing (text_result_dict r) = text_result_dict r.
Proof. reflexivity. Qed.

(** X15. A request whose JSON body is an object with a text that is a
    string and is not empty is answered with status 200 and the
    dictionary of [analyze_text] as it is: the loop that fills in missing
    keys never adds one.  A text of white space only is such a text: it is
    answered with 200 and "No text provided", not with the 400 of an empty
    text. *)
Theorem analyze_text_sentiment_ok :
  forall (polarity_scores : string -> vader_scores) (d : pydict) (t : string),
    dict_lookup d "text" = Some (PStr t) ->
    t <> EmptyString ->
    analyze_text_sentiment polarity_scores (PDict d) =
      (200%nat, text_result_dict (analyze_text polarity_scores (Some t))) /\
    (is_empty (strip t) = true ->
     analyze_text_sentiment polarity_scores (PDict d) =
       (200%nat, text_result_dict no_text_result)).
Proof.
  intros ps d t Hd Ht.
  assert (analyze_text_sentiment ps (PDict d) =
            (200%nat, text_result_dict (analyze_text ps (Some t)))) as E.
  { unfold analyze_text_sentiment.
    assert (truthy (PDict d) = true) as -> by (by destruct d).
    cbn [negb py_get]. unfold dict_get. rewrite Hd.
    destruct t as [|c t]; [done|]. reflexivity. }
  split; [exact E|].
  intros Hb. rewrite E. unfold analyze_text, is_blank. rewrite Hb.
  by rewrite orb_true_r.
Qed.

Lemma analyze_text_sentiment_ok_witness :
  analyze_text_sentiment (constant_scores 0.5) (text_request unicode_blank) =
    (200%nat,
     text_result_dict
       (analyze_text (constant_scores 0.5) (Some unicode_blank))) /\
  (is_empty (strip unicode_blank) = true ->
   analyze_text_sentiment (constant_scores 0.5) (text_request unicode_blank) =
     (200%nat, text_result_dict no_text_result)).
Proof.
  apply (analyze_text_sentiment_ok (constant_scores 0.5)
           [("text", PStr unicode_blank)] unicode_blank).
  - reflexivity.
  - vm_compute. discriminate.
Defined.

(** X16. The status of [analyze_text_sentiment] is 200 only for a body
    that is an object with a text that is a string and is not empty; it is
    400 for a body that is false (missing, [null], empty) and for an
    object whose text is missing or false; every other body is answered
    with 500. *)
Theorem analyze_text_sentiment_status :
  forall (polarity_scores : string -> vader_scores) (data : pyval),
    let status := (analyze_text_sentiment polarity_scores data).1 in
    (status = 200%nat <->
     exists d t, data = PDict d /\ dict_lookup d "text" = Some (PStr t) /\
                 t <> EmptyString) /\
    (status = 400%nat <->
     truthy data = false \/
     exists d, data = PDict d /\
               truthy (dict_get d "text" (PStr EmptyString)) = false) /\
    (status = 200%nat \/ status = 400%nat \/ status = 500%nat).
Proof.
  intros ps data. cbv zeta.
  assert ((analyze_text_sentiment ps data).1 =
            if negb (truthy data) then 400%nat
            else match data with
                 | PDict d =>
                     let text := dict_get d "text" (PStr EmptyString) in
                     if negb (truthy text) then 400%nat
                     else match text with PStr _ => 200%nat | _ => 500%nat end
                 | _ => 500%nat
                 end) as ->.
  { unfold analyze_text_sentiment.
    destruct (truthy data); [|done]. cbn [negb].
    destruct data as [| | | | |d]; try done.
    cbn [py_get mbind]. cbn.
    destruct (truthy (dict_get d "text" (PStr EmptyString))) eqn:Ht; [|done].
    unfold analyze_text_value. rewrite Ht. cbn.
    by destruct (dict_get d "text" (PStr EmptyString)). }
  destruct (truthy data) eqn:Ht; cbn [negb].
  2:{ split_and!; [|naive_solver|auto].
      split; [done|]. intros (d & t & -> & Hd & _). by destruct d. }
  destruct data as [| | | | |d];
    try (split_and!; [naive_solver|naive_solver|auto]).
  cbv zeta. unfold dict_get.
  destruct (dict_lookup d "text") as [text|] eqn:Hd.
  2:{ cbn. split_and!; [naive_solver| |auto].
      split; [|done]. intros _. right. exists d. by rewrite Hd. }
  destruct (truthy text) eqn:Htext; cbn [negb].
  2:{ split_and!; [| |auto].
      - split; [done|]. intros (d' & t & [= <-] & Hd' & Hne).
        rewrite Hd in Hd'. injection Hd' as ->. by destruct t.
      - split; [|done]. intros _. right. exists d. by rewrite Hd. }
  assert (~ (truthy (PDict d) = false \/
             exists d0, PDict d = PDict d0 /\
               truthy match dict_lookup d0 "text" with
                      | Some v => v
                      | None => PStr EmptyString
                      end = false)) as Hno.
  { intros [H | (d0 & [= <-] & H)]; [congruence|].
    rewrite Hd in H. congruence. }
  destruct text as [| | |t| |];
    (split_and!; [naive_solver|naive_solver|auto]).
Qed.

(** *** The coins of a correlation request *)

Lemma split_comma_go_length (cur s : string) :
  length (split_comma_go cur s) = S (commas s).
Proof.
  revert cur. induction s as [|c s IH]; intros cur; [done|].
  cbn. destruct (Ascii.eqb c ","); cbn; by rewrite IH.
Qed.

Lemma demo_keys_spec (coin_id_list : list string) :
  NoDup (demo_keys coin_id_list) /\
  forall coin, coin ∈ demo_keys coin_id_list <-> coin ∈ coin_id_list.
Proof.
  unfold demo_keys.
  assert (forall l keys,
            NoDup keys ->
            let keys' :=
              foldl (fun keys coin_id =>
                       if bool_decide (coin_id ∈ keys) then keys
                       else keys ++ [coin_id]) keys l in
            NoDup keys' /\
            forall coin : string, coin ∈ keys' <-> coin ∈ keys \/ coin ∈ l)
    as H.
  { induction l as [|c l IH]; intros keys Hnd; cbv zeta.
    - cbn. split; [done|]. set_solver.
    - cbn [foldl]. case_bool_decide as Hin.
      + destruct (IH keys Hnd) as [H1 H2]. split; [done|].
        intros coin. rewrite H2. set_solver.
      + destruct (IH (keys ++ [c])) as [H1 H2].
        { apply NoDup_app. split_and!; [done|set_solver|].
          apply NoDup_singleton. }
        split; [done|]. intros coin. rewrite H2. set_solver. }
  destruct (H coin_id_list [] (NoDup_nil_2)) as [H1 H2].
  split; [done|]. intros coin. rewrite H2. set_solver.
Qed.

(** X17. [get_price_correlation] answers 400 "No coins specified" exactly
    for an empty parameter and 400 "At least two coins are required for
    correlation" exactly for a parameter that is not empty and has no
    comma: the list of coins has one entry more than the parameter has
    commas, so that every parameter with a comma passes, also when an
    entry is empty or repeated, as in [","] and ["bitcoin,bitcoin"]. *)
Theorem correlation_request_validation :
  forall (get_price_history : string -> Z -> result pyval)
         (coin_ids : string) (days : Z),
    let r := get_price_correlation get_price_history coin_ids days in
    length (split_comma coin_ids) = S (commas coin_ids) /\
    (r = Bad400 "No coins specified" <-> coin_ids = EmptyString) /\
    (r = Bad400 "At least two coins are required for correlation" <->
     coin_ids <> EmptyString /\ commas coin_ids = 0%nat) /\
    ((exists message, r = Bad400 message) <-> commas coin_ids = 0%nat).
Proof.
  intros history coin_ids days. cbv zeta.
  pose proof (split_comma_go_length EmptyString coin_ids) as Hlen.
  fold (split_comma coin_ids) in Hlen.
  split; [done|].
  unfold get_price_correlation.
  destruct coin_ids as [|c s] eqn:Hc; [cbn; naive_solver|].
  rewrite <- Hc in *. assert (is_empty coin_ids = false) as -> by (by subst).
  assert (coin_ids <> EmptyString) as Hne by (by subst).
  rewrite Hlen. clear Hlen.
  destruct (commas coin_ids) as [|n].
  - change (1 <? 2)%nat with true. cbv iota.
    split_and!; [naive_solver|naive_solver|]. split; [done|eauto].
  - change (S (S n) <? 2)%nat with false. cbv iota.
    destruct (foldl _ _ _) as [price_data hit].
    assert (forall r : outcome,
              (forall message, r <> Bad400 message) ->
              (r = Bad400 "No coins specified" <-> coin_ids = EmptyString) /\
              (r = Bad400 "At least two coins are required for correlation" <->
               coin_ids <> EmptyString /\ S n = 0%nat) /\
              ((exists message, r = Bad400 message) <-> S n = 0%nat)) as Hr.
    { intros r Hr. split_and!; split; try done.
      - intros H. by destruct (Hr _ H).
      - intros H. by destruct (Hr _ H).
      - by intros [_ ?].
      - intros [m H]. by destruct (Hr _ H). }
    destruct hit; cbn [orb]; [by apply Hr|].
    destruct (length price_data <? 2)%nat; by apply Hr.
Qed.

(** *** Which matrix is computed *)

Lemma collect_step_hit get_price_history (days : Z) (coins : list string)
    (price_data : pydict) :
  (foldl (collect_step get_price_history days) (price_data, true) coins).2 = true.
Proof.
  revert price_data. induction coins as [|c coins IH]; intros pd; [done|].
  cbn [foldl]. unfold collect_step at 2.
  destruct (coin_prices _ _ _) as [prices|]; [|apply IH].
  destruct (negb _); apply IH.
Qed.

Lemma dict_lookup_set (d : pydict) (key key' : string) (v : pyval) :
  dict_lookup (pydict_set d key v) key' =
    if decide (key = key') then Some v else dict_lookup d key'.
Proof.
  case_decide as E.
  - subst. apply StocksFacts.pydict_set_lookup.
  - by apply StocksFacts.pydict_set_lookup_ne.
Qed.

(** The loop over the coins, when it ends without [hit_rate_limit]. *)
Lemma collect_loop_clean get_price_history (days : Z) (coins : list string)
    (price_data price_data' : pydict) :
  foldl (collect_step get_price_history days) (price_data, false) coins =
    (price_data', false) ->
  (forall coin, coin ∈ coins ->
     exists prices,
       coin_prices get_price_history coin days = Ok prices /\
       prices <> [] /\
       dict_lookup price_data' coin = Some (PList prices)) /\
  (forall coin, coin ∉ coins ->
     dict_lookup price_data' coin = dict_lookup price_data coin).
Proof.
  revert price_data. induction coins as [|c coins IH]; intros pd H.
  - cbn in H. injection H as <-. split; [set_solver|done].
  - cbn [foldl] in H. unfold collect_step at 2 in H.
    destruct (coin_prices get_price_history c days) as [prices|] eqn:Hc.
    2:{ pose proof (collect_step_hit get_price_history days coins pd) as Hh.
        rewrite H in Hh. done. }
    case_bool_decide as Hlen; cbn [negb] in H.
    { pose proof (collect_step_hit get_price_history days coins pd) as Hh.
      rewrite H in Hh. done. }
    destruct (IH _ H) as [IH1 IH2]. split.
    + intros coin Hin. destruct (decide (coin ∈ coins)) as [Hc'|Hc'].
      * by apply IH1.
      * assert (coin = c) as -> by set_solver.
        exists prices. split_and!; [done|by destruct prices|].
        rewrite IH2 by done. rewrite dict_lookup_set. by rewrite decide_True.
    + intros coin Hin. rewrite IH2 by set_solver.
      rewrite dict_lookup_set. rewrite decide_False; [done|set_solver].
Qed.

(** X18. [get_price_correlation] never reaches its response 500 "Could not
    get price data for at least two coins": the test before it sends
    every such request to the demo data.  Its answer is a 400, or the demo
    matrix over the requested coins, each taken once, or the live
    matrix. *)
Theorem correlation_request_never_500 :
  forall (get_price_history : string -> Z -> result pyval)
         (coin_ids : string) (days : Z),
    let r := get_price_correlation get_price_history coin_ids days in
    (exists message, r = Bad400 message) \/
    (exists keys,
       r = Demo keys /\ NoDup keys /\
       forall coin, coin ∈ keys <-> coin ∈ split_comma coin_ids) \/
    (exists price_data, r = Live price_data).
Proof.
  intros history coin_ids days. cbv zeta. unfold get_price_correlation.
  destruct (is_empty coin_ids); [left; eauto|].
  destruct (_ <? 2)%nat; [left; eauto|].
  destruct (foldl _ _ _) as [price_data hit].
  destruct hit; cbn [orb].
  - right. left. eexists. split; [done|]. apply demo_keys_spec.
  - destruct (length price_data <? 2)%nat.
    + right. left. eexists. split; [done|]. apply demo_keys_spec.
    + right. right. eauto.
Qed.

(** X19. The live matrix is computed only when the price list of every
    requested coin was read and is not empty, and the price data then
    holds under each requested coin, and under no other key, the list of
    the second items of its points; there are at least two coins in it. *)
Theorem correlation_request_live :
  forall (get_price_history : string -> Z -> result pyval)
         (coin_ids : string) (days : Z) (price_data : pydict),
    get_price_correlation get_price_history coin_ids days = Live price_data ->
    (forall coin, coin ∈ split_comma coin_ids ->
       exists prices,
         coin_prices get_price_history coin days = Ok prices /\
         prices <> [] /\
         dict_lookup price_data coin = Some (PList prices)) /\
    (forall coin, coin ∉ split_comma coin_ids ->
       dict_lookup price_data coin = None) /\
    (2 <= length price_data)%nat.
Proof.
  intros history coin_ids days pd. unfold get_price_correlation.
  destruct (is_empty coin_ids); [done|].
  destruct (_ <? 2)%nat; [done|].
  destruct (foldl _ _ _) as [price_data hit] eqn:Hf.
  destruct hit; cbn [orb]; [done|].
  destruct (length price_data <? 2)%nat eqn:Hlen; [done|].
  intros [= <-]. apply Nat.ltb_ge in Hlen.
  destruct (collect_loop_clean _ _ _ _ _ Hf) as [H1 H2].
  split_and!; [done| |done].
  intros coin Hin. by rewrite H2.
Qed.

Lemma correlation_request_live_witness :
  (forall coin, coin ∈ split_comma "bitcoin,ethereum" ->
     exists prices,
       coin_prices pair_service coin 30 = Ok prices /\
       prices <> [] /\
       dict_lookup
         [("bitcoin", PList [PNum (Some 100%Q); PNum (Some 110%Q)]);
          ("ethereum", PList [PNum (Some 100%Q); PNum (Some 110%Q)])]
         coin = Some (PList prices)) /\
  (forall coin, coin ∉ split_comma "bitcoin,ethereum" ->
     dict_lookup
       [("bitcoin", PList [PNum (Some 100%Q); PNum (Some 110%Q)]);
        ("ethereum", PList [PNum (Some 100%Q); PNum (Some 110%Q)])]
       coin = None) /\
  (2 <= length
          [("bitcoin", PList [PNum (Some 100%Q); PNum (Some 110%Q)]);
           ("ethereum", PList [PNum (Some 100%Q); PNum (Some 110%Q)])])%nat.
Proof.
  apply (correlation_request_live pair_service "bitcoin,ethereum" 30).
  reflexivity.
Defined.

Lemma list_comprehension_records (points : list pyval) :
  forallb is_record points = true ->
  points = [] \/ exists e, list_comprehension subscript_1 points = Raise e.
Proof.
  destruct points as [|p points]; [by left|].
  cbn. intros H. apply andb_true_iff in H as [Hp _].
  right. destruct p; try done. cbn. eauto.
Qed.

Lemma coin_prices_records get_price_history (coin : string) (days : Z)
    (price_history : pyval) :
  get_price_history coin days = Ok price_history ->
  record_history price_history = true ->
  coin_prices get_price_history coin days = Ok [] \/
  exists e, coin_prices get_price_history coin days = Raise e.
Proof.
  intros Hh Hr. unfold coin_prices. rewrite Hh. cbn.
  destruct price_history as [| | | | |h]; try done. cbn in *.
  unfold dict_get.
  destruct (dict_lookup h "prices") as [[| | | |points|]|]; try done.
  cbn. destruct (list_comprehension_records points Hr) as [-> | [e ->]].
  - by left.
  - right. eauto.
Qed.

(** X20. With price histories whose points are dictionaries, as
    [CoinGeckoService.get_price_history] builds them (a timestamp, a date
    and a price under string keys), [point[1]] fails or the list is
    empty for every coin, and every request that passes the validation is
    answered from the demo data: the live matrix is not computed. *)
Theorem correlation_request_records_demo :
  forall (get_price_history : string -> Z -> result pyval)
         (coin_ids : string) (days : Z),
    (0 < commas coin_ids)%nat ->
    (forall coin, coin ∈ split_comma coin_ids ->
       exists price_history,
         get_price_history coin days = Ok price_history /\
         record_history price_history = true) ->
    get_price_correlation get_price_history coin_ids days =
      Demo (demo_keys (split_comma coin_ids)).
Proof.
  intros history coin_ids days Hc Hrec. unfold get_price_correlation.
  pose proof (split_comma_go_length EmptyString coin_ids) as Hlen.
  fold (split_comma coin_ids) in Hlen.
  destruct coin_ids as [|c s] eqn:E; [cbn in Hc; lia|]. rewrite <- E in *.
  assert (is_empty coin_ids = false) as -> by (by subst).
  destruct (_ <? 2)%nat eqn:Hl; [apply Nat.ltb_lt in Hl; lia|].
  destruct (split_comma coin_ids) as [|coin coins] eqn:Hs; [cbn in Hlen; lia|].
  cbn [foldl]. unfold collect_step at 2.
  destruct (Hrec coin) as (ph & Hh & Hr); [by left|].
  assert ((foldl (collect_step history days)
             (match coin_prices history coin days with
              | Ok prices =>
                  if negb (bool_decide (length prices = 0%nat))
                  then (pydict_set [] coin (PList prices), false)
                  else ([], true)
              | Raise _ => ([], true)
              end) coins).2 = true) as Hhit.
  { destruct (coin_prices_records history coin days ph Hh Hr) as [-> | [e ->]];
      cbn; apply collect_step_hit. }
  destruct (foldl _ _ coins) as [price_data hit]. cbn in Hhit. by subst.
Qed.

Lemma correlation_request_records_demo_witness :
  get_price_correlation record_service "bitcoin,ethereum" 30 =
    Demo (demo_keys (split_comma "bitcoin,ethereum")).
Proof.
  apply (correlation_request_records_demo record_service "bitcoin,ethereum" 30).
  - cbn. lia.
  - intros coin _. eexists. split; reflexivity.
Defined.

End AppFacts.
